(** * OEE analysis of an FMCG production line: model and verified properties

    A shallow embedding of the numeric core of the repository:
    - [oee_analysis.py]: [OEEAnalyzer.generate_production_data] (the record
      simulator) and [OEEAnalyzer.calculate_oee_metrics] (the OEE calculator),
      the group-wise analyses [machine_wise_analysis], [shift_wise_analysis]
      and [monthly_trend_analysis], and [main];
    - [detailed_analysis.py]: [DetailedOEEAnalysis.downtime_pareto_analysis],
      [speed_loss_analysis] and [quality_loss_analysis] (the loss analyzer);
    - [improvement_recommendations.py]:
      [OEEImprovementPlan.simulate_improvement_impact].

    Numbers.  The program computes with IEEE doubles (Python floats, numpy
    float64 columns).  The model computes with exact rationals extended by the
    three special values a float64 column can hold (+inf, -inf, NaN), with the
    IEEE rules for division by zero; rounding error of the binary format and
    the sign of zero are not modelled.

    Objects.  A pandas DataFrame is a mutable object: the model keeps the
    tables in a heap indexed by object identity, so that [df['X'] = ...]
    is an update in place and [df.copy()] allocates a new table.

    Randomness.  Every draw of [random] and [np.random] is an input of the
    model (a record of draws per loop iteration), constrained to the range the
    library function can return. *)

From Stdlib Require Import ZArith QArith Qround Qminmax Lqa Lia List String.
From Stdlib Require OrderedTypeEx.
From stdpp Require Import base option list strings gmap.

Local Open Scope Z_scope.
Local Open Scope Q_scope.

(* ===================================================================== *)
(** ** Rational helpers: truncation and decimal rounding *)
(* ===================================================================== *)

Module Rat.

(** Python's [int(x)] on a float: truncation toward zero. *)
Definition trunc (q : Q) : Z := Z.quot (Qnum q) (Z.pos (Qden q)).

(** Rounding to the nearest integer, ties to the even one: the rule of
    Python's [round] and of numpy's [around]. *)
Definition round_half_even (q : Q) : Z :=
  let f := Qfloor q in
  match Qcompare (q - inject_Z f) (1 # 2) with
  | Lt => f
  | Gt => (f + 1)%Z
  | Eq => if Z.even f then f else (f + 1)%Z
  end.

(** [round(x, ndigits)] / [Series.round(ndigits)]. *)
Definition round_dec (ndigits : nat) (q : Q) : Q :=
  let scale := inject_Z (10 ^ Z.of_nat ndigits) in
  Qred (inject_Z (round_half_even (q * scale)) / scale).

Definition ltb (x y : Q) : bool := negb (Qle_bool y x).
Definition eqb (x y : Q) : bool := Qeq_bool x y.

End Rat.

(* ===================================================================== *)
(** ** Float64 cells: rationals with +inf, -inf and NaN *)
(* ===================================================================== *)

Inductive num : Type :=
| Fin (q : Q)
| PInf
| NInf
| NaN.

Module Num.

Definition add (a b : num) : num :=
  match a, b with
  | NaN, _ | _, NaN => NaN
  | Fin x, Fin y => Fin (Qred (x + y))
  | PInf, NInf | NInf, PInf => NaN
  | PInf, _ | _, PInf => PInf
  | NInf, _ | _, NInf => NInf
  end.

Definition opp (a : num) : num :=
  match a with
  | Fin x => Fin (Qred (- x))
  | PInf => NInf
  | NInf => PInf
  | NaN => NaN
  end.

Definition sub (a b : num) : num :=
  match a, b with
  | Fin x, Fin y => Fin (Qred (x - y))
  | _, _ => add a (opp b)
  end.

(** Sign of a cell: [Some Gt] positive, [Some Lt] negative, [Some Eq] zero,
    [None] for NaN. *)
Definition sign (a : num) : option comparison :=
  match a with
  | Fin x => Some (Qcompare x 0)
  | PInf => Some Gt
  | NInf => Some Lt
  | NaN => None
  end.

(** The infinity of the sign of a product or quotient of two non-zero
    cells. *)
Definition inf_of_signs (s t : comparison) : num :=
  match s, t with
  | Gt, Gt | Lt, Lt => PInf
  | Gt, Lt | Lt, Gt => NInf
  | _, _ => NaN
  end.

Definition mul (a b : num) : num :=
  match a, b with
  | Fin x, Fin y => Fin (Qred (x * y))
  | _, _ =>
      match sign a, sign b with
      | Some s, Some t => inf_of_signs s t   (* inf * 0 = NaN *)
      | _, _ => NaN
      end
  end.

(** Division as numpy performs it on float64 (and on integer columns, which
    true division converts to float64): no exception; [x / 0] is an
    infinity of the sign of [x], [0 / 0] is NaN. *)
Definition div (a b : num) : num :=
  match a, b with
  | NaN, _ | _, NaN => NaN
  | Fin x, Fin y =>
      if Rat.eqb y 0 then inf_of_signs (Qcompare x 0) Gt
      else Fin (Qred (x / y))
  | Fin _, _ => Fin 0
  | _, Fin y =>
      match sign a with
      | Some s => inf_of_signs s (if Rat.ltb y 0 then Lt else Gt)
      | None => NaN
      end
  | _, _ => NaN                               (* inf / inf *)
  end.

(** [a > b] as an elementwise comparison: false whenever NaN is involved. *)
Definition gtb (a b : num) : bool :=
  match a, b with
  | Fin x, Fin y => Rat.ltb y x
  | PInf, Fin _ | PInf, NInf | Fin _, NInf => true
  | _, _ => false
  end.

(** [clip(upper=u)]: NaN is left alone. *)
Definition clip_upper (u : Q) (a : num) : num :=
  match a with
  | Fin x => if Rat.ltb u x then Fin u else Fin x
  | PInf => Fin u
  | NInf => NInf
  | NaN => NaN
  end.

(** [round(decimals)]: infinities and NaN are left alone. *)
Definition round (ndigits : nat) (a : num) : num :=
  match a with
  | Fin x => Fin (Rat.round_dec ndigits x)
  | _ => a
  end.

Definition is_nan (a : num) : bool :=
  match a with NaN => true | _ => false end.

Definition of_Z (z : Z) : num := Fin (inject_Z z).

End Num.

(* ===================================================================== *)
(** ** pandas: Series, DataFrame, and the object heap *)
(* ===================================================================== *)

(** A column is a float64/int64 Series or a Series of strings. *)
Inductive Series : Type :=
| NumSeries (xs : list num)
| StrSeries (xs : list string).

(** A DataFrame maps column names to columns (all of one length). *)
Abbreviation DataFrame := (gmap string Series).

Module Ser.

(** Elementwise arithmetic of two columns of one frame (same index). *)
Definition sub (xs ys : list num) : list num := zip_with Num.sub xs ys.
Definition mul (xs ys : list num) : list num := zip_with Num.mul xs ys.
Definition div (xs ys : list num) : list num := zip_with Num.div xs ys.

(** Arithmetic with a scalar on the right. *)
Definition mul_scalar (xs : list num) (k : Q) : list num :=
  map (fun x => Num.mul x (Fin k)) xs.
Definition div_scalar (xs : list num) (k : Q) : list num :=
  map (fun x => Num.div x (Fin k)) xs.

Definition clip_upper (u : Q) (xs : list num) : list num :=
  map (Num.clip_upper u) xs.
Definition round (ndigits : nat) (xs : list num) : list num :=
  map (Num.round ndigits) xs.

(** [Series.sum()] (skipna=True): NaN entries are skipped, the empty sum
    is 0. *)
Definition sum (xs : list num) : num :=
  fold_left (fun acc x => if Num.is_nan x then acc else Num.add acc x)
            xs (Fin 0).

(** [Series.count()]: the number of non-NaN entries. *)
Definition count (xs : list num) : num :=
  Num.of_Z (Z.of_nat (length (List.filter (fun x => negb (Num.is_nan x)) xs))).

(** [Series.mean()] (skipna=True): NaN on an empty selection. *)
Definition mean (xs : list num) : num := Num.div (sum xs) (count xs).

(** [Series.cumsum()] (skipna=True): a NaN entry stays NaN and does not
    enter the running sum. *)
Fixpoint cumsum_from (acc : num) (xs : list num) : list num :=
  match xs with
  | [] => []
  | x :: xs' =>
      if Num.is_nan x then NaN :: cumsum_from acc xs'
      else let acc' := Num.add acc x in acc' :: cumsum_from acc' xs'
  end.
Definition cumsum (xs : list num) : list num := cumsum_from (Fin 0) xs.

End Ser.

(** Object identity of a DataFrame: its position in the heap. *)
Definition loc := nat.

(** The fields of the one [OEEAnalyzer] object of a run ([None] is Python's
    [None], the value [__init__] gives them). *)
Record OEEAnalyzer : Type := mkAnalyzer {
  raw_data : option loc;
  oee_results : option loc
}.

Record State : Type := mkState {
  heap : list DataFrame;
  analyzer : OEEAnalyzer
}.

Definition init_state : State :=
  {| heap := []; analyzer := {| raw_data := None; oee_results := None |} |}.

(** Computations that read and update the state and may raise
    ([None]: [KeyError], [TypeError], ...). *)
Definition M (A : Type) : Type := State -> option (A * State).

Definition ret {A} (a : A) : M A := fun s => Some (a, s).
Definition raise {A} : M A := fun _ => None.
Definition bind {A B} (m : M A) (k : A -> M B) : M B :=
  fun s => match m s with
           | Some (a, s') => k a s'
           | None => None
           end.

Declare Scope py_scope.
Delimit Scope py_scope with py.
Notation "'let*' x ':=' m 'in' k" := (bind m (fun x => k))
  (at level 10, x pattern, m at level 100, k at level 200) : py_scope.
Notation "m ';;' k" := (bind m (fun _ => k))
  (at level 100, k at level 200, right associativity) : py_scope.

Module Py.

(** [pd.DataFrame(...)], or any expression that builds a new table. *)
Definition new (t : DataFrame) : M loc :=
  fun s => Some (length (heap s),
                 {| heap := heap s ++ [t]; analyzer := analyzer s |}).

Definition frame (l : loc) : M DataFrame :=
  fun s => match heap s !! l with
           | Some t => Some (t, s)
           | None => None
           end.

(** [df.copy()]. *)
Definition copy (l : loc) : M loc :=
  bind (frame l) new.

(** [df[c]] read as a numeric column; a missing column raises [KeyError]
    (arithmetic on a column of strings raises [TypeError]). *)
Definition num_col (l : loc) (c : string) : M (list num) :=
  bind (frame l) (fun t =>
    match t !! c with
    | Some (NumSeries xs) => ret xs
    | _ => raise
    end).

Definition str_col (l : loc) (c : string) : M (list string) :=
  bind (frame l) (fun t =>
    match t !! c with
    | Some (StrSeries xs) => ret xs
    | _ => raise
    end).

(** [df[c] = xs]: the table itself is updated. *)
Definition set_col (l : loc) (c : string) (xs : Series) : M unit :=
  fun s => match heap s !! l with
           | Some t => Some (tt, {| heap := <[l := <[c := xs]> t]> (heap s);
                                    analyzer := analyzer s |})
           | None => None
           end.

(** A field that must hold a table: subscripting [None] raises. *)
Definition deref (f : option loc) : M loc :=
  match f with
  | Some l => ret l
  | None => raise
  end.

Definition set_raw_data (l : loc) : M unit :=
  fun s => Some (tt, {| heap := heap s;
                        analyzer := {| raw_data := Some l;
                                       oee_results := oee_results (analyzer s) |} |}).

Definition set_oee_results (l : loc) : M unit :=
  fun s => Some (tt, {| heap := heap s;
                        analyzer := {| raw_data := raw_data (analyzer s);
                                       oee_results := Some l |} |}).

Definition get_analyzer : M OEEAnalyzer := fun s => Some (analyzer s, s).

End Py.

(* ===================================================================== *)
(** ** Calendar: [datetime + timedelta], [weekday()], [strftime] *)
(* ===================================================================== *)

Module Calendar.

Local Open Scope Z_scope.

(** Days from 1970-01-01 to [datetime(2025, 7, 1)]. *)
Definition start_date : Z := 20270.

(** [weekday()]: Monday is 0, Sunday is 6 (1970-01-01 was a Thursday). *)
Definition weekday (days : Z) : Z := (days + 3) mod 7.

(** Year, month and day of a day number (proleptic Gregorian calendar). *)
Definition civil (days : Z) : Z * Z * Z :=
  let z := days + 719468 in
  let era := z / 146097 in
  let doe := z - era * 146097 in
  let yoe := (doe - doe / 1460 + doe / 36524 - doe / 146096) / 365 in
  let doy := doe - (365 * yoe + yoe / 4 - yoe / 100) in
  let mp := (5 * doy + 2) / 153 in
  let d := doy - (153 * mp + 2) / 5 + 1 in
  let m := if mp <? 10 then mp + 3 else mp - 9 in
  let y := yoe + era * 400 + (if m <=? 2 then 1 else 0) in
  (y, m, d).

Definition digit (z : Z) : string :=
  String (Ascii.ascii_of_nat (48 + Z.to_nat (z mod 10))) EmptyString.

(** [width] decimal digits of [z], zero padded. *)
Fixpoint digits (width : nat) (z : Z) : string :=
  match width with
  | O => EmptyString
  | S w => String.append (digits w (z / 10)) (digit z)
  end.

(** [strftime('%Y-%m-%d')]. *)
Definition strftime (days : Z) : string :=
  let '(y, m, d) := civil days in
  String.append (digits 4 y)
    (String.append "-" (String.append (digits 2 m)
      (String.append "-" (digits 2 d)))).

End Calendar.

(* ===================================================================== *)
(** ** The record simulator: [OEEAnalyzer.generate_production_data] *)
(* ===================================================================== *)

(** [self.shifts] and [self.machines]. *)
Inductive shift : Type := Morning | Afternoon | Night.
Inductive machine : Type := Mixer | Filler | Packer | Conveyor.

Definition shift_name (s : shift) : string :=
  match s with
  | Morning => "Morning" | Afternoon => "Afternoon" | Night => "Night"
  end.

Definition machine_name (m : machine) : string :=
  match m with
  | Mixer => "Mixer" | Filler => "Filler"
  | Packer => "Packer" | Conveyor => "Conveyor"
  end.

(** [self.planned_production_minutes]. *)
Definition planned_production_minutes (s : shift) : Z :=
  match s with
  | Morning => 480
  | Afternoon => 480
  | Night => 420
  end.

(** [self.cycle_times[machine]['ideal']]. *)
Definition ideal_cycle_time (m : machine) : Q :=
  match m with
  | Mixer => 45
  | Filler => 5 # 2
  | Packer => 3
  | Conveyor => 9 # 5
  end.

(** [self.cycle_times[machine]['actual_range']]. *)
Definition actual_range (m : machine) : Q * Q :=
  match m with
  | Mixer => (48, 65)
  | Filler => (14 # 5, 21 # 5)
  | Packer => (16 # 5, 24 # 5)
  | Conveyor => (19 # 10, 5 # 2)
  end.

Definition downtime_mean (m : machine) : Q :=
  match m with
  | Mixer => 45
  | Filler => 35
  | Packer => 25
  | Conveyor => 15
  end.

(** Bounds of the defect-rate draw. *)
Definition defect_range (m : machine) : Q * Q :=
  match m with
  | Filler => (4 # 5, 7 # 2)
  | Packer => (1 # 2, 2)
  | _ => (1 # 5, 1)
  end.

(** The random draws of one loop iteration, in program order. *)
Record Draws : Type := mkDraws {
  days_offset : Z;       (* random.randint(0, 180) *)
  weekend_draw : Q;      (* random.random(), drawn on a Sunday only *)
  shift_draw : shift;    (* random.choice(self.shifts) *)
  machine_draw : machine;(* random.choice(self.machines) *)
  normal_draw : Q;       (* the standard normal variate behind
                            np.random.normal(downtime_mean, 15) *)
  reason_draw : bool;    (* random.choice of a two-element list:
                            false picks the first, true the second *)
  cycle_draw : Q;        (* np.random.uniform over actual_range *)
  defect_draw : Q        (* np.random.uniform(lo, hi) of the defect rate *)
}.

(** What the library functions can return. *)
Definition in_range (r : Q * Q) (x : Q) : Prop := fst r <= x /\ x <= snd r.

Record valid_draws (d : Draws) : Prop := mkValid {
  valid_offset : (0 <= days_offset d <= 180)%Z;
  valid_weekend : 0 <= weekend_draw d /\ weekend_draw d < 1;
  valid_cycle : in_range (actual_range (machine_draw d)) (cycle_draw d);
  valid_defect : in_range (defect_range (machine_draw d)) (defect_draw d)
}.

(** One row of the table: the dict appended to [data]. *)
Record ProductionRecord : Type := mkRecord {
  Date : string;
  Shift : string;
  Machine_Name : string;
  Planned_Production_Time : Z;
  Downtime_Minutes : Q;
  Downtime_Reason : string;
  Ideal_Cycle_Time : Q;
  Actual_Cycle_Time : Q;
  Total_Units_Produced : Z;
  Defective_Units : Z;
  Good_Units : Z
}.

(** Python's [max(a, b)] and [min(a, b)] on two arguments: the first
    argument wins ties. *)
Definition py_max (a b : Q) : Q := if Rat.ltb a b then b else a.
Definition py_min (a b : Q) : Q := if Rat.ltb b a then b else a.

Definition choice2 (pick : bool) (x y : string) : string :=
  if pick then y else x.

(** The downtime after the two clamps (lines 87-88). *)
Definition clamped_downtime (d : Draws) : Q :=
  let planned_time := planned_production_minutes (shift_draw d) in
  let downtime_minutes :=
    py_max 0 (downtime_mean (machine_draw d) + 15 * normal_draw d) in
  py_min downtime_minutes (inject_Z planned_time * (1 # 2)).

(** The reason assigned to a clamped downtime (lines 91-99). *)
Definition assign_reason (pick : bool) (downtime_minutes : Q) : string :=
  if Rat.ltb 0 downtime_minutes then
    if Rat.ltb 60 downtime_minutes then choice2 pick "Breakdown" "Changeover"
    else if Rat.ltb 30 downtime_minutes then choice2 pick "Cleaning" "Breakdown"
    else choice2 pick "Minor Stoppage" "Power Failure"
  else "None".

(** The outcome of one iteration of the loop. *)
Inductive attempt : Type :=
| Skipped                          (* [continue] *)
| Appended (r : ProductionRecord)  (* [data.append({...})] *)
| ZeroDivision.                    (* float division by zero raises *)

(** The body of the [for] loop (lines 63-131). *)
Definition generate_record (d : Draws) : attempt :=
  let current_date := (Calendar.start_date + days_offset d)%Z in
  if (6 <=? Calendar.weekday current_date)%Z
     && Rat.ltb (weekend_draw d) (7 # 10)
  then Skipped
  else
    let shift := shift_draw d in
    let machine := machine_draw d in
    let planned_time := planned_production_minutes shift in
    let downtime_minutes := clamped_downtime d in
    let reason := assign_reason (reason_draw d) downtime_minutes in
    let ideal_cycle := ideal_cycle_time machine in
    let actual_cycle := cycle_draw d in
    let available_time := inject_Z planned_time - downtime_minutes in
    if Rat.eqb actual_cycle 0 then ZeroDivision
    else
      let total_units := Rat.trunc (available_time * 60 / actual_cycle) in
      let defect_rate := defect_draw d in
      let defective_units :=
        Rat.trunc (inject_Z total_units * defect_rate / 100) in
      Appended
        {| Date := Calendar.strftime current_date;
           Shift := shift_name shift;
           Machine_Name := machine_name machine;
           Planned_Production_Time := planned_time;
           Downtime_Minutes := Rat.round_dec 1 downtime_minutes;
           Downtime_Reason := reason;
           Ideal_Cycle_Time := ideal_cycle;
           Actual_Cycle_Time := Rat.round_dec 2 actual_cycle;
           Total_Units_Produced := total_units;
           Defective_Units := defective_units;
           Good_Units := (total_units - defective_units)%Z |}.

(** The whole loop: [data] after all iterations, or [None] if one raised. *)
Fixpoint generate_rows (draws : list Draws) : option (list ProductionRecord) :=
  match draws with
  | [] => Some []
  | d :: rest =>
      match generate_record d with
      | Skipped => generate_rows rest
      | Appended r =>
          match generate_rows rest with
          | Some data => Some (r :: data)
          | None => None
          end
      | ZeroDivision => None
      end
  end.

(** [pd.DataFrame(data)] for a list of dicts with these eleven keys: no
    rows means no columns. *)
Definition DataFrame_of (data : list ProductionRecord) : DataFrame :=
  match data with
  | [] => ∅
  | _ =>
    <["Date" := StrSeries (map Date data)]>
    (<["Shift" := StrSeries (map Shift data)]>
    (<["Machine_Name" := StrSeries (map Machine_Name data)]>
    (<["Planned_Production_Time" :=
         NumSeries (map (fun r => Num.of_Z (Planned_Production_Time r)) data)]>
    (<["Downtime_Minutes" :=
         NumSeries (map (fun r => Fin (Downtime_Minutes r)) data)]>
    (<["Downtime_Reason" := StrSeries (map Downtime_Reason data)]>
    (<["Ideal_Cycle_Time" :=
         NumSeries (map (fun r => Fin (Ideal_Cycle_Time r)) data)]>
    (<["Actual_Cycle_Time" :=
         NumSeries (map (fun r => Fin (Actual_Cycle_Time r)) data)]>
    (<["Total_Units_Produced" :=
         NumSeries (map (fun r => Num.of_Z (Total_Units_Produced r)) data)]>
    (<["Defective_Units" :=
         NumSeries (map (fun r => Num.of_Z (Defective_Units r)) data)]>
    (<["Good_Units" :=
         NumSeries (map (fun r => Num.of_Z (Good_Units r)) data)]>
     ∅))))))))))
  end.

Local Open Scope py_scope.

(** [generate_production_data]: one iteration per element of [draws]
    ([num_records = len(draws)]).  The summary printed at the end reads
    [df['Date']], which raises [KeyError] on a table without rows. *)
Definition generate_production_data (draws : list Draws) : M loc :=
  match generate_rows draws with
  | None => raise
  | Some data =>
      let* df := Py.new (DataFrame_of data) in
      Py.set_raw_data df;;
      let* _ := Py.str_col df "Date" in
      let* _ := Py.str_col df "Machine_Name" in
      let* _ := Py.num_col df "Total_Units_Produced" in
      ret df
  end.

(* ===================================================================== *)
(** ** The OEE calculator: [OEEAnalyzer.calculate_oee_metrics] *)
(* ===================================================================== *)

(** Lines 150-162: the four metrics before the cap, each assigned to the
    table [df] itself. *)
Definition raw_metrics (df : loc) : M unit :=
  (* Availability = (Planned - Downtime) / Planned * 100 *)
  let* planned := Py.num_col df "Planned_Production_Time" in
  let* downtime := Py.num_col df "Downtime_Minutes" in
  Py.set_col df "Availability"
    (NumSeries (Ser.mul_scalar
                  (Ser.div (Ser.sub planned downtime) planned) 100));;
  (* Performance = Ideal * Units / (operating_time * 60) * 100 *)
  let* planned := Py.num_col df "Planned_Production_Time" in
  let* downtime := Py.num_col df "Downtime_Minutes" in
  let operating_time := Ser.sub planned downtime in
  let* ideal := Py.num_col df "Ideal_Cycle_Time" in
  let* units := Py.num_col df "Total_Units_Produced" in
  Py.set_col df "Performance"
    (NumSeries (Ser.mul_scalar
                  (Ser.div (Ser.mul ideal units)
                           (Ser.mul_scalar operating_time 60)) 100));;
  (* Quality = Good / Total * 100 *)
  let* good := Py.num_col df "Good_Units" in
  let* units := Py.num_col df "Total_Units_Produced" in
  Py.set_col df "Quality"
    (NumSeries (Ser.mul_scalar (Ser.div good units) 100));;
  (* OEE = Availability * Performance * Quality / 10000 *)
  let* availability := Py.num_col df "Availability" in
  let* performance := Py.num_col df "Performance" in
  let* quality := Py.num_col df "Quality" in
  Py.set_col df "OEE"
    (NumSeries (Ser.div_scalar
                  (Ser.mul (Ser.mul availability performance) quality)
                  10000)).

(** Lines 165-166: [df[metric_cols] = df[metric_cols].clip(upper=100)]. *)
Definition clip_metrics (df : loc) : M unit :=
  let* availability := Py.num_col df "Availability" in
  let* performance := Py.num_col df "Performance" in
  let* quality := Py.num_col df "Quality" in
  let* oee := Py.num_col df "OEE" in
  Py.set_col df "Availability" (NumSeries (Ser.clip_upper 100 availability));;
  Py.set_col df "Performance" (NumSeries (Ser.clip_upper 100 performance));;
  Py.set_col df "Quality" (NumSeries (Ser.clip_upper 100 quality));;
  Py.set_col df "OEE" (NumSeries (Ser.clip_upper 100 oee)).

(** The method: it works on the table it is given, keeps a copy in
    [self.oee_results] and returns the table it was given.  (The summary
    printed before the return reads the means of the four columns just
    set.) *)
Definition calculate_oee_metrics (df : loc) : M loc :=
  raw_metrics df;;
  clip_metrics df;;
  let* snapshot := Py.copy df in
  Py.set_oee_results snapshot;;
  ret df.

(* ===================================================================== *)
(** ** pandas: row selection, grouping, ordering *)
(* ===================================================================== *)

Module Frame.

(** [xs[mask]]: the entries where the boolean mask holds. *)
Fixpoint select {A} (mask : list bool) (xs : list A) : list A :=
  match mask, xs with
  | b :: mask', x :: xs' =>
      if b then x :: select mask' xs' else select mask' xs'
  | _, _ => []
  end.

Definition select_series (mask : list bool) (s : Series) : Series :=
  match s with
  | NumSeries xs => NumSeries (select mask xs)
  | StrSeries xs => StrSeries (select mask xs)
  end.

(** [df[mask]]: a new table with the selected rows of every column. *)
Definition select_rows (mask : list bool) (t : DataFrame) : DataFrame :=
  select_series mask <$> t.

(** The sorted distinct keys of a [groupby] (sort=True). *)
Fixpoint insert_key (k : string) (ks : list string) : list string :=
  match ks with
  | [] => [k]
  | k' :: rest =>
      match String.compare k k' with
      | Lt => k :: ks
      | Eq => ks
      | Gt => k' :: insert_key k rest
      end
  end.

Definition group_keys (keys : list string) : list string :=
  fold_right insert_key [] keys.

(** The entries of a column that belong to the group [k]. *)
Definition group {A} (keys : list string) (k : string) (xs : list A) : list A :=
  select (map (String.eqb k) keys) xs.

(** [max()] and [min()] of a group (skipna=True): NaN if nothing is left. *)
Definition max (xs : list num) : num :=
  fold_left (fun acc x =>
               if Num.is_nan x then acc
               else if Num.is_nan acc then x
               else if Num.gtb x acc then x else acc) xs NaN.

Definition min (xs : list num) : num :=
  fold_left (fun acc x =>
               if Num.is_nan x then acc
               else if Num.is_nan acc then x
               else if Num.gtb acc x then x else acc) xs NaN.

(** Ordering rows by a numeric key, largest first, equal keys in their
    original order, NaN keys last ([sort_values(ascending=False)] and
    [nlargest]; the order of rows with equal keys is what pandas gives on
    tables this small, and no property below depends on it). *)
Fixpoint insert_desc {A} (key : A -> num) (r : A) (rs : list A) : list A :=
  match rs with
  | [] => [r]
  | r' :: rest =>
      if Num.gtb (key r') (key r) then r' :: insert_desc key r rest
      else r :: rs
  end.

Definition sort_desc {A} (key : A -> num) (rows : list A) : list A :=
  fold_right (insert_desc key) []
             (List.filter (fun r => negb (Num.is_nan (key r))) rows)
  ++ List.filter (fun r => Num.is_nan (key r)) rows.

End Frame.

(* ===================================================================== *)
(** ** The loss analyzer: [DetailedOEEAnalysis] *)
(* ===================================================================== *)

Module DetailedOEEAnalysis.

(** The fields [__init__] binds: the very tables the analyzer holds, not
    copies of them. *)
Record t : Type := mk {
  data : option loc;       (* analyzer.oee_results *)
  raw_data : option loc    (* analyzer.raw_data *)
}.

Definition init : M t :=
  let* a := Py.get_analyzer in
  match a with
  | mkAnalyzer raw results => ret {| data := results; raw_data := raw |}
  end.

(** One row of the downtime summary. *)
Record pareto_row : Type := mkRow {
  reason : string;
  total_downtime_min : num;
  avg_downtime_min : num;
  frequency : num;
  records : num
}.

(** [groupby('Downtime_Reason').agg(...).round(2)], one row per reason in
    key order. *)
Definition pareto_groups (reasons : list string) (downtime : list num)
    (machines : list string) : list pareto_row :=
  map (fun k =>
         let xs := Frame.group reasons k downtime in
         {| reason := k;
            total_downtime_min := Num.round 2 (Ser.sum xs);
            avg_downtime_min := Num.round 2 (Ser.mean xs);
            frequency := Num.round 2 (Ser.count xs);
            records := Num.round 2
              (Num.of_Z (Z.of_nat (length (Frame.group reasons k machines)))) |})
      (Frame.group_keys reasons).

Definition pareto_frame (rows : list pareto_row) : DataFrame :=
  <["Downtime_Reason" := StrSeries (map reason rows)]>
  (<["Total_Downtime_Min" := NumSeries (map total_downtime_min rows)]>
  (<["Avg_Downtime_Min" := NumSeries (map avg_downtime_min rows)]>
  (<["Frequency" := NumSeries (map frequency rows)]>
  (<["Records" := NumSeries (map records rows)]> ∅)))).

(** [groupby(['Machine_Name', 'Downtime_Reason']).agg(sum).round(2)]. *)
Definition machine_downtime_frame (machines reasons : list string)
    (downtime : list num) : DataFrame :=
  let rows :=
    flat_map (fun m =>
      let rs := Frame.group machines m reasons in
      let ds := Frame.group machines m downtime in
      map (fun r => (m, r, Num.round 2 (Ser.sum (Frame.group rs r ds))))
          (Frame.group_keys rs))
      (Frame.group_keys machines) in
  <["Machine_Name" := StrSeries (map (fun x => fst (fst x)) rows)]>
  (<["Downtime_Reason" := StrSeries (map (fun x => snd (fst x)) rows)]>
  (<["Downtime_Minutes" := NumSeries (map snd rows)]> ∅)).

(** [downtime_pareto_analysis]: returns the summary and the per-machine
    breakdown, two new tables. *)
Definition downtime_pareto_analysis (self : t) : M (loc * loc) :=
  (* downtime_data = self.raw_data[self.raw_data['Downtime_Minutes'] > 0].copy() *)
  let* raw := Py.deref (raw_data self) in
  let* minutes := Py.num_col raw "Downtime_Minutes" in
  let mask := map (fun x => Num.gtb x (Fin 0)) minutes in
  let* raw_table := Py.frame raw in
  let* downtime_data := Py.new (Frame.select_rows mask raw_table) in
  (* downtime_summary = downtime_data.groupby(...).agg(...).round(2),
     sorted by Total_Downtime_Min, largest first *)
  let* reasons := Py.str_col downtime_data "Downtime_Reason" in
  let* downtime := Py.num_col downtime_data "Downtime_Minutes" in
  let* machines := Py.str_col downtime_data "Machine_Name" in
  let* downtime_summary :=
    Py.new (pareto_frame
              (Frame.sort_desc total_downtime_min
                 (pareto_groups reasons downtime machines))) in
  (* downtime_summary['Cumulative_Pct'] = (cumsum / sum * 100).round(1) *)
  let* totals := Py.num_col downtime_summary "Total_Downtime_Min" in
  Py.set_col downtime_summary "Cumulative_Pct"
    (NumSeries
       (Ser.round 1
          (Ser.mul_scalar
             (map (fun c => Num.div c (Ser.sum totals)) (Ser.cumsum totals))
             100)));;
  let* machine_downtime :=
    Py.new (machine_downtime_frame machines reasons downtime) in
  ret (downtime_summary, machine_downtime).

Section Spread.

(** [np.sqrt] on the non-negative rationals; the model does not fix its
    values. *)
Variable sqrt : Q -> Q.

(** [std()] of a group: the sample standard deviation (ddof=1) of the
    non-NaN entries, NaN for fewer than two of them. *)
Definition std (xs : list num) : num :=
  let m := Ser.mean xs in
  let squares := map (fun x => Num.mul (Num.sub x m) (Num.sub x m)) xs in
  match Num.div (Ser.sum squares)
                (Num.sub (Ser.count xs) (Fin 1)) with
  | Fin v => if Rat.ltb v 0 then NaN else Fin (sqrt v)
  | v => v
  end.

(** The per-machine table of [speed_loss_analysis]. *)
Definition speed_loss_frame (machines : list string)
    (loss ideal actual units : list num) : DataFrame :=
  let keys := Frame.group_keys machines in
  let agg (f : list num -> num) (xs : list num) : Series :=
    NumSeries (map (fun k => Num.round 2 (f (Frame.group machines k xs))) keys) in
  <["Machine_Name" := StrSeries keys]>
  (<["Avg_Speed_Loss_Pct" := agg Ser.mean loss]>
  (<["Std_Speed_Loss" := agg std loss]>
  (<["Max_Speed_Loss" := agg Frame.max loss]>
  (<["Avg_Ideal_Cycle" := agg Ser.mean ideal]>
  (<["Avg_Actual_Cycle" := agg Ser.mean actual]>
  (<["Total_Units" := agg Ser.sum units]> ∅)))))).

(** [nlargest(10, 'Speed_Loss_Percent')[[Date, Machine_Name,
    Speed_Loss_Percent, Shift]]]. *)
Definition worst_speed_frame (dates machines : list string)
    (loss : list num) (shifts : list string) : DataFrame :=
  let rows := zip (zip (zip dates machines) loss) shifts in
  let worst := take 10 (Frame.sort_desc (fun r => snd (fst r)) rows) in
  <["Date" := StrSeries (map (fun r => fst (fst (fst r))) worst)]>
  (<["Machine_Name" := StrSeries (map (fun r => snd (fst (fst r))) worst)]>
  (<["Speed_Loss_Percent" := NumSeries (map (fun r => snd (fst r)) worst)]>
  (<["Shift" := StrSeries (map snd worst)]> ∅))).

(** [speed_loss_analysis]: the new column goes into [self.data] itself. *)
Definition speed_loss_analysis (self : t) : M (loc * loc) :=
  let* d := Py.deref (data self) in
  let* actual := Py.num_col d "Actual_Cycle_Time" in
  let* ideal := Py.num_col d "Ideal_Cycle_Time" in
  Py.set_col d "Speed_Loss_Percent"
    (NumSeries (Ser.round 2
       (Ser.mul_scalar (Ser.div (Ser.sub actual ideal) ideal) 100)));;
  let* machines := Py.str_col d "Machine_Name" in
  let* loss := Py.num_col d "Speed_Loss_Percent" in
  let* ideal := Py.num_col d "Ideal_Cycle_Time" in
  let* actual := Py.num_col d "Actual_Cycle_Time" in
  let* units := Py.num_col d "Total_Units_Produced" in
  let* speed_loss_summary :=
    Py.new (speed_loss_frame machines loss ideal actual units) in
  let* dates := Py.str_col d "Date" in
  let* shifts := Py.str_col d "Shift" in
  let* worst_speed :=
    Py.new (worst_speed_frame dates machines loss shifts) in
  ret (speed_loss_summary, worst_speed).

(** The per-machine and per-shift tables of [quality_loss_analysis]. *)
Definition quality_frame (machines : list string)
    (rate quality defective units : list num) : DataFrame :=
  let keys := Frame.group_keys machines in
  let agg (f : list num -> num) (xs : list num) : Series :=
    NumSeries (map (fun k => Num.round 3 (f (Frame.group machines k xs))) keys) in
  <["Machine_Name" := StrSeries keys]>
  (<["Avg_Defect_Rate" := agg Ser.mean rate]>
  (<["Std_Defect_Rate" := agg std rate]>
  (<["Max_Defect_Rate" := agg Frame.max rate]>
  (<["Avg_Quality" := agg Ser.mean quality]>
  (<["Min_Quality" := agg Frame.min quality]>
  (<["Total_Defects" := agg Ser.sum defective]>
  (<["Total_Units" := agg Ser.sum units]> ∅))))))).

Definition shift_quality_frame (shifts : list string)
    (rate quality : list num) : DataFrame :=
  let keys := Frame.group_keys shifts in
  let agg (xs : list num) : Series :=
    NumSeries (map (fun k => Num.round 2 (Ser.mean (Frame.group shifts k xs)))
                   keys) in
  <["Shift" := StrSeries keys]>
  (<["Defect_Rate_Percent" := agg rate]>
  (<["Quality" := agg quality]> ∅)).

(** [quality_loss_analysis]: again the new column goes into [self.data]. *)
Definition quality_loss_analysis (self : t) : M (loc * loc) :=
  let* d := Py.deref (data self) in
  let* defective := Py.num_col d "Defective_Units" in
  let* units := Py.num_col d "Total_Units_Produced" in
  Py.set_col d "Defect_Rate_Percent"
    (NumSeries (Ser.round 3 (Ser.mul_scalar (Ser.div defective units) 100)));;
  let* machines := Py.str_col d "Machine_Name" in
  let* rate := Py.num_col d "Defect_Rate_Percent" in
  let* quality := Py.num_col d "Quality" in
  let* defective := Py.num_col d "Defective_Units" in
  let* units := Py.num_col d "Total_Units_Produced" in
  let* quality_summary :=
    Py.new (quality_frame machines rate quality defective units) in
  let* shifts := Py.str_col d "Shift" in
  let* shift_quality :=
    Py.new (shift_quality_frame shifts rate quality) in
  ret (quality_summary, shift_quality).

End Spread.

End DetailedOEEAnalysis.

(* ===================================================================== *)
(** ** The improvement plan: [OEEImprovementPlan] *)
(* ===================================================================== *)

Module OEEImprovementPlan.

Record t : Type := mk {
  current_data : loc;   (* analyzer.oee_results.copy() *)
  baseline_oee : num    (* self.current_data['OEE'].mean() *)
}.

(** [__init__]: the baseline is a copy of the analyzer's results. *)
Definition init : M t :=
  let* a := Py.get_analyzer in
  let* results := Py.deref (oee_results a) in
  let* current := Py.copy results in
  let* oee := Py.num_col current "OEE" in
  ret {| current_data := current; baseline_oee := Ser.mean oee |}.

(** The dict returned next to the improved table. *)
Record impact : Type := mkImpact {
  oee_improvement : num;
  production_increase : num;
  revenue_increase : num;
  roi : num;
  payback_period : num
}.

(** [simulate_improvement_impact].  [recommendations] holds, per category,
    the 'Investment' amounts of its actions as [float] reads them once the
    dollar sign and the commas are removed. *)
Definition simulate_improvement_impact (self : t)
    (recommendations : list (list Q)) : M (loc * impact) :=
  (* Create improved dataset *)
  let* improved_data := Py.copy (current_data self) in
  (* Availability improvements *)
  let* downtime := Py.num_col improved_data "Downtime_Minutes" in
  Py.set_col improved_data "Downtime_Minutes"
    (NumSeries (Ser.mul_scalar downtime (13 # 20)));;
  let* planned := Py.num_col improved_data "Planned_Production_Time" in
  let* downtime := Py.num_col improved_data "Downtime_Minutes" in
  Py.set_col improved_data "Availability"
    (NumSeries (Ser.mul_scalar
                  (Ser.div (Ser.sub planned downtime) planned) 100));;
  (* Performance improvements *)
  let* actual := Py.num_col improved_data "Actual_Cycle_Time" in
  Py.set_col improved_data "Actual_Cycle_Time"
    (NumSeries (Ser.mul_scalar actual (17 # 20)));;
  let* planned := Py.num_col improved_data "Planned_Production_Time" in
  let* downtime := Py.num_col improved_data "Downtime_Minutes" in
  let operating_time := Ser.sub planned downtime in
  let* ideal := Py.num_col improved_data "Ideal_Cycle_Time" in
  let* units := Py.num_col improved_data "Total_Units_Produced" in
  Py.set_col improved_data "Performance"
    (NumSeries (Ser.mul_scalar
                  (Ser.div (Ser.mul ideal units)
                           (Ser.mul_scalar operating_time 60)) 100));;
  (* Quality improvements *)
  let* defective := Py.num_col improved_data "Defective_Units" in
  Py.set_col improved_data "Defective_Units"
    (NumSeries (Ser.mul_scalar defective (1 # 2)));;
  let* units := Py.num_col improved_data "Total_Units_Produced" in
  let* defective := Py.num_col improved_data "Defective_Units" in
  Py.set_col improved_data "Good_Units" (NumSeries (Ser.sub units defective));;
  let* good := Py.num_col improved_data "Good_Units" in
  let* units := Py.num_col improved_data "Total_Units_Produced" in
  Py.set_col improved_data "Quality"
    (NumSeries (Ser.mul_scalar (Ser.div good units) 100));;
  (* Recalculate OEE *)
  let* availability := Py.num_col improved_data "Availability" in
  let* performance := Py.num_col improved_data "Performance" in
  let* quality := Py.num_col improved_data "Quality" in
  Py.set_col improved_data "OEE"
    (NumSeries (Ser.div_scalar
                  (Ser.mul (Ser.mul availability performance) quality)
                  10000));;
  (* Cap values *)
  clip_metrics improved_data;;
  (* Calculate improvements *)
  let* base_oee := Py.num_col (current_data self) "OEE" in
  let* new_oee := Py.num_col improved_data "OEE" in
  let baseline_oee := Ser.mean base_oee in
  let improved_oee := Ser.mean new_oee in
  let* _ := Py.num_col (current_data self) "Availability" in
  let* _ := Py.num_col (current_data self) "Performance" in
  let* _ := Py.num_col (current_data self) "Quality" in
  (* Production and financial impact *)
  let* base_units := Py.num_col (current_data self) "Total_Units_Produced" in
  let baseline_production := Ser.sum base_units in
  let improved_production :=
    Num.mul baseline_production (Num.div improved_oee baseline_oee) in
  let production_increase := Num.sub improved_production baseline_production in
  let revenue_increase := Num.mul production_increase (Fin (1 # 2)) in
  let total_investment :=
    fold_left (fun acc category => fold_left Qplus category acc)
              recommendations 0 in
  let roi :=
    Num.mul (Num.div revenue_increase (Fin total_investment)) (Fin 100) in
  ret (improved_data,
       {| oee_improvement := Num.sub improved_oee baseline_oee;
          production_increase := production_increase;
          revenue_increase := revenue_increase;
          roi := roi;
          payback_period := Num.div (Fin total_investment) revenue_increase |}).

End OEEImprovementPlan.

(* ===================================================================== *)
(** ** Vocabulary of the properties *)
(* ===================================================================== *)

(** The records a run of the simulator can emit: the rows of the table for
    some sequence of admissible draws. *)
Definition emitted (r : ProductionRecord) : Prop :=
  exists draws data,
    Forall valid_draws draws /\ generate_rows draws = Some data /\ In r data.

(** A percentage after the cap: a finite value between 0 and 100. *)
Definition percentage (x : num) : Prop :=
  exists v, x = Fin v /\ 0 <= v /\ v <= 100.

(** What the simulator guarantees of every row it emits. *)
Record simulated (r : ProductionRecord) : Prop := mkSimulated {
  sim_planned : (Planned_Production_Time r = 480
                 \/ Planned_Production_Time r = 420)%Z;
  sim_downtime_lo : 0 <= Downtime_Minutes r;
  sim_downtime_hi :
    Downtime_Minutes r <= (1 # 2) * inject_Z (Planned_Production_Time r);
  sim_ideal : 0 < Ideal_Cycle_Time r;
  sim_units : (0 < Total_Units_Produced r)%Z;
  sim_defective :
    (0 <= Defective_Units r <= Total_Units_Produced r)%Z;
  sim_good :
    Good_Units r = (Total_Units_Produced r - Defective_Units r)%Z
}.

(** The state in which the table at [l] has been replaced by [t]. *)
Definition with_frame (l : loc) (t : DataFrame) (s : State) : State :=
  {| heap := <[l := t]> (heap s); analyzer := analyzer s |}.

(** The state after allocating the table [t]. *)
Definition with_new (t : DataFrame) (s : State) : State :=
  {| heap := heap s ++ [t]; analyzer := analyzer s |}.

(** The four metric columns before the cap, from the columns they are
    computed from. *)
Definition raw_availability (planned downtime : list num) : list num :=
  Ser.mul_scalar (Ser.div (Ser.sub planned downtime) planned) 100.

Definition raw_performance (planned downtime ideal units : list num)
  : list num :=
  Ser.mul_scalar
    (Ser.div (Ser.mul ideal units)
             (Ser.mul_scalar (Ser.sub planned downtime) 60)) 100.

Definition raw_quality (good units : list num) : list num :=
  Ser.mul_scalar (Ser.div good units) 100.

Definition raw_oee (availability performance quality : list num) : list num :=
  Ser.div_scalar (Ser.mul (Ser.mul availability performance) quality) 10000.

(** A table with the four metric columns set. *)
Definition with_metrics (a p q o : list num) (t : DataFrame) : DataFrame :=
  <["OEE" := NumSeries o]>
  (<["Quality" := NumSeries q]>
  (<["Performance" := NumSeries p]>
  (<["Availability" := NumSeries a]> t))).

Definition capped (xs : list num) : list num := Ser.clip_upper 100 xs.

(** The table the calculator leaves behind, given the input columns. *)
Definition oee_table (planned downtime ideal units good : list num)
    (t : DataFrame) : DataFrame :=
  let a := raw_availability planned downtime in
  let p := raw_performance planned downtime ideal units in
  let q := raw_quality good units in
  let o := raw_oee a p q in
  with_metrics (capped a) (capped p) (capped q) (capped o)
    (with_metrics a p q o t).

(** The state the calculator leaves behind: the table at [l] rewritten, a
    copy of it appended and recorded in [oee_results]. *)
Definition calculated (l : loc) (t : DataFrame) (s : State) : State :=
  {| heap := <[l := t]> (heap s) ++ [t];
     analyzer := {| raw_data := raw_data (analyzer s);
                    oee_results := Some (length (heap s)) |} |}.

(** The metrics of one row, before the cap. *)
Definition row_availability (r : ProductionRecord) : num :=
  Num.mul
    (Num.div (Num.sub (Num.of_Z (Planned_Production_Time r))
                      (Fin (Downtime_Minutes r)))
             (Num.of_Z (Planned_Production_Time r)))
    (Fin 100).

Definition row_performance (r : ProductionRecord) : num :=
  Num.mul
    (Num.div (Num.mul (Fin (Ideal_Cycle_Time r))
                      (Num.of_Z (Total_Units_Produced r)))
             (Num.mul (Num.sub (Num.of_Z (Planned_Production_Time r))
                               (Fin (Downtime_Minutes r)))
                      (Fin 60)))
    (Fin 100).

Definition row_quality (r : ProductionRecord) : num :=
  Num.mul (Num.div (Num.of_Z (Good_Units r))
                   (Num.of_Z (Total_Units_Produced r)))
          (Fin 100).

Definition row_oee (r : ProductionRecord) : num :=
  Num.div (Num.mul (Num.mul (row_availability r) (row_performance r))
                   (row_quality r))
          (Fin 10000).

(** The input columns of the calculator in the table of a batch. *)
Definition planned_col (data : list ProductionRecord) : list num :=
  map (fun r => Num.of_Z (Planned_Production_Time r)) data.
Definition downtime_col (data : list ProductionRecord) : list num :=
  map (fun r => Fin (Downtime_Minutes r)) data.
Definition ideal_col (data : list ProductionRecord) : list num :=
  map (fun r => Fin (Ideal_Cycle_Time r)) data.
Definition units_col (data : list ProductionRecord) : list num :=
  map (fun r => Num.of_Z (Total_Units_Produced r)) data.
Definition good_col (data : list ProductionRecord) : list num :=
  map (fun r => Num.of_Z (Good_Units r)) data.

(** The table the calculator makes of the table of a batch. *)
Definition oee_table_of (data : list ProductionRecord) : DataFrame :=
  oee_table (planned_col data) (downtime_col data) (ideal_col data)
            (units_col data) (good_col data) (DataFrame_of data).

(** The state the simulator leaves behind. *)
Definition generated (data : list ProductionRecord) (s : State) : State :=
  {| heap := heap s ++ [DataFrame_of data];
     analyzer := {| raw_data := Some (length (heap s));
                    oee_results := oee_results (analyzer s) |} |}.

(** Building the table of a batch in a fresh run and applying the
    calculator to it: the table it returns. *)
Definition run_calculator (data : list ProductionRecord) : option DataFrame :=
  match (let* df := Py.new (DataFrame_of data) in
         let* out := calculate_oee_metrics df in
         Py.frame out) init_state with
  | Some (t, _) => Some t
  | None => None
  end.

(** The two records of the reference scenario; the fields the scenario
    leaves open are parameters. *)
Definition record_A (date shift machine : string) : ProductionRecord :=
  {| Date := date; Shift := shift; Machine_Name := machine;
     Planned_Production_Time := 480; Downtime_Minutes := 0;
     Downtime_Reason := "None";
     Ideal_Cycle_Time := 5 # 2; Actual_Cycle_Time := 5 # 2;
     Total_Units_Produced := 11520; Defective_Units := 0;
     Good_Units := 11520 |}.

Definition record_B (date shift machine reason : string) : ProductionRecord :=
  {| Date := date; Shift := shift; Machine_Name := machine;
     Planned_Production_Time := 480; Downtime_Minutes := 240;
     Downtime_Reason := reason;
     Ideal_Cycle_Time := 5 # 2; Actual_Cycle_Time := 5;
     Total_Units_Produced := 2880; Defective_Units := 288;
     Good_Units := 2592 |}.

(** A record whose raw performance is 200: twice the ideal output in the
    time available. *)
Definition record_fast : ProductionRecord :=
  {| Date := "2025-07-01"; Shift := "Morning"; Machine_Name := "Filler";
     Planned_Production_Time := 480; Downtime_Minutes := 240;
     Downtime_Reason := "Breakdown";
     Ideal_Cycle_Time := 5; Actual_Cycle_Time := 5 # 2;
     Total_Units_Produced := 5760; Defective_Units := 0;
     Good_Units := 5760 |}.

(** Draws of one iteration on a Conveyor whose normal draw gives 0.03
    minutes of downtime. *)
Definition draws_brief_stop : Draws :=
  {| days_offset := 0; weekend_draw := 0;
     shift_draw := Morning; machine_draw := Conveyor;
     normal_draw := - (499 # 500);
     reason_draw := false;
     cycle_draw := 2; defect_draw := 1 # 2 |}.

(** Draws of an ordinary iteration: a Filler on a night shift with 41
    minutes of downtime. *)
Definition draws_typical : Draws :=
  {| days_offset := 10; weekend_draw := 1 # 2;
     shift_draw := Night; machine_draw := Filler;
     normal_draw := 2 # 5;
     reason_draw := true;
     cycle_draw := 3; defect_draw := 2 |}.

(** The row the simulator appends for [draws_typical]. *)
Definition record_typical : ProductionRecord :=
  {| Date := "2025-07-11"; Shift := "Night"; Machine_Name := "Filler";
     Planned_Production_Time := 420; Downtime_Minutes := 41;
     Downtime_Reason := "Breakdown";
     Ideal_Cycle_Time := 5 # 2; Actual_Cycle_Time := 3;
     Total_Units_Produced := 7580; Defective_Units := 151;
     Good_Units := 7429 |}.

(** A record of a shift in which nothing was produced. *)
Definition record_idle : ProductionRecord :=
  {| Date := "2025-07-01"; Shift := "Morning"; Machine_Name := "Mixer";
     Planned_Production_Time := 480; Downtime_Minutes := 0;
     Downtime_Reason := "None";
     Ideal_Cycle_Time := 45; Actual_Cycle_Time := 50;
     Total_Units_Produced := 0; Defective_Units := 0;
     Good_Units := 0 |}.

(** The columns the loss analyzer adds. *)
Definition speed_loss_col (actual ideal : list num) : list num :=
  Ser.round 2 (Ser.mul_scalar (Ser.div (Ser.sub actual ideal) ideal) 100).

Definition defect_rate_col (defective units : list num) : list num :=
  Ser.round 3 (Ser.mul_scalar (Ser.div defective units) 100).

(** The state after one of the loss analyses: one column set in the table
    at [d], two new tables appended. *)
Definition analysed (d : loc) (t first second : DataFrame) (s : State) : State :=
  with_new second (with_new first (with_frame d t s)).

(** [metric_cols] of the calculator. *)
Definition metric_cols : list string :=
  ["Availability"; "Performance"; "Quality"; "OEE"].

(** The table has each of these columns, as a numeric column. *)
Definition has_numeric (t : DataFrame) (cols : list string) : Prop :=
  Forall (fun c => exists xs, t !! c = Some (NumSeries xs)) cols.

(** The state after [calculate_oee_metrics] on the table of
    [record_typical]: the simulator's table at 0, the analyzer's copy of the
    results at 1. *)
Definition state_typical : State :=
  calculated 0%nat (oee_table_of [record_typical])
             (generated [record_typical] init_state).

(** Neighbouring entries of a list are related by [R]. *)
Fixpoint chain (R : Q -> Q -> Prop) (l : list Q) : Prop :=
  match l with
  | [] => True
  | x :: rest =>
      match rest with
      | [] => True
      | y :: _ => R x y /\ chain R rest
      end
  end.

Definition descending (l : list Q) : Prop := chain (fun x y => y <= x) l.
Definition nondecreasing (l : list Q) : Prop := chain Qle l.

(** The running sums of a list of rationals, as [cumsum] forms them. *)
Fixpoint running (acc : Q) (ts : list Q) : list Q :=
  match ts with
  | [] => []
  | x :: rest => let acc' := Qred (acc + x) in acc' :: running acc' rest
  end.

(** The rational a finite cell holds (0 for the others). *)
Definition value (x : num) : Q :=
  match x with
  | Fin q => q
  | _ => 0
  end.

(** A finite, non-negative cell. *)
Definition finite_nonneg (x : num) : Prop :=
  exists q, x = Fin q /\ 0 <= q.

(** The cumulative percentage of a running sum [c] in a non-zero grand
    total, rounded to one decimal. *)
Definition share (total c : Q) : Q :=
  Rat.round_dec 1 (Qred (Qred (c / total) * 100)).

(** The Cumulative_Pct column computed from the Total_Downtime_Min
    column. *)
Definition cumulative_pct (totals : list num) : list num :=
  Ser.round 1
    (Ser.mul_scalar
       (map (fun c => Num.div c (Ser.sum totals)) (Ser.cumsum totals))
       100).

(** A record of a Mixer on a morning shift with the given downtime and
    reason. *)
Definition stoppage (reason : string) (minutes : Q) : ProductionRecord :=
  {| Date := "2025-07-01"; Shift := "Morning"; Machine_Name := "Mixer";
     Planned_Production_Time := 480; Downtime_Minutes := minutes;
     Downtime_Reason := reason;
     Ideal_Cycle_Time := 45; Actual_Cycle_Time := 50;
     Total_Units_Produced := 500; Defective_Units := 5;
     Good_Units := 495 |}.

(** A batch whose downtime totals are 100 (Breakdown), 50 (Changeover) and
    50 (Cleaning) minutes, with one record without downtime. *)
Definition batch_100_50_50 : list ProductionRecord :=
  [stoppage "Cleaning" 20; stoppage "Breakdown" 60; stoppage "None" 0;
   stoppage "Changeover" 50; stoppage "Breakdown" 40; stoppage "Cleaning" 30].

(** A batch whose only downtime is a thousandth of a minute. *)
Definition batch_negligible : list ProductionRecord :=
  [stoppage "Cleaning" (1 # 1000)].

(** The loss analyzer of a run in which only the simulator's table
    exists, at location 0. *)
Definition detailed_on_raw : DetailedOEEAnalysis.t :=
  {| DetailedOEEAnalysis.data := None; DetailedOEEAnalysis.raw_data := Some 0%nat |}.

(* ===================================================================== *)
(** ** The aggregator: the group-wise analyses of [OEEAnalyzer] *)
(* ===================================================================== *)

Section Aggregator.

(** [np.sqrt], as in [DetailedOEEAnalysis.std]. *)
Variable sqrt : Q -> Q.

(** [df.groupby('Machine_Name').agg({...}).round(2)] with the columns
    renamed as [machine_wise_analysis] does. *)
Definition machine_stats_frame (machines : list string)
    (oee availability performance quality units defective downtime : list num)
  : DataFrame :=
  let keys := Frame.group_keys machines in
  let agg (f : list num -> num) (xs : list num) : Series :=
    NumSeries (map (fun k => Num.round 2 (f (Frame.group machines k xs))) keys) in
  <["Machine_Name" := StrSeries keys]>
  (<["OEE_Mean" := agg Ser.mean oee]>
  (<["OEE_Std" := agg (DetailedOEEAnalysis.std sqrt) oee]>
  (<["OEE_Min" := agg Frame.min oee]>
  (<["OEE_Max" := agg Frame.max oee]>
  (<["Availability_Mean" := agg Ser.mean availability]>
  (<["Performance_Mean" := agg Ser.mean performance]>
  (<["Quality_Mean" := agg Ser.mean quality]>
  (<["Total_Units" := agg Ser.sum units]>
  (<["Defective_Units" := agg Ser.sum defective]>
  (<["Avg_Downtime" := agg Ser.mean downtime]> ∅)))))))))).

(** [machine_wise_analysis]: reads the table it is given, returns a new
    one. *)
Definition machine_wise_analysis (df : loc) : M loc :=
  let* machines := Py.str_col df "Machine_Name" in
  let* oee := Py.num_col df "OEE" in
  let* availability := Py.num_col df "Availability" in
  let* performance := Py.num_col df "Performance" in
  let* quality := Py.num_col df "Quality" in
  let* units := Py.num_col df "Total_Units_Produced" in
  let* defective := Py.num_col df "Defective_Units" in
  let* downtime := Py.num_col df "Downtime_Minutes" in
  Py.new (machine_stats_frame machines oee availability performance quality
            units defective downtime).

(** The table of [shift_wise_analysis] and of [monthly_trend_analysis]:
    the same six aggregates, grouped by the column [dimension]. *)
Definition trend_frame (dimension : string) (keys_col : list string)
    (oee availability performance quality units downtime : list num)
  : DataFrame :=
  let keys := Frame.group_keys keys_col in
  let agg (f : list num -> num) (xs : list num) : Series :=
    NumSeries (map (fun k => Num.round 2 (f (Frame.group keys_col k xs))) keys) in
  <[dimension := StrSeries keys]>
  (<["OEE" := agg Ser.mean oee]>
  (<["Availability" := agg Ser.mean availability]>
  (<["Performance" := agg Ser.mean performance]>
  (<["Quality" := agg Ser.mean quality]>
  (<["Total_Units_Produced" := agg Ser.sum units]>
  (<["Downtime_Minutes" := agg Ser.mean downtime]> ∅)))))).

Definition shift_wise_analysis (df : loc) : M loc :=
  let* shifts := Py.str_col df "Shift" in
  let* oee := Py.num_col df "OEE" in
  let* availability := Py.num_col df "Availability" in
  let* performance := Py.num_col df "Performance" in
  let* quality := Py.num_col df "Quality" in
  let* units := Py.num_col df "Total_Units_Produced" in
  let* downtime := Py.num_col df "Downtime_Minutes" in
  Py.new (trend_frame "Shift" shifts oee availability performance quality
            units downtime).

(** [pd.to_datetime(date).dt.to_period('M')] of one date string, printed
    as 'YYYY-MM'; [None] when pandas cannot parse the string.  The model
    does not fix the parser. *)
Variable to_period : string -> option string.

(** All dates of a column, or an error at the first one that does not
    parse. *)
Fixpoint to_periods (dates : list string) : M (list string) :=
  match dates with
  | [] => ret []
  | d :: rest =>
      match to_period d with
      | Some p => let* ps := to_periods rest in ret (p :: ps)
      | None => raise
      end
  end.

(** [monthly_trend_analysis]: the column YearMonth is set in the table it
    is given. *)
Definition monthly_trend_analysis (df : loc) : M loc :=
  let* dates := Py.str_col df "Date" in
  let* months := to_periods dates in
  Py.set_col df "YearMonth" (StrSeries months);;
  let* months := Py.str_col df "YearMonth" in
  let* oee := Py.num_col df "OEE" in
  let* availability := Py.num_col df "Availability" in
  let* performance := Py.num_col df "Performance" in
  let* quality := Py.num_col df "Quality" in
  let* units := Py.num_col df "Total_Units_Produced" in
  let* downtime := Py.num_col df "Downtime_Minutes" in
  Py.new (trend_frame "YearMonth" months oee availability performance quality
            units downtime).


End Aggregator.

(* ===================================================================== *)
(** ** Vocabulary of the further properties *)
(* ===================================================================== *)

(** The attempt is dropped by the weekend rule. *)
Definition is_skipped (d : Draws) : bool :=
  match generate_record d with
  | Skipped => true
  | _ => false
  end.

(** The day [offset] days after the start is a day of July to December
    2025. *)
Definition second_half_2025 (offset : Z) : bool :=
  let '(y, m, d) := Calendar.civil (Calendar.start_date + offset) in
  (y =? 2025)%Z && (7 <=? m)%Z && (m <=? 12)%Z && (1 <=? d)%Z && (d <=? 31)%Z.

(** [self.downtime_reasons]. *)
Definition downtime_reasons : list string :=
  ["Breakdown"; "Changeover"; "Cleaning"; "Minor Stoppage"; "Power Failure"].

(** The columns [calculate_oee_metrics] reads. *)
Definition input_cols : list string :=
  ["Planned_Production_Time"; "Downtime_Minutes"; "Ideal_Cycle_Time";
   "Total_Units_Produced"; "Good_Units"].

(** The month of a date printed as YYYY-MM-DD, as [to_period('M')] prints
    it: the first seven characters. *)
Definition month_prefix (date : string) : option string :=
  Some (String.substring 0 7 date).

(** The table [shift_wise_analysis] makes of the calculator's table for
    [record_typical]. *)
Definition shift_stats_typical : DataFrame :=
  trend_frame "Shift" ["Night"]
    (map (fun r => Num.clip_upper 100 (row_oee r)) [record_typical])
    (map (fun r => Num.clip_upper 100 (row_availability r)) [record_typical])
    (map (fun r => Num.clip_upper 100 (row_performance r)) [record_typical])
    (map (fun r => Num.clip_upper 100 (row_quality r)) [record_typical])
    [Fin 7580] [Fin 41].

(** The state [monthly_trend_analysis] leaves when run on the calculator's
    table for [record_typical]: YearMonth set in that table, the monthly
    table appended. *)
Definition state_monthly_typical : State :=
  with_new
    (trend_frame "YearMonth" ["2025-07"]
       (map (fun r => Num.clip_upper 100 (row_oee r)) [record_typical])
       (map (fun r => Num.clip_upper 100 (row_availability r)) [record_typical])
       (map (fun r => Num.clip_upper 100 (row_performance r)) [record_typical])
       (map (fun r => Num.clip_upper 100 (row_quality r)) [record_typical])
       [Fin 7580] [Fin 41])
    (with_frame 0%nat
       (<["YearMonth" := StrSeries ["2025-07"]]> (oee_table_of [record_typical]))
       state_typical).

(** ** The improved copy of [simulate_improvement_impact] *)


(** The metrics of one row of the improved copy, before the cap. *)
Definition improved_downtime (r : ProductionRecord) : num :=
  Num.mul (Fin (Downtime_Minutes r)) (Fin (13 # 20)).

Definition improved_availability (r : ProductionRecord) : num :=
  Num.mul
    (Num.div (Num.sub (Num.of_Z (Planned_Production_Time r))
                      (improved_downtime r))
             (Num.of_Z (Planned_Production_Time r)))
    (Fin 100).

Definition improved_performance (r : ProductionRecord) : num :=
  Num.mul
    (Num.div (Num.mul (Fin (Ideal_Cycle_Time r))
                      (Num.of_Z (Total_Units_Produced r)))
             (Num.mul (Num.sub (Num.of_Z (Planned_Production_Time r))
                               (improved_downtime r))
                      (Fin 60)))
    (Fin 100).

Definition improved_defective (r : ProductionRecord) : num :=
  Num.mul (Num.of_Z (Defective_Units r)) (Fin (1 # 2)).

Definition improved_quality (r : ProductionRecord) : num :=
  Num.mul (Num.div (Num.sub (Num.of_Z (Total_Units_Produced r))
                            (improved_defective r))
                   (Num.of_Z (Total_Units_Produced r)))
          (Fin 100).

Definition improved_oee (r : ProductionRecord) : num :=
  Num.div (Num.mul (Num.mul (improved_availability r)
                            (improved_performance r))
                   (improved_quality r))
          (Fin 10000).


(** ** Group keys *)

(** A list of keys in strictly increasing order, as [groupby] lists
    them. *)
Fixpoint increasing (ks : list string) : Prop :=
  match ks with
  | [] => True
  | k :: rest =>
      Forall (fun k' => String.compare k k' = Lt) rest /\ increasing rest
  end.

(** The sum of a list of integers. *)
Definition total (zs : list Z) : Z := fold_right Z.add 0%Z zs.

(** ** The loss columns, row by row *)

(** [Speed_Loss_Percent] and [Defect_Rate_Percent] of one row. *)
Definition row_speed_loss (r : ProductionRecord) : num :=
  Num.round 2
    (Num.mul (Num.div (Num.sub (Fin (Actual_Cycle_Time r))
                               (Fin (Ideal_Cycle_Time r)))
                      (Fin (Ideal_Cycle_Time r)))
             (Fin 100)).


(** ** Downtimes in tenths of a minute *)


(** [self.machines] and [self.shifts], in the order [groupby] lists
    them. *)
Definition machines_sorted : list string :=
  ["Conveyor"; "Filler"; "Mixer"; "Packer"].
Definition shifts_sorted : list string := ["Afternoon"; "Morning"; "Night"].

(** The months of the simulated period, as [to_period('M')] prints them. *)
Definition months_2025 : list string :=
  ["2025-07"; "2025-08"; "2025-09"; "2025-10"; "2025-11"; "2025-12"].

(* ===================================================================== *)
(** * Properties *)
(* ===================================================================== *)

(** ** Rounding and truncation *)

Section RatFacts.

Lemma ltb_spec (x y : Q) : Rat.ltb x y = true <-> x < y.
Proof.
  unfold Rat.ltb. rewrite negb_true_iff.
  split.
  - intros H. apply Qnot_le_lt. intros Hle.
    apply Qle_bool_iff in Hle. congruence.
  - intros H. destruct (Qle_bool y x) eqn:E; [|reflexivity].
    apply Qle_bool_iff in E. exfalso. apply (Qlt_not_le _ _ H E).
Qed.

Lemma ltb_false (x y : Q) : Rat.ltb x y = false <-> y <= x.
Proof.
  unfold Rat.ltb. rewrite negb_false_iff. apply Qle_bool_iff.
Qed.

Lemma eqb_false (x : Q) : ~ x == 0 -> Rat.eqb x 0 = false.
Proof.
  intros H. unfold Rat.eqb. destruct (Qeq_bool x 0) eqn:E; [|reflexivity].
  apply Qeq_bool_iff in E. contradiction.
Qed.

Lemma eqb_true (x : Q) : x == 0 -> Rat.eqb x 0 = true.
Proof. intros H. unfold Rat.eqb. apply Qeq_bool_iff. exact H. Qed.

Lemma floor_le_round (q : Q) : (Qfloor q <= Rat.round_half_even q)%Z.
Proof.
  unfold Rat.round_half_even.
  destruct (Qcompare _ _); [destruct (Z.even _)| |]; lia.
Qed.

Lemma round_le_floor_succ (q : Q) : (Rat.round_half_even q <= Qfloor q + 1)%Z.
Proof.
  unfold Rat.round_half_even.
  destruct (Qcompare _ _); [destruct (Z.even _)| |]; lia.
Qed.

(** Rounding never crosses an integer: from below ... *)
Lemma round_half_even_ge (k : Z) (q : Q) :
  inject_Z k <= q -> (k <= Rat.round_half_even q)%Z.
Proof.
  intros H. apply Qfloor_resp_le in H. rewrite Qfloor_Z in H.
  pose proof (floor_le_round q). lia.
Qed.

(** ... and from above. *)
Lemma round_half_even_le (k : Z) (q : Q) :
  q <= inject_Z k -> (Rat.round_half_even q <= k)%Z.
Proof.
  intros H.
  pose proof (Qfloor_resp_le _ _ H) as Hf. rewrite Qfloor_Z in Hf.
  destruct (Z.eq_dec (Qfloor q) k) as [E|E].
  - unfold Rat.round_half_even.
    assert (Hlt : q - inject_Z (Qfloor q) < 1 # 2).
    { rewrite E. pose proof (Qfloor_le q) as Hq. rewrite E in Hq. lra. }
    apply Qlt_alt in Hlt. change (Qcompare (q - inject_Z (Qfloor q)) (1 # 2) = Lt) in Hlt.
    rewrite Hlt. lia.
  - pose proof (round_le_floor_succ q). lia.
Qed.

Lemma round_half_even_mono (x y : Q) :
  x <= y -> (Rat.round_half_even x <= Rat.round_half_even y)%Z.
Proof.
  intros H.
  pose proof (Qfloor_resp_le _ _ H) as Hf.
  destruct (Z.eq_dec (Qfloor x) (Qfloor y)) as [E|E].
  - unfold Rat.round_half_even. rewrite <- E.
    destruct (Qcompare (x - inject_Z (Qfloor x)) (1 # 2)) eqn:Cx;
      destruct (Qcompare (y - inject_Z (Qfloor x)) (1 # 2)) eqn:Cy;
      try (destruct (Z.even (Qfloor x))); try lia; exfalso.
    + apply Qeq_alt in Cx. apply Qlt_alt in Cy. lra.
    + apply Qgt_alt in Cx. apply Qeq_alt in Cy. lra.
    + apply Qgt_alt in Cx. apply Qlt_alt in Cy. lra.
    + apply Qgt_alt in Cx. apply Qlt_alt in Cy. lra.
  - pose proof (round_le_floor_succ x). pose proof (floor_le_round y). lia.
Qed.

Lemma round_half_even_Z (k : Z) (q : Q) :
  q == inject_Z k -> Rat.round_half_even q = k.
Proof.
  intros H. apply Z.le_antisymm.
  - apply round_half_even_le. rewrite H. apply Qle_refl.
  - apply round_half_even_ge. rewrite H. apply Qle_refl.
Qed.

Lemma scale_pos (n : nat) : 0 < inject_Z (10 ^ Z.of_nat n).
Proof.
  replace 0 with (inject_Z 0) by reflexivity. rewrite <- Zlt_Qlt.
  apply Z.pow_pos_nonneg; lia.
Qed.

Lemma div_scale_cancel (k : Z) (s : Q) : 0 < s -> inject_Z k / s * s == inject_Z k.
Proof. intros Hs. field. lra. Qed.

(** [round_dec] keeps a value on its side of any multiple of the unit. *)
Lemma round_dec_ge (n : nat) (k : Z) (q : Q) :
  inject_Z k / inject_Z (10 ^ Z.of_nat n) <= q ->
  inject_Z k / inject_Z (10 ^ Z.of_nat n) <= Rat.round_dec n q.
Proof.
  intros H. unfold Rat.round_dec. rewrite Qred_correct.
  pose proof (scale_pos n) as Hs.
  set (s := inject_Z (10 ^ Z.of_nat n)) in *.
  assert (Hk : inject_Z k <= q * s).
  { apply (Qmult_le_r _ _ s) in H; [|exact Hs].
    rewrite div_scale_cancel in H by exact Hs. exact H. }
  apply round_half_even_ge in Hk. rewrite Zle_Qle in Hk.
  apply Qle_shift_div_l; [exact Hs|].
  rewrite div_scale_cancel by exact Hs. exact Hk.
Qed.

Lemma round_dec_le (n : nat) (k : Z) (q : Q) :
  q <= inject_Z k / inject_Z (10 ^ Z.of_nat n) ->
  Rat.round_dec n q <= inject_Z k / inject_Z (10 ^ Z.of_nat n).
Proof.
  intros H. unfold Rat.round_dec. rewrite Qred_correct.
  pose proof (scale_pos n) as Hs.
  set (s := inject_Z (10 ^ Z.of_nat n)) in *.
  assert (Hk : q * s <= inject_Z k).
  { apply (Qmult_le_r _ _ s) in H; [|exact Hs].
    rewrite div_scale_cancel in H by exact Hs. exact H. }
  apply round_half_even_le in Hk. rewrite Zle_Qle in Hk.
  apply Qle_shift_div_r; [exact Hs|].
  rewrite div_scale_cancel by exact Hs. exact Hk.
Qed.

Lemma round_dec_mono (n : nat) (x y : Q) :
  x <= y -> Rat.round_dec n x <= Rat.round_dec n y.
Proof.
  intros H. unfold Rat.round_dec. rewrite !Qred_correct.
  pose proof (scale_pos n) as Hs.
  set (s := inject_Z (10 ^ Z.of_nat n)) in *.
  assert (Hk : x * s <= y * s) by (apply Qmult_le_r; assumption).
  apply round_half_even_mono in Hk. rewrite Zle_Qle in Hk.
  apply Qle_shift_div_l; [exact Hs|].
  rewrite div_scale_cancel by exact Hs. exact Hk.
Qed.

Lemma round_dec_nonneg (n : nat) (q : Q) : 0 <= q -> 0 <= Rat.round_dec n q.
Proof.
  intros H.
  assert (E : inject_Z 0 / inject_Z (10 ^ Z.of_nat n) == 0).
  { unfold Qdiv. change (inject_Z 0) with 0. ring. }
  rewrite <- E. apply round_dec_ge. rewrite E. exact H.
Qed.

(** For non-negative values [int(x)] is the floor. *)
Lemma trunc_floor (q : Q) : 0 <= q -> Rat.trunc q = Qfloor q.
Proof.
  intros H. destruct q as [a b]. unfold Rat.trunc, Qfloor. simpl.
  apply Z.quot_div_nonneg; [|lia].
  unfold Qle in H. simpl in H. lia.
Qed.

Lemma trunc_ge (k : Z) (q : Q) :
  (0 <= k)%Z -> inject_Z k <= q -> (k <= Rat.trunc q)%Z.
Proof.
  intros Hk H. rewrite trunc_floor.
  - apply Qfloor_resp_le in H. rewrite Qfloor_Z in H. exact H.
  - apply Qle_trans with (inject_Z k); [|exact H].
    replace 0 with (inject_Z 0) by reflexivity. rewrite <- Zle_Qle. exact Hk.
Qed.

Lemma trunc_le (k : Z) (q : Q) :
  0 <= q -> q <= inject_Z k -> (Rat.trunc q <= k)%Z.
Proof.
  intros Hq H. rewrite trunc_floor by exact Hq.
  apply Qfloor_resp_le in H. rewrite Qfloor_Z in H. exact H.
Qed.

End RatFacts.

(** ** The simulator *)

Section Simulator.

Lemma py_max_ge (a b : Q) : a <= py_max a b.
Proof.
  unfold py_max. destruct (Rat.ltb a b) eqn:E.
  - apply ltb_spec in E. lra.
  - lra.
Qed.

Lemma py_min_bounds (a b lo : Q) :
  lo <= a -> lo <= b -> lo <= py_min a b /\ py_min a b <= b.
Proof.
  intros Ha Hb. unfold py_min. destruct (Rat.ltb b a) eqn:E.
  - split; lra.
  - apply ltb_false in E. split; lra.
Qed.

Lemma planned_cases (s : shift) :
  (planned_production_minutes s = 480 \/ planned_production_minutes s = 420)%Z.
Proof. destruct s; simpl; auto. Qed.

(** Lines 87-88: the clamped downtime lies between 0 and half the planned
    time. *)
Lemma clamped_downtime_bounds (d : Draws) :
  0 <= clamped_downtime d /\
  clamped_downtime d
    <= inject_Z (planned_production_minutes (shift_draw d)) * (1 # 2).
Proof.
  unfold clamped_downtime. apply py_min_bounds.
  - apply py_max_ge.
  - destruct (shift_draw d); simpl; unfold Qle; simpl; lia.
Qed.

Lemma actual_range_bounds (m : machine) (c : Q) :
  in_range (actual_range m) c -> 1 <= c /\ c <= 65.
Proof. unfold in_range. destruct m; simpl; intros [? ?]; split; lra. Qed.

Lemma defect_range_bounds (m : machine) (x : Q) :
  in_range (defect_range m) x -> 0 <= x /\ x <= 100.
Proof. unfold in_range. destruct m; simpl; intros [? ?]; split; lra. Qed.

Lemma ideal_cycle_pos (m : machine) : 0 < ideal_cycle_time m.
Proof. destruct m; reflexivity. Qed.

Lemma half_planned_tenths (p : Z) :
  (1 # 2) * inject_Z p == inject_Z (5 * p) / inject_Z (10 ^ Z.of_nat 1).
Proof.
  change (10 ^ Z.of_nat 1)%Z with 10%Z. rewrite inject_Z_mult. field.
Qed.

(** Every appended row satisfies the invariants of the data model. *)
Lemma generate_record_simulated (d : Draws) (r : ProductionRecord) :
  valid_draws d -> generate_record d = Appended r -> simulated r.
Proof.
  intros [Hoff Hwk Hcyc Hdef] H. unfold generate_record in H.
  destruct (_ && _); [discriminate|].
  destruct (Rat.eqb (cycle_draw d) 0); [discriminate|].
  injection H as <-.
  destruct (clamped_downtime_bounds d) as [Hlo Hhi].
  apply actual_range_bounds in Hcyc. destruct Hcyc as [Hc1 Hc2].
  apply defect_range_bounds in Hdef. destruct Hdef as [Hd1 Hd2].
  set (p := planned_production_minutes (shift_draw d)) in *.
  assert (Hp : 420 <= inject_Z p).
  { subst p. destruct (shift_draw d); simpl; unfold Qle; simpl; lia. }
  set (cd := clamped_downtime d) in *.
  set (q := (inject_Z p - cd) * 60 / cycle_draw d).
  assert (Hq : 1 <= q).
  { subst q. apply Qle_shift_div_l; lra. }
  assert (Hu : (1 <= Rat.trunc q)%Z) by (apply trunc_ge; [lia|exact Hq]).
  set (u := Rat.trunc q) in *.
  assert (Hu0 : 0 <= inject_Z u).
  { replace 0 with (inject_Z 0) by reflexivity. rewrite <- Zle_Qle. lia. }
  assert (Hud : 0 <= inject_Z u * defect_draw d)
    by (apply Qmult_le_0_compat; lra).
  constructor; simpl.
  - apply planned_cases.
  - apply round_dec_nonneg. exact Hlo.
  - rewrite half_planned_tenths. apply round_dec_le.
    rewrite <- half_planned_tenths. fold p. lra.
  - apply ideal_cycle_pos.
  - fold q. fold u. lia.
  - fold q. fold u. split.
    + apply trunc_ge; [lia|]. change (inject_Z 0) with 0.
      apply Qle_shift_div_l; [lra|]. lra.
    + apply trunc_le.
      * apply Qle_shift_div_l; [lra|]. lra.
      * apply Qle_shift_div_r; [lra|]. nra.
  - reflexivity.
Qed.

End Simulator.

(** ** Running the table operations *)

Section Running.

Lemma heap_with_frame (l : loc) (t t0 : DataFrame) (s : State) :
  heap s !! l = Some t0 -> heap (with_frame l t s) !! l = Some t.
Proof.
  intros H. unfold with_frame. simpl.
  apply list_lookup_insert_eq. eapply lookup_lt_Some. exact H.
Qed.

Lemma heap_with_frame_ne (l l' : loc) (t : DataFrame) (s : State) :
  l <> l' -> heap (with_frame l t s) !! l' = heap s !! l'.
Proof. intros H. unfold with_frame. simpl. by apply list_lookup_insert_ne. Qed.

Lemma with_frame_twice (l : loc) (t1 t2 : DataFrame) (s : State) :
  with_frame l t2 (with_frame l t1 s) = with_frame l t2 s.
Proof. unfold with_frame. simpl. f_equal. apply list_insert_insert_eq. Qed.

Lemma length_with_frame (l : loc) (t : DataFrame) (s : State) :
  length (heap (with_frame l t s)) = length (heap s).
Proof. unfold with_frame. simpl. apply length_insert. Qed.

Lemma run_num_col {B} (l : loc) (c : string) (k : list num -> M B)
    (s : State) (t : DataFrame) (xs : list num) :
  heap s !! l = Some t -> t !! c = Some (NumSeries xs) ->
  bind (Py.num_col l c) k s = k xs s.
Proof.
  intros Hl Hc. unfold bind, Py.num_col, Py.frame, bind. rewrite Hl, Hc.
  reflexivity.
Qed.

Lemma run_str_col {B} (l : loc) (c : string) (k : list string -> M B)
    (s : State) (t : DataFrame) (xs : list string) :
  heap s !! l = Some t -> t !! c = Some (StrSeries xs) ->
  bind (Py.str_col l c) k s = k xs s.
Proof.
  intros Hl Hc. unfold bind, Py.str_col, Py.frame, bind. rewrite Hl, Hc.
  reflexivity.
Qed.

Lemma run_set_col {B} (l : loc) (c : string) (xs : Series) (k : unit -> M B)
    (s : State) (t : DataFrame) :
  heap s !! l = Some t ->
  bind (Py.set_col l c xs) k s = k tt (with_frame l (<[c := xs]> t) s).
Proof.
  intros Hl. unfold bind, Py.set_col. rewrite Hl. reflexivity.
Qed.

Lemma run_set_col_end (l : loc) (c : string) (xs : Series)
    (s : State) (t : DataFrame) :
  heap s !! l = Some t ->
  Py.set_col l c xs s = Some (tt, with_frame l (<[c := xs]> t) s).
Proof. intros Hl. unfold Py.set_col. rewrite Hl. reflexivity. Qed.

Lemma run_new {B} (t : DataFrame) (k : loc -> M B) (s : State) :
  bind (Py.new t) k s = k (length (heap s)) (with_new t s).
Proof. reflexivity. Qed.

Lemma run_copy {B} (l : loc) (k : loc -> M B) (s : State) (t : DataFrame) :
  heap s !! l = Some t ->
  bind (Py.copy l) k s = k (length (heap s)) (with_new t s).
Proof.
  intros Hl. unfold bind, Py.copy, bind, Py.frame. rewrite Hl. reflexivity.
Qed.

Lemma run_ret {A B} (a : A) (k : A -> M B) (s : State) :
  bind (ret a) k s = k a s.
Proof. reflexivity. Qed.

Lemma length_with_new (t : DataFrame) (s : State) :
  length (heap (with_new t s)) = S (length (heap s)).
Proof. unfold with_new. simpl. rewrite length_app. simpl. lia. Qed.

Lemma heap_with_new_old (l : loc) (t t0 : DataFrame) (s : State) :
  heap s !! l = Some t0 -> heap (with_new t s) !! l = Some t0.
Proof. intros H. unfold with_new. simpl. by apply lookup_app_l_Some. Qed.

Lemma heap_with_new_lt (l : loc) (t : DataFrame) (s : State) :
  (l < length (heap s))%nat -> heap (with_new t s) !! l = heap s !! l.
Proof. intros H. unfold with_new. simpl. by apply lookup_app_l. Qed.

Lemma heap_with_new_last (t : DataFrame) (s : State) :
  heap (with_new t s) !! length (heap s) = Some t.
Proof.
  unfold with_new. simpl. rewrite lookup_app_r by lia.
  by rewrite Nat.sub_diag.
Qed.

End Running.

(** One step of a run: read or write a column of a table whose content is
    known. *)
Ltac table_lookup :=
  first [ eassumption
        | apply heap_with_new_last
        | eapply heap_with_frame; table_lookup
        | eapply heap_with_new_old; table_lookup
        | rewrite heap_with_frame_ne by lia; table_lookup ].

Ltac column_lookup :=
  first [ eassumption
        | apply lookup_insert_eq
        | rewrite lookup_insert_ne by (intro; discriminate); column_lookup
        | unfold with_metrics; column_lookup ].

Ltac run_step :=
  first
    [ erewrite run_num_col by (first [table_lookup | column_lookup])
    | erewrite run_str_col by (first [table_lookup | column_lookup])
    | erewrite run_set_col by table_lookup
    | erewrite run_set_col_end by table_lookup
    | rewrite run_new
    | rewrite run_ret
    | rewrite with_frame_twice ].

Section Calculator.

Lemma with_metrics_columns (a p q o : list num) (t : DataFrame) :
  with_metrics a p q o t !! "Availability" = Some (NumSeries a) /\
  with_metrics a p q o t !! "Performance" = Some (NumSeries p) /\
  with_metrics a p q o t !! "Quality" = Some (NumSeries q) /\
  with_metrics a p q o t !! "OEE" = Some (NumSeries o).
Proof. unfold with_metrics. repeat split; simplify_map_eq; reflexivity. Qed.

Lemma raw_metrics_run (l : loc) (s : State) (t : DataFrame)
    (planned downtime ideal units good : list num) :
  heap s !! l = Some t ->
  t !! "Planned_Production_Time" = Some (NumSeries planned) ->
  t !! "Downtime_Minutes" = Some (NumSeries downtime) ->
  t !! "Ideal_Cycle_Time" = Some (NumSeries ideal) ->
  t !! "Total_Units_Produced" = Some (NumSeries units) ->
  t !! "Good_Units" = Some (NumSeries good) ->
  let a := raw_availability planned downtime in
  let p := raw_performance planned downtime ideal units in
  let q := raw_quality good units in
  raw_metrics l s
  = Some (tt, with_frame l (with_metrics a p q (raw_oee a p q) t) s).
Proof.
  intros Hl Hp Hd Hi Hu Hg a p q. unfold raw_metrics.
  repeat run_step. reflexivity.
Qed.

Lemma clip_metrics_run (l : loc) (s : State) (t : DataFrame)
    (a p q o : list num) :
  heap s !! l = Some t ->
  t !! "Availability" = Some (NumSeries a) ->
  t !! "Performance" = Some (NumSeries p) ->
  t !! "Quality" = Some (NumSeries q) ->
  t !! "OEE" = Some (NumSeries o) ->
  clip_metrics l s
  = Some (tt, with_frame l
                (with_metrics (capped a) (capped p) (capped q) (capped o) t)
                s).
Proof.
  intros Hl Ha Hp Hq Ho. unfold clip_metrics.
  repeat run_step. reflexivity.
Qed.

Lemma run_clip_metrics {B} (l : loc) (k : unit -> M B) (s : State)
    (t : DataFrame) (a p q o : list num) :
  heap s !! l = Some t ->
  t !! "Availability" = Some (NumSeries a) ->
  t !! "Performance" = Some (NumSeries p) ->
  t !! "Quality" = Some (NumSeries q) ->
  t !! "OEE" = Some (NumSeries o) ->
  bind (clip_metrics l) k s
  = k tt (with_frame l
            (with_metrics (capped a) (capped p) (capped q) (capped o) t) s).
Proof.
  intros Hl Ha Hp Hq Ho. unfold bind at 1.
  rewrite (clip_metrics_run l s t a p q o) by assumption. reflexivity.
Qed.

(** The calculator on a table that has the five input columns: it succeeds,
    returns the table it was given, and leaves [oee_table] both in that
    table and in the new copy. *)
Lemma calculate_oee_metrics_run (l : loc) (s : State) (t : DataFrame)
    (planned downtime ideal units good : list num) :
  heap s !! l = Some t ->
  t !! "Planned_Production_Time" = Some (NumSeries planned) ->
  t !! "Downtime_Minutes" = Some (NumSeries downtime) ->
  t !! "Ideal_Cycle_Time" = Some (NumSeries ideal) ->
  t !! "Total_Units_Produced" = Some (NumSeries units) ->
  t !! "Good_Units" = Some (NumSeries good) ->
  calculate_oee_metrics l s
  = Some (l, calculated l (oee_table planned downtime ideal units good t) s).
Proof.
  intros Hl Hp Hd Hi Hu Hg. unfold calculate_oee_metrics.
  unfold bind at 1.
  rewrite (raw_metrics_run l s t planned downtime ideal units good)
    by assumption.
  cbv zeta. unfold bind at 1.
  erewrite clip_metrics_run;
    [ | eapply heap_with_frame; eassumption
      | unfold with_metrics; simplify_map_eq; reflexivity ..].
  rewrite with_frame_twice.
  erewrite run_copy by (eapply heap_with_frame; eassumption).
  unfold bind, Py.set_oee_results, ret, calculated, oee_table. simpl.
  rewrite length_insert. reflexivity.
Qed.

End Calculator.

Section Rows.

Lemma zip_with_map_same {A B C D} (f : B -> C -> D) (g : A -> B) (h : A -> C)
    (l : list A) :
  zip_with f (map g l) (map h l) = map (fun x => f (g x) (h x)) l.
Proof. induction l as [|x l IH]; simpl; [reflexivity|]. by rewrite IH. Qed.

Lemma DataFrame_of_cons (r : ProductionRecord) (data : list ProductionRecord) :
  let t := DataFrame_of (r :: data) in
  t !! "Date" = Some (StrSeries (map Date (r :: data))) /\
  t !! "Shift" = Some (StrSeries (map Shift (r :: data))) /\
  t !! "Machine_Name" = Some (StrSeries (map Machine_Name (r :: data))) /\
  t !! "Planned_Production_Time" = Some (NumSeries (planned_col (r :: data))) /\
  t !! "Downtime_Minutes" = Some (NumSeries (downtime_col (r :: data))) /\
  t !! "Downtime_Reason" = Some (StrSeries (map Downtime_Reason (r :: data))) /\
  t !! "Ideal_Cycle_Time" = Some (NumSeries (ideal_col (r :: data))) /\
  t !! "Actual_Cycle_Time"
    = Some (NumSeries (map (fun r => Fin (Actual_Cycle_Time r)) (r :: data))) /\
  t !! "Total_Units_Produced" = Some (NumSeries (units_col (r :: data))) /\
  t !! "Defective_Units"
    = Some (NumSeries (map (fun r => Num.of_Z (Defective_Units r)) (r :: data))) /\
  t !! "Good_Units" = Some (NumSeries (good_col (r :: data))).
Proof.
  cbv zeta. unfold DataFrame_of.
  repeat split; simplify_map_eq; reflexivity.
Qed.

Lemma raw_availability_rows (data : list ProductionRecord) :
  raw_availability (planned_col data) (downtime_col data)
  = map row_availability data.
Proof.
  unfold raw_availability, Ser.mul_scalar, Ser.div, Ser.sub,
    planned_col, downtime_col.
  rewrite !zip_with_map_same, map_map. reflexivity.
Qed.

Lemma raw_performance_rows (data : list ProductionRecord) :
  raw_performance (planned_col data) (downtime_col data)
                  (ideal_col data) (units_col data)
  = map row_performance data.
Proof.
  unfold raw_performance, Ser.mul_scalar, Ser.div, Ser.sub, Ser.mul,
    planned_col, downtime_col, ideal_col, units_col.
  rewrite !zip_with_map_same, map_map, zip_with_map_same, map_map.
  reflexivity.
Qed.

Lemma raw_quality_rows (data : list ProductionRecord) :
  raw_quality (good_col data) (units_col data) = map row_quality data.
Proof.
  unfold raw_quality, Ser.mul_scalar, Ser.div, good_col, units_col.
  rewrite zip_with_map_same, map_map. reflexivity.
Qed.

Lemma raw_oee_rows (data : list ProductionRecord) :
  raw_oee (map row_availability data) (map row_performance data)
          (map row_quality data)
  = map row_oee data.
Proof.
  unfold raw_oee, Ser.div_scalar, Ser.mul.
  rewrite !zip_with_map_same, map_map. reflexivity.
Qed.

(** The metric columns of the calculated table, row by row. *)
Lemma oee_table_of_columns (data : list ProductionRecord) :
  let t := oee_table_of data in
  t !! "Availability"
    = Some (NumSeries (map (fun r => Num.clip_upper 100 (row_availability r)) data)) /\
  t !! "Performance"
    = Some (NumSeries (map (fun r => Num.clip_upper 100 (row_performance r)) data)) /\
  t !! "Quality"
    = Some (NumSeries (map (fun r => Num.clip_upper 100 (row_quality r)) data)) /\
  t !! "OEE"
    = Some (NumSeries (map (fun r => Num.clip_upper 100 (row_oee r)) data)).
Proof.
  cbv zeta. unfold oee_table_of, oee_table, capped, Ser.clip_upper.
  rewrite raw_availability_rows, raw_performance_rows, raw_quality_rows,
    raw_oee_rows, !map_map.
  unfold with_metrics. repeat split; simplify_map_eq; reflexivity.
Qed.

(** The calculator leaves every other column as it found it. *)
Lemma oee_table_other (planned downtime ideal units good : list num)
    (t : DataFrame) (c : string) :
  c <> "Availability" -> c <> "Performance" -> c <> "Quality" -> c <> "OEE" ->
  oee_table planned downtime ideal units good t !! c = t !! c.
Proof.
  intros. unfold oee_table, with_metrics. cbv zeta.
  rewrite !lookup_insert_ne by congruence. reflexivity.
Qed.

End Rows.

(** ** The metrics of a simulated row *)

Section RowValues.

Lemma div_fin (x y : Q) :
  ~ y == 0 -> Num.div (Fin x) (Fin y) = Fin (Qred (x / y)).
Proof. intros H. unfold Num.div. rewrite eqb_false by exact H. reflexivity. Qed.

Lemma clip_percentage (v : Q) :
  0 <= v -> percentage (Num.clip_upper 100 (Fin v)).
Proof.
  intros H. unfold Num.clip_upper, percentage.
  destruct (Rat.ltb 100 v) eqn:E.
  - exists 100. repeat split; lra.
  - apply ltb_false in E. exists v. repeat split; assumption.
Qed.

Lemma planned_pos (r : ProductionRecord) :
  simulated r -> 420 <= inject_Z (Planned_Production_Time r).
Proof.
  intros [[-> | ->] _ _ _ _ _ _]; unfold Qle; simpl; lia.
Qed.

Lemma quotient_bounds (x y lo hi : Q) :
  0 < y -> lo * y <= x -> x <= hi * y -> lo <= x / y /\ x / y <= hi.
Proof.
  intros Hy Hlo Hhi. split.
  - apply Qle_shift_div_l; assumption.
  - apply Qle_shift_div_r; assumption.
Qed.

(** Availability of a simulated row: finite and at least 50 before the
    cap. *)
Lemma row_availability_value (r : ProductionRecord) :
  simulated r ->
  exists a, row_availability r = Fin a /\ 50 <= a /\ a <= 100.
Proof.
  intros Hr. pose proof (planned_pos r Hr) as Hp.
  destruct Hr as [_ Hlo Hhi _ _ _ _].
  unfold row_availability, Num.of_Z. cbn [Num.sub].
  rewrite div_fin by lra. cbn [Num.mul].
  eexists. split; [reflexivity|]. rewrite !Qred_correct.
  set (P := inject_Z (Planned_Production_Time r)) in *.
  destruct (quotient_bounds (P - Downtime_Minutes r) P (1 # 2) 1)
    as [H1 H2]; [lra..|].
  split; lra.
Qed.

Lemma row_performance_value (r : ProductionRecord) :
  simulated r -> exists p, row_performance r = Fin p /\ 0 <= p.
Proof.
  intros Hr. pose proof (planned_pos r Hr) as Hp.
  destruct Hr as [_ Hlo Hhi Hi Hu _ _].
  unfold row_performance, Num.of_Z. cbn [Num.sub Num.mul].
  set (P := inject_Z (Planned_Production_Time r)) in *.
  assert (HU : 0 <= inject_Z (Total_Units_Produced r)).
  { replace 0 with (inject_Z 0) by reflexivity. rewrite <- Zle_Qle. lia. }
  rewrite div_fin by (rewrite !Qred_correct; lra). cbn [Num.mul].
  eexists. split; [reflexivity|]. rewrite !Qred_correct.
  assert (Hn : 0 <= Ideal_Cycle_Time r * inject_Z (Total_Units_Produced r))
    by (apply Qmult_le_0_compat; lra).
  assert (H : 0 <= Ideal_Cycle_Time r * inject_Z (Total_Units_Produced r)
                   / ((P - Downtime_Minutes r) * 60)).
  { apply Qle_shift_div_l; lra. }
  lra.
Qed.

Lemma row_quality_value (r : ProductionRecord) :
  simulated r ->
  exists q, row_quality r = Fin q /\ 0 <= q /\ q <= 100.
Proof.
  intros [_ _ _ _ Hu Hd Hg].
  unfold row_quality, Num.of_Z.
  assert (HU : 0 < inject_Z (Total_Units_Produced r)).
  { replace 0 with (inject_Z 0) by reflexivity. rewrite <- Zlt_Qlt. lia. }
  assert (HG0 : 0 <= inject_Z (Good_Units r)).
  { replace 0 with (inject_Z 0) by reflexivity. rewrite <- Zle_Qle. lia. }
  assert (HG1 : inject_Z (Good_Units r) <= inject_Z (Total_Units_Produced r)).
  { rewrite <- Zle_Qle. lia. }
  rewrite div_fin by lra. cbn [Num.mul].
  eexists. split; [reflexivity|]. rewrite !Qred_correct.
  destruct (quotient_bounds (inject_Z (Good_Units r))
              (inject_Z (Total_Units_Produced r)) 0 1) as [H1 H2]; [lra..|].
  split; lra.
Qed.

Lemma row_oee_value (r : ProductionRecord) :
  simulated r -> exists o, row_oee r = Fin o /\ 0 <= o.
Proof.
  intros Hr. unfold row_oee.
  destruct (row_availability_value r Hr) as (a & -> & Ha & _).
  destruct (row_performance_value r Hr) as (p & -> & Hp).
  destruct (row_quality_value r Hr) as (q & -> & Hq & _).
  cbn [Num.mul]. rewrite div_fin by discriminate.
  eexists. split; [reflexivity|]. rewrite !Qred_correct.
  assert (0 <= a * p) by (apply Qmult_le_0_compat; lra).
  assert (0 <= a * p * q) by (apply Qmult_le_0_compat; lra).
  apply Qle_shift_div_l; lra.
Qed.

End RowValues.

(** ** The simulator and the calculator, end to end *)

Section Pipeline.

Lemma generate_rows_simulated (draws : list Draws)
    (data : list ProductionRecord) :
  Forall valid_draws draws -> generate_rows draws = Some data ->
  Forall simulated data.
Proof.
  intros Hv. revert data.
  induction Hv as [|d draws Hd _ IH]; intros data H; simpl in H.
  - injection H as <-. constructor.
  - destruct (generate_record d) as [|r|] eqn:E; [auto| |discriminate].
    destruct (generate_rows draws) as [rest|]; [|discriminate].
    injection H as <-. constructor; [|auto].
    eapply generate_record_simulated; eassumption.
Qed.

Lemma emitted_simulated (r : ProductionRecord) : emitted r -> simulated r.
Proof.
  intros (draws & data & Hv & Hg & Hin).
  pose proof (generate_rows_simulated draws data Hv Hg) as Hall.
  rewrite List.Forall_forall in Hall. auto.
Qed.

(** The simulator succeeds exactly when it has appended a row; it then
    allocates the table and records it in [raw_data]. *)
Lemma generate_production_data_run (draws : list Draws) (s : State)
    (df : loc) (s1 : State) :
  generate_production_data draws s = Some (df, s1) <->
  exists data, generate_rows draws = Some data /\ data <> [] /\
               df = length (heap s) /\ s1 = generated data s.
Proof.
  unfold generate_production_data.
  destruct (generate_rows draws) as [[|r data]|].
  - split.
    + rewrite run_new. unfold bind at 1. unfold Py.set_raw_data.
      unfold bind, Py.str_col, Py.frame, bind. simpl.
      rewrite lookup_app_r by lia. rewrite Nat.sub_diag. simpl.
      rewrite lookup_empty. discriminate.
    + intros (data & H & Hne & _). injection H as <-. contradiction.
  - rewrite run_new.
    unfold bind at 1. unfold Py.set_raw_data.
    destruct (DataFrame_of_cons r data)
      as (HDate & _ & HMachine & _ & _ & _ & _ & _ & HUnits & _).
    assert (Hl : forall a,
      heap {| heap := heap (with_new (DataFrame_of (r :: data)) s);
              analyzer := a |} !! length (heap s)
      = Some (DataFrame_of (r :: data))).
    { intros a. simpl. rewrite lookup_app_r by lia.
      by rewrite Nat.sub_diag. }
    erewrite run_str_col by (first [apply Hl | exact HDate]).
    erewrite run_str_col by (first [apply Hl | exact HMachine]).
    erewrite run_num_col by (first [apply Hl | exact HUnits]).
    unfold ret. split.
    + intros H. injection H as <- <-. exists (r :: data).
      repeat split; done.
    + intros (data' & H & _ & -> & ->). injection H as <-. reflexivity.
  - split; [discriminate|]. intros (data & H & _). discriminate.
Qed.

Lemma heap_generated (data : list ProductionRecord) (s : State) :
  heap (generated data s) !! length (heap s) = Some (DataFrame_of data).
Proof.
  unfold generated. simpl. rewrite lookup_app_r by lia.
  by rewrite Nat.sub_diag.
Qed.

Lemma heap_calculated (l : loc) (t t0 : DataFrame) (s : State) :
  heap s !! l = Some t0 -> heap (calculated l t s) !! l = Some t.
Proof.
  intros H. unfold calculated. simpl.
  apply lookup_app_l_Some, list_lookup_insert_eq.
  eapply lookup_lt_Some. exact H.
Qed.

(** The calculator on the table of a batch that has rows. *)
Lemma calculate_batch (data : list ProductionRecord) (l : loc) (s : State) :
  data <> [] -> heap s !! l = Some (DataFrame_of data) ->
  calculate_oee_metrics l s = Some (l, calculated l (oee_table_of data) s).
Proof.
  intros Hne Hl. destruct data as [|r data]; [contradiction|].
  destruct (DataFrame_of_cons r data)
    as (_ & _ & _ & HP & HD & _ & HI & _ & HU & _ & HG).
  eapply calculate_oee_metrics_run; eassumption.
Qed.

End Pipeline.

(* ===================================================================== *)
(** * Claims about the simulator and the calculator *)
(* ===================================================================== *)

(** C1.  The reference batch of two records: the calculator returns
    availability, performance, quality and OEE of 100, 100, 100, 100 for
    record A and of 50, 50, 90, 22.5 for record B, whatever the date, shift,
    machine and reason fields are. *)
Theorem C1_reference_batch :
  forall (dA sA mA dB sB mB rB : string),
  exists t,
    run_calculator [record_A dA sA mA; record_B dB sB mB rB] = Some t /\
    t !! "Availability" = Some (NumSeries [Fin 100; Fin 50]) /\
    t !! "Performance" = Some (NumSeries [Fin 100; Fin 50]) /\
    t !! "Quality" = Some (NumSeries [Fin 100; Fin 90]) /\
    t !! "OEE" = Some (NumSeries [Fin 100; Fin (45 # 2)]).
Proof.
  intros. eexists. split; [reflexivity|].
  repeat split.
Qed.

(** C2.  On every table the simulator produces, the calculator succeeds and
    every entry of the Availability, Performance, Quality and OEE columns
    is a finite value between 0 and 100; every row has produced units. *)
Theorem C2_metrics_within_0_100 :
  forall (draws : list Draws) (s : State) (df : loc) (s1 : State),
    Forall valid_draws draws ->
    generate_production_data draws s = Some (df, s1) ->
    exists data s2 t,
      generate_rows draws = Some data /\ data <> [] /\
      Forall (fun r => (0 < Total_Units_Produced r)%Z) data /\
      calculate_oee_metrics df s1 = Some (df, s2) /\
      heap s2 !! df = Some t /\
      forall metric,
        In metric ["Availability"; "Performance"; "Quality"; "OEE"] ->
        exists xs, t !! metric = Some (NumSeries xs) /\
                   length xs = length data /\
                   Forall percentage xs.
Proof.
  intros draws s df s1 Hv Hgen.
  apply generate_production_data_run in Hgen.
  destruct Hgen as (data & Hrows & Hne & -> & ->).
  pose proof (generate_rows_simulated draws data Hv Hrows) as Hsim.
  exists data, (calculated (length (heap s)) (oee_table_of data)
                           (generated data s)), (oee_table_of data).
  split; [exact Hrows|]. split; [exact Hne|]. split.
  { eapply Forall_impl; [exact Hsim|]. intros r Hr. apply (sim_units r Hr). }
  split.
  { apply calculate_batch; [exact Hne|apply heap_generated]. }
  split.
  { eapply heap_calculated. apply heap_generated. }
  destruct (oee_table_of_columns data) as (Ha & Hp & Hq & Ho).
  intros metric Hin. simpl in Hin.
  destruct Hin as [<-|[<-|[<-|[<-|[]]]]]; eexists;
    (split; [eassumption|]); (split; [apply length_map|]);
    apply Forall_map; (eapply Forall_impl; [exact Hsim|]); intros r Hr; simpl.
  - destruct (row_availability_value r Hr) as (a & -> & ? & ?).
    apply clip_percentage. lra.
  - destruct (row_performance_value r Hr) as (p & -> & ?).
    apply clip_percentage. assumption.
  - destruct (row_quality_value r Hr) as (q & -> & ? & ?).
    apply clip_percentage. assumption.
  - destruct (row_oee_value r Hr) as (o & -> & ?).
    apply clip_percentage. assumption.
Qed.

(** C2 on the table the simulator makes of [draws_typical]. *)
Lemma C2_witness :
  exists data s2 t,
    generate_rows [draws_typical] = Some data /\ data <> [] /\
    Forall (fun r => (0 < Total_Units_Produced r)%Z) data /\
    calculate_oee_metrics 0%nat (generated [record_typical] init_state)
      = Some (0%nat, s2) /\
    heap s2 !! 0%nat = Some t /\
    forall metric,
      In metric ["Availability"; "Performance"; "Quality"; "OEE"] ->
      exists xs, t !! metric = Some (NumSeries xs) /\
                 length xs = length data /\
                 Forall percentage xs.
Proof.
  apply (C2_metrics_within_0_100 [draws_typical] init_state).
  - constructor; [|constructor].
    constructor; simpl; unfold in_range; simpl; try lia; split; lra.
  - reflexivity.
Defined.

(** C7.  Every record the simulator emits stores a downtime between 0 and
    half of its planned production time, and that planned time is the
    constant of one of the shifts. *)
Theorem C7_downtime_within_half_planned :
  forall r : ProductionRecord,
    emitted r ->
    0 <= Downtime_Minutes r /\
    Downtime_Minutes r <= (1 # 2) * inject_Z (Planned_Production_Time r) /\
    exists s : shift, Planned_Production_Time r = planned_production_minutes s.
Proof.
  intros r Hr. apply emitted_simulated in Hr.
  destruct Hr as [Hp Hlo Hhi _ _ _ _].
  split; [exact Hlo|]. split; [exact Hhi|].
  destruct Hp as [-> | ->]; [exists Morning | exists Night]; reflexivity.
Qed.

(** C7 on the row the simulator appends for [draws_typical]. *)
Lemma C7_witness :
  emitted record_typical /\
  0 <= Downtime_Minutes record_typical /\
  Downtime_Minutes record_typical
    <= (1 # 2) * inject_Z (Planned_Production_Time record_typical) /\
  exists s : shift,
    Planned_Production_Time record_typical = planned_production_minutes s.
Proof.
  assert (H : emitted record_typical).
  { exists [draws_typical], [record_typical]. split; [|split].
    - constructor; [|constructor].
      constructor; simpl; unfold in_range; simpl; try lia; split; lra.
    - reflexivity.
    - left. reflexivity. }
  split; [exact H|]. exact (C7_downtime_within_half_planned record_typical H).
Defined.

(** C10.  On every table the simulator produces, each row keeps at least
    half of its planned time available, so the divisors of the calculator
    (planned time, and available time times 60) are positive; the
    Availability column before the cap holds finite values of at least 50
    and the Performance column finite non-negative values. *)
Theorem C10_raw_availability_at_least_50 :
  forall (draws : list Draws) (s : State) (df : loc) (s1 : State),
    Forall valid_draws draws ->
    generate_production_data draws s = Some (df, s1) ->
    exists data s2 t av pf,
      generate_rows draws = Some data /\ data <> [] /\
      Forall (fun r =>
                let planned := inject_Z (Planned_Production_Time r) in
                let available := planned - Downtime_Minutes r in
                0 < (1 # 2) * planned /\ (1 # 2) * planned <= available /\
                0 < planned /\ 0 < available * 60) data /\
      raw_metrics df s1 = Some (tt, s2) /\
      heap s2 !! df = Some t /\
      t !! "Availability" = Some (NumSeries av) /\
      length av = length data /\
      Forall (fun x => exists a, x = Fin a /\ 50 <= a) av /\
      t !! "Performance" = Some (NumSeries pf) /\
      length pf = length data /\
      Forall (fun x => exists p, x = Fin p /\ 0 <= p) pf.
Proof.
  intros draws s df s1 Hv Hgen.
  apply generate_production_data_run in Hgen.
  destruct Hgen as (data & Hrows & Hne & -> & ->).
  pose proof (generate_rows_simulated draws data Hv Hrows) as Hsim.
  destruct data as [|r0 data]; [contradiction|].
  destruct (DataFrame_of_cons r0 data)
    as (_ & _ & _ & HP & HD & _ & HI & _ & HU & _ & HG).
  pose proof (raw_metrics_run (length (heap s)) (generated (r0 :: data) s)
                _ _ _ _ _ _ (heap_generated (r0 :: data) s) HP HD HI HU HG)
    as Hrun.
  cbv zeta in Hrun.
  rewrite raw_availability_rows, raw_performance_rows, raw_quality_rows,
    raw_oee_rows in Hrun.
  do 5 eexists.
  split; [exact Hrows|]. split; [exact Hne|]. split.
  { eapply Forall_impl; [exact Hsim|]. intros r Hr. cbv zeta.
    pose proof (planned_pos r Hr) as Hp.
    destruct Hr as [_ Hlo Hhi _ _ _ _]. repeat split; lra. }
  split; [exact Hrun|].
  split; [eapply heap_with_frame; apply heap_generated|].
  split; [apply with_metrics_columns|].
  split; [apply length_map|]. split.
  { apply Forall_map. eapply Forall_impl; [exact Hsim|]. intros r Hr.
    destruct (row_availability_value r Hr) as (a & Ha & ? & _).
    exists a. split; assumption. }
  split; [apply with_metrics_columns|].
  split; [apply length_map|].
  apply Forall_map. eapply Forall_impl; [exact Hsim|]. intros r Hr.
  exact (row_performance_value r Hr).
Qed.

(** C10 on the table the simulator makes of [draws_typical]. *)
Lemma C10_witness :
  exists data s2 t av pf,
    generate_rows [draws_typical] = Some data /\ data <> [] /\
    Forall (fun r =>
              let planned := inject_Z (Planned_Production_Time r) in
              let available := planned - Downtime_Minutes r in
              0 < (1 # 2) * planned /\ (1 # 2) * planned <= available /\
              0 < planned /\ 0 < available * 60) data /\
    raw_metrics 0%nat (generated [record_typical] init_state)
      = Some (tt, s2) /\
    heap s2 !! 0%nat = Some t /\
    t !! "Availability" = Some (NumSeries av) /\
    length av = length data /\
    Forall (fun x => exists a, x = Fin a /\ 50 <= a) av /\
    t !! "Performance" = Some (NumSeries pf) /\
    length pf = length data /\
    Forall (fun x => exists p, x = Fin p /\ 0 <= p) pf.
Proof.
  apply (C10_raw_availability_at_least_50 [draws_typical] init_state).
  - constructor; [|constructor].
    constructor; simpl; unfold in_range; simpl; try lia; split; lra.
  - reflexivity.
Defined.

(** The direction of C6 that does hold: a row whose reason is 'None' stores
    a downtime of zero. *)
Lemma none_reason_zero_downtime (d : Draws) (r : ProductionRecord) :
  generate_record d = Appended r ->
  Downtime_Reason r = "None" -> Downtime_Minutes r == 0.
Proof.
  intros H Hnone. unfold generate_record in H.
  destruct (_ && _); [discriminate|].
  destruct (Rat.eqb (cycle_draw d) 0); [discriminate|].
  injection H as <-. simpl in *.
  destruct (clamped_downtime_bounds d) as [Hlo _].
  unfold assign_reason in Hnone.
  destruct (Rat.ltb 0 (clamped_downtime d)) eqn:E.
  - destruct (Rat.ltb 60 _); [|destruct (Rat.ltb 30 _)];
      destruct (reason_draw d); discriminate.
  - apply ltb_false in E.
    assert (Hz : inject_Z 0 / inject_Z (10 ^ Z.of_nat 1) == 0) by reflexivity.
    apply Qle_antisym.
    + rewrite <- Hz. apply round_dec_le. rewrite Hz. exact E.
    + apply round_dec_nonneg. exact Hlo.
Qed.

(** C6.  The draws of [draws_brief_stop] are admissible and give a clamped
    downtime of 0.03 minutes: the row appended for them carries the reason
    'Minor Stoppage' while its stored downtime, rounded to one decimal,
    is 0. *)
Theorem C6_brief_stop_stored_as_zero :
  valid_draws draws_brief_stop /\
  clamped_downtime draws_brief_stop == 3 # 100 /\
  exists r : ProductionRecord,
    generate_record draws_brief_stop = Appended r /\
    emitted r /\
    Downtime_Minutes r = 0 /\
    Downtime_Reason r = "Minor Stoppage".
Proof.
  assert (Hv : valid_draws draws_brief_stop).
  { constructor; simpl; unfold in_range; simpl; try lia; split; lra. }
  split; [exact Hv|]. split; [reflexivity|].
  eexists. split; [reflexivity|]. split; [|split; reflexivity].
  exists [draws_brief_stop]. eexists. split; [|split].
  - constructor; [exact Hv|constructor].
  - reflexivity.
  - left. reflexivity.
Qed.

(** C8.  There is a record, with a raw performance of 200, for which the
    capped OEE (100) is strictly greater than the least of the capped
    availability (50), performance (100) and quality (100). *)
Theorem C8_oee_not_bounded_by_least_factor :
  exists (r : ProductionRecord) (t : DataFrame) (s' : State) (a p q o : Q),
    (let* df := Py.new (DataFrame_of [r]) in
     raw_metrics df;; Py.num_col df "Performance") init_state
      = Some ([Fin 200], s') /\
    run_calculator [r] = Some t /\
    t !! "Availability" = Some (NumSeries [Fin a]) /\
    t !! "Performance" = Some (NumSeries [Fin p]) /\
    t !! "Quality" = Some (NumSeries [Fin q]) /\
    t !! "OEE" = Some (NumSeries [Fin o]) /\
    Qmin a (Qmin p q) < o.
Proof.
  exists record_fast. eexists. eexists. exists 50, 100, 100, 100.
  split; [reflexivity|]. split; [reflexivity|].
  repeat split.
Qed.

(* ===================================================================== *)
(** * Records without output (claim C3) *)
(* ===================================================================== *)

Section Degenerate.

Lemma map_lookup {A B} (f : A -> B) (l : list A) (i : nat) (x : A) :
  l !! i = Some x -> map f l !! i = Some (f x).
Proof.
  revert i. induction l as [|y l IH]; intros [|i] H; simpl in *;
    try discriminate.
  - by injection H as ->.
  - by apply IH.
Qed.

Lemma run_calculator_batch (data : list ProductionRecord) :
  data <> [] -> run_calculator data = Some (oee_table_of data).
Proof.
  intros Hne. unfold run_calculator. rewrite run_new.
  unfold bind at 1.
  rewrite (calculate_batch data) by (first [exact Hne | reflexivity]).
  unfold Py.frame, calculated. simpl. reflexivity.
Qed.

Lemma Qred_zero (x : Q) : x == 0 -> Qred x = 0.
Proof. intros H. apply (Qred_complete x 0) in H. exact H. Qed.

Lemma row_performance_idle (r : ProductionRecord) :
  Total_Units_Produced r = 0%Z ->
  ~ inject_Z (Planned_Production_Time r) == Downtime_Minutes r ->
  row_performance r = Fin 0.
Proof.
  intros Hu Hne. unfold row_performance, Num.of_Z. rewrite Hu.
  cbn [Num.sub Num.mul].
  rewrite div_fin.
  - cbn [Num.mul]. f_equal. apply Qred_zero.
    rewrite !Qred_correct. change (inject_Z 0) with 0.
    unfold Qdiv. ring.
  - rewrite !Qred_correct. intros H. apply Hne.
    set (P := inject_Z (Planned_Production_Time r)) in *. lra.
Qed.

Lemma row_quality_idle (r : ProductionRecord) :
  Total_Units_Produced r = 0%Z -> Good_Units r = 0%Z -> row_quality r = NaN.
Proof. intros Hu Hg. unfold row_quality. rewrite Hu, Hg. reflexivity. Qed.

Lemma row_oee_idle (r : ProductionRecord) :
  row_quality r = NaN -> row_oee r = NaN.
Proof.
  intros Hq. unfold row_oee. rewrite Hq.
  destruct (Num.mul (row_availability r) (row_performance r)); reflexivity.
Qed.

End Degenerate.

(** C3, as stated, fails: for the record [record_idle], which has produced
    no units, the calculator does not return finite performance and quality
    values. *)
Lemma C3_counterexample :
  ~ (exists (t : DataFrame) (p q : Q),
       run_calculator [record_idle] = Some t /\
       t !! "Performance" = Some (NumSeries [Fin p]) /\
       t !! "Quality" = Some (NumSeries [Fin q])).
Proof.
  intros (t & p & q & Ht & _ & Hq).
  rewrite run_calculator_batch in Ht by discriminate.
  injection Ht as <-.
  destruct (oee_table_of_columns [record_idle]) as (_ & _ & Hq' & _).
  rewrite Hq' in Hq. discriminate.
Qed.

(** C3, amended.  For a row with no units produced (hence no good units)
    whose downtime differs from its planned time, the calculator does not
    raise and keeps the row: its performance is 0, its quality and its OEE
    are NaN.  The state has no tally of such rows. *)
Theorem C3_zero_units_gives_nan :
  forall (data : list ProductionRecord) (i : nat) (r : ProductionRecord),
    data !! i = Some r ->
    Total_Units_Produced r = 0%Z ->
    Good_Units r = 0%Z ->
    ~ inject_Z (Planned_Production_Time r) == Downtime_Minutes r ->
    exists (t : DataFrame) (pf ql oe : list num),
      run_calculator data = Some t /\
      t !! "Performance" = Some (NumSeries pf) /\
      t !! "Quality" = Some (NumSeries ql) /\
      t !! "OEE" = Some (NumSeries oe) /\
      length pf = length data /\
      length ql = length data /\
      length oe = length data /\
      pf !! i = Some (Fin 0) /\
      ql !! i = Some NaN /\
      oe !! i = Some NaN.
Proof.
  intros data i r Hi Hu Hg Hne.
  assert (Hdata : data <> []) by (intros ->; discriminate).
  destruct (oee_table_of_columns data) as (_ & Hp & Hq & Ho).
  exists (oee_table_of data). do 3 eexists.
  split; [apply run_calculator_batch; exact Hdata|].
  split; [exact Hp|]. split; [exact Hq|]. split; [exact Ho|].
  split; [apply length_map|]. split; [apply length_map|].
  split; [apply length_map|].
  pose proof (row_quality_idle r Hu Hg) as HQ.
  split; [|split].
  - rewrite (map_lookup _ data i r Hi).
    rewrite (row_performance_idle r Hu Hne). reflexivity.
  - rewrite (map_lookup _ data i r Hi). rewrite HQ. reflexivity.
  - rewrite (map_lookup _ data i r Hi).
    rewrite (row_oee_idle r HQ). reflexivity.
Qed.

(** C3 (amended) on a batch whose second record has produced nothing. *)
Lemma C3_witness :
  exists (t : DataFrame) (pf ql oe : list num),
    run_calculator [record_typical; record_idle] = Some t /\
    t !! "Performance" = Some (NumSeries pf) /\
    t !! "Quality" = Some (NumSeries ql) /\
    t !! "OEE" = Some (NumSeries oe) /\
    length pf = 2%nat /\ length ql = 2%nat /\ length oe = 2%nat /\
    pf !! 1%nat = Some (Fin 0) /\
    ql !! 1%nat = Some NaN /\
    oe !! 1%nat = Some NaN.
Proof.
  apply (C3_zero_units_gives_nan [record_typical; record_idle] 1 record_idle).
  - reflexivity.
  - reflexivity.
  - reflexivity.
  - intros H. discriminate H.
Defined.

(* ===================================================================== *)
(** * What the analyses change (claims C9 and C4) *)
(* ===================================================================== *)

Section Frames.

Variable sqrt : Q -> Q.

Lemma speed_loss_analysis_run (d : loc) (rd : option loc) (s : State)
    (t : DataFrame) (actual ideal units : list num)
    (machines dates shifts : list string) :
  heap s !! d = Some t ->
  t !! "Actual_Cycle_Time" = Some (NumSeries actual) ->
  t !! "Ideal_Cycle_Time" = Some (NumSeries ideal) ->
  t !! "Total_Units_Produced" = Some (NumSeries units) ->
  t !! "Machine_Name" = Some (StrSeries machines) ->
  t !! "Date" = Some (StrSeries dates) ->
  t !! "Shift" = Some (StrSeries shifts) ->
  exists summary worst : DataFrame,
    DetailedOEEAnalysis.speed_loss_analysis sqrt (DetailedOEEAnalysis.mk (Some d) rd) s
    = Some ((length (heap s), S (length (heap s))),
            analysed d
              (<["Speed_Loss_Percent" :=
                   NumSeries (speed_loss_col actual ideal)]> t)
              summary worst s).
Proof.
  intros Hl Ha Hi Hu Hm Hd Hs. do 2 eexists.
  unfold DetailedOEEAnalysis.speed_loss_analysis. cbn [DetailedOEEAnalysis.data Py.deref].
  repeat run_step.
  unfold ret, analysed.
  rewrite !length_with_new, !length_with_frame. reflexivity.
Qed.

Lemma quality_loss_analysis_run (d : loc) (rd : option loc) (s : State)
    (t : DataFrame) (defective units quality : list num)
    (machines shifts : list string) :
  heap s !! d = Some t ->
  t !! "Defective_Units" = Some (NumSeries defective) ->
  t !! "Total_Units_Produced" = Some (NumSeries units) ->
  t !! "Quality" = Some (NumSeries quality) ->
  t !! "Machine_Name" = Some (StrSeries machines) ->
  t !! "Shift" = Some (StrSeries shifts) ->
  exists summary by_shift : DataFrame,
    DetailedOEEAnalysis.quality_loss_analysis sqrt (DetailedOEEAnalysis.mk (Some d) rd) s
    = Some ((length (heap s), S (length (heap s))),
            analysed d
              (<["Defect_Rate_Percent" :=
                   NumSeries (defect_rate_col defective units)]> t)
              summary by_shift s).
Proof.
  intros Hl Hd Hu Hq Hm Hs. do 2 eexists.
  unfold DetailedOEEAnalysis.quality_loss_analysis. cbn [DetailedOEEAnalysis.data Py.deref].
  repeat run_step.
  unfold ret, analysed.
  rewrite !length_with_new, !length_with_frame. reflexivity.
Qed.

(** After an analysis every table other than the one at [d] is as before,
    and the table at [d] is the one given. *)
Lemma heap_analysed (d : loc) (t first second : DataFrame) (s : State) :
  (d < length (heap s))%nat ->
  heap (analysed d t first second s) !! d = Some t /\
  (forall l, l <> d -> (l < length (heap s))%nat ->
             heap (analysed d t first second s) !! l = heap s !! l) /\
  heap (analysed d t first second s) !! length (heap s) = Some first /\
  heap (analysed d t first second s) !! S (length (heap s)) = Some second.
Proof.
  intros Hd. unfold analysed, with_new, with_frame. simpl.
  repeat split.
  - rewrite <- app_assoc, lookup_app_l by (rewrite length_insert; exact Hd).
    by apply list_lookup_insert_eq.
  - intros l Hne Hl.
    rewrite <- app_assoc, lookup_app_l by (rewrite length_insert; exact Hl).
    by apply list_lookup_insert_ne.
  - rewrite <- app_assoc, lookup_app_r by (rewrite length_insert; lia).
    rewrite length_insert, Nat.sub_diag. reflexivity.
  - rewrite <- app_assoc, lookup_app_r by (rewrite length_insert; lia).
    rewrite length_insert.
    replace (S (length (heap s)) - length (heap s))%nat with 1%nat by lia.
    reflexivity.
Qed.

(** The improvement simulation on a baseline that has the columns it
    reads: it succeeds, allocates one table, and changes nothing else. *)
Lemma simulate_improvement_impact_run (self : OEEImprovementPlan.t)
    (recommendations : list (list Q)) (s : State) (t : DataFrame)
    (downtime planned actual ideal units defective : list num)
    (oee availability performance quality : list num) :
  heap s !! OEEImprovementPlan.current_data self = Some t ->
  t !! "Downtime_Minutes" = Some (NumSeries downtime) ->
  t !! "Planned_Production_Time" = Some (NumSeries planned) ->
  t !! "Actual_Cycle_Time" = Some (NumSeries actual) ->
  t !! "Ideal_Cycle_Time" = Some (NumSeries ideal) ->
  t !! "Total_Units_Produced" = Some (NumSeries units) ->
  t !! "Defective_Units" = Some (NumSeries defective) ->
  t !! "OEE" = Some (NumSeries oee) ->
  t !! "Availability" = Some (NumSeries availability) ->
  t !! "Performance" = Some (NumSeries performance) ->
  t !! "Quality" = Some (NumSeries quality) ->
  exists (improved : DataFrame) (impact : OEEImprovementPlan.impact),
    OEEImprovementPlan.simulate_improvement_impact self recommendations s
    = Some ((length (heap s), impact),
            with_frame (length (heap s)) improved (with_new t s)).
Proof.
  intros Hl Hd Hp Ha Hi Hu Hdef Ho Hav Hpf Hq.
  pose proof (lookup_lt_Some _ _ _ Hl) as Hlt.
  do 2 eexists. unfold OEEImprovementPlan.simulate_improvement_impact.
  erewrite run_copy by exact Hl.
  repeat run_step.
  erewrite run_clip_metrics by (first [table_lookup | column_lookup]).
  repeat run_step.
  unfold ret. reflexivity.
Qed.

End Frames.

Section PlanInit.

Lemma plan_init_run (s : State) (results : loc) (t : DataFrame)
    (oee : list num) :
  oee_results (analyzer s) = Some results ->
  heap s !! results = Some t ->
  t !! "OEE" = Some (NumSeries oee) ->
  OEEImprovementPlan.init s
  = Some ({| OEEImprovementPlan.current_data := length (heap s);
             OEEImprovementPlan.baseline_oee := Ser.mean oee |},
          with_new t s).
Proof.
  intros Hr Hl Ho. unfold OEEImprovementPlan.init.
  unfold bind at 1. unfold Py.get_analyzer. rewrite Hr.
  cbn [Py.deref]. rewrite run_ret.
  erewrite run_copy by exact Hl.
  erewrite run_num_col by (first [apply heap_with_new_last | exact Ho]).
  reflexivity.
Qed.

End PlanInit.

(** C9.  Let the analyzer hold a results table that has the columns the
    simulation reads.  Then [OEEImprovementPlan.__init__] takes a copy of
    it as the baseline, [simulate_improvement_impact] succeeds and returns
    a table that did not exist before, and afterwards the baseline, the
    analyzer's results and every other table that existed are exactly as
    they were. *)
Theorem C9_baseline_unchanged :
  forall (recommendations : list (list Q)) (s : State) (results : loc)
         (t : DataFrame),
    oee_results (analyzer s) = Some results ->
    heap s !! results = Some t ->
    has_numeric t ["Downtime_Minutes"; "Planned_Production_Time";
                   "Actual_Cycle_Time"; "Ideal_Cycle_Time";
                   "Total_Units_Produced"; "Defective_Units";
                   "OEE"; "Availability"; "Performance"; "Quality"] ->
    exists (self : OEEImprovementPlan.t) (s1 s2 : State) (improved : loc)
           (impact : OEEImprovementPlan.impact) (t' : DataFrame),
      OEEImprovementPlan.init s = Some (self, s1) /\
      OEEImprovementPlan.current_data self <> results /\
      heap s1 !! OEEImprovementPlan.current_data self = Some t /\
      OEEImprovementPlan.simulate_improvement_impact self recommendations s1
        = Some ((improved, impact), s2) /\
      improved = length (heap s1) /\
      heap s2 !! improved = Some t' /\
      heap s2 !! OEEImprovementPlan.current_data self = Some t /\
      heap s2 !! results = Some t /\
      (forall l, (l < length (heap s1))%nat -> heap s2 !! l = heap s1 !! l) /\
      analyzer s2 = analyzer s.
Proof.
  intros recs s results t Hr Hl Hcols.
  unfold has_numeric in Hcols.
  repeat match goal with
         | H : Forall _ (_ :: _) |- _ =>
             let x := fresh "xs" in
             let Hx := fresh "Hx" in
             apply Forall_cons_1 in H; destruct H as [[x Hx] H]
         end.
  pose proof (lookup_lt_Some _ _ _ Hl) as Hlt.
  pose proof (plan_init_run s results t _ Hr Hl Hx5) as Hinit.
  set (self := {| OEEImprovementPlan.current_data := length (heap s);
                  OEEImprovementPlan.baseline_oee := Ser.mean xs5 |}) in *.
  destruct (simulate_improvement_impact_run self recs (with_new t s) t
              xs xs0 xs1 xs2 xs3 xs4 xs5 xs6 xs7 xs8)
    as (improved & impact & Hrun);
    try assumption; [apply heap_with_new_last|].
  exists self, (with_new t s). do 2 eexists. exists impact, improved.
  split; [exact Hinit|]. split; [simpl; lia|].
  split; [apply heap_with_new_last|]. split; [exact Hrun|].
  split; [reflexivity|].
  split; [eapply heap_with_frame; apply heap_with_new_last|].
  split.
  { rewrite heap_with_frame_ne by (rewrite length_with_new; simpl; lia).
    eapply heap_with_new_old. apply heap_with_new_last. }
  split.
  { rewrite heap_with_frame_ne by (rewrite length_with_new; lia).
    do 2 eapply heap_with_new_old. exact Hl. }
  split; [|reflexivity].
  intros l Hlen. rewrite heap_with_frame_ne by lia.
  apply heap_with_new_lt. exact Hlen.
Qed.

(** C9 on the state the calculator leaves for [record_typical]. *)
Lemma C9_witness :
  exists (self : OEEImprovementPlan.t) (s1 s2 : State) (improved : loc)
         (impact : OEEImprovementPlan.impact) (t' : DataFrame),
    OEEImprovementPlan.init state_typical = Some (self, s1) /\
    OEEImprovementPlan.current_data self <> 1%nat /\
    heap s1 !! OEEImprovementPlan.current_data self = Some (oee_table_of [record_typical]) /\
    OEEImprovementPlan.simulate_improvement_impact self [[150000; 75000]; [60000]] s1
      = Some ((improved, impact), s2) /\
    improved = length (heap s1) /\
    heap s2 !! improved = Some t' /\
    heap s2 !! OEEImprovementPlan.current_data self = Some (oee_table_of [record_typical]) /\
    heap s2 !! 1%nat = Some (oee_table_of [record_typical]) /\
    (forall l, (l < length (heap s1))%nat -> heap s2 !! l = heap s1 !! l) /\
    analyzer s2 = analyzer state_typical.
Proof.
  apply (C9_baseline_unchanged [[150000; 75000]; [60000]] state_typical 1%nat
           (oee_table_of [record_typical])).
  - reflexivity.
  - reflexivity.
  - unfold has_numeric. repeat constructor; eexists; reflexivity.
Defined.

Section InPlace.

Lemma detailed_init_run (s : State) :
  DetailedOEEAnalysis.init s
  = Some (DetailedOEEAnalysis.mk (oee_results (analyzer s)) (raw_data (analyzer s)), s).
Proof.
  unfold DetailedOEEAnalysis.init, bind, Py.get_analyzer.
  destruct (analyzer s). reflexivity.
Qed.

Lemma oee_table_of_inputs (data : list ProductionRecord) (c : string) :
  ~ In c metric_cols -> oee_table_of data !! c = DataFrame_of data !! c.
Proof.
  intros H. unfold oee_table_of. apply oee_table_other;
    intros ->; apply H; simpl; auto.
Qed.

Lemma DataFrame_of_no_column (data : list ProductionRecord) (c : string) :
  In c ["Availability"; "Performance"; "Quality"; "OEE";
        "Speed_Loss_Percent"; "Defect_Rate_Percent"] ->
  DataFrame_of data !! c = None.
Proof.
  intros H. destruct data as [|r data]; [apply lookup_empty|].
  simpl in H.
  repeat (destruct H as [<- | H]; [reflexivity|]). destruct H.
Qed.

Lemma heap_calculated_other (l l' : loc) (t : DataFrame) (s : State) :
  l' <> l -> (l' < length (heap s))%nat ->
  heap (calculated l t s) !! l' = heap s !! l'.
Proof.
  intros Hne Hlt. unfold calculated. simpl.
  rewrite lookup_app_l by (rewrite length_insert; exact Hlt).
  by apply list_lookup_insert_ne.
Qed.

Lemma heap_calculated_copy (l : loc) (t : DataFrame) (s : State) :
  heap (calculated l t s) !! length (heap s) = Some t.
Proof.
  unfold calculated. simpl.
  rewrite lookup_app_r by (rewrite length_insert; lia).
  rewrite length_insert, Nat.sub_diag. reflexivity.
Qed.

Lemma length_calculated (l : loc) (t : DataFrame) (s : State) :
  length (heap (calculated l t s)) = S (length (heap s)).
Proof.
  unfold calculated. simpl. rewrite length_app, length_insert. simpl. lia.
Qed.

End InPlace.

(** C4, as stated, fails: on the table the simulator makes of
    [draws_typical], the calculator does not leave that table as it was. *)
Lemma C4_counterexample :
  ~ (forall (out : loc) (s' : State),
       calculate_oee_metrics 0%nat (generated [record_typical] init_state)
         = Some (out, s') ->
       heap s' !! 0%nat
       = heap (generated [record_typical] init_state) !! 0%nat).
Proof.
  intros H.
  specialize (H 0%nat state_typical).
  rewrite (calculate_batch [record_typical]) in H
    by (first [discriminate | reflexivity]).
  specialize (H eq_refl).
  assert (Hcol : forall o : option DataFrame,
             o = Some (DataFrame_of [record_typical]) ->
             (o ≫= (fun t => t !! "Availability")) = None).
  { intros o ->. reflexivity. }
  apply Hcol in H. discriminate H.
Qed.

(** C4, amended.  On the table of a batch with rows, the calculator sets
    the four metric columns in the table it is given and returns that same
    table; every other column and every other table is left alone, and the
    analyzer's [oee_results] is a new copy.  [speed_loss_analysis] and
    [quality_loss_analysis] then each set one column (Speed_Loss_Percent,
    Defect_Rate_Percent) in that copy, leave its other columns and every
    other table, the one the calculator returned included, alone, and
    return two tables that did not exist before. *)
Theorem C4_columns_added_in_place :
  forall (sqrt : Q -> Q) (data : list ProductionRecord) (s : State) (df : loc),
    data <> [] ->
    heap s !! df = Some (DataFrame_of data) ->
    let snapshot := length (heap s) in
    exists (s1 : State) (t1 : DataFrame),
      calculate_oee_metrics df s = Some (df, s1) /\
      heap s1 !! df = Some t1 /\
      heap s1 !! snapshot = Some t1 /\
      df <> snapshot /\
      oee_results (analyzer s1) = Some snapshot /\
      length (heap s1) = S snapshot /\
      is_Some (t1 !! "Availability") /\
      DataFrame_of data !! "Availability" = None /\
      (forall c, ~ In c metric_cols -> t1 !! c = DataFrame_of data !! c) /\
      (forall l, l <> df -> (l < snapshot)%nat -> heap s1 !! l = heap s !! l) /\
      exists (self : DetailedOEEAnalysis.t) (s2 : State) (t2 : DataFrame)
             (summary worst : loc),
        DetailedOEEAnalysis.init s1 = Some (self, s1) /\
        DetailedOEEAnalysis.data self = Some snapshot /\
        DetailedOEEAnalysis.speed_loss_analysis sqrt self s1
          = Some ((summary, worst), s2) /\
        heap s2 !! snapshot = Some t2 /\
        is_Some (t2 !! "Speed_Loss_Percent") /\
        t1 !! "Speed_Loss_Percent" = None /\
        (forall c, c <> "Speed_Loss_Percent" -> t2 !! c = t1 !! c) /\
        (forall l, l <> snapshot -> (l < length (heap s1))%nat ->
                   heap s2 !! l = heap s1 !! l) /\
        summary = length (heap s1) /\ worst = S (length (heap s1)) /\
        length (heap s2) = S (S (length (heap s1))) /\
        exists (s3 : State) (t3 : DataFrame) (by_machine by_shift : loc),
          DetailedOEEAnalysis.quality_loss_analysis sqrt self s2
            = Some ((by_machine, by_shift), s3) /\
          heap s3 !! snapshot = Some t3 /\
          is_Some (t3 !! "Defect_Rate_Percent") /\
          t2 !! "Defect_Rate_Percent" = None /\
          (forall c, c <> "Defect_Rate_Percent" -> t3 !! c = t2 !! c) /\
          (forall l, l <> snapshot -> (l < length (heap s2))%nat ->
                     heap s3 !! l = heap s2 !! l) /\
          by_machine = length (heap s2) /\ by_shift = S (length (heap s2)).
Proof.
  intros sqrt data s df Hne Hl snapshot.
  pose proof (lookup_lt_Some _ _ _ Hl) as Hlt.
  set (t1 := oee_table_of data).
  set (s1 := calculated df t1 s).
  assert (Hbase : forall c, ~ In c metric_cols ->
                            t1 !! c = DataFrame_of data !! c)
    by (intros c Hc; apply oee_table_of_inputs; exact Hc).
  destruct (oee_table_of_columns data) as (Hav & _ & Hql & _).
  fold t1 in Hav, Hql.
  destruct data as [|r data]; [contradiction|].
  destruct (DataFrame_of_cons r data)
    as (HDate & HShift & HMach & _ & _ & _ & HIdeal & HAct & HUnits
        & HDef & _).
  assert (Hs1 : heap s1 !! snapshot = Some t1)
    by apply heap_calculated_copy.
  assert (Hlen1 : length (heap s1) = S snapshot) by apply length_calculated.
  assert (Hnot : forall c, In c ["Actual_Cycle_Time"; "Ideal_Cycle_Time";
                                 "Total_Units_Produced"; "Machine_Name";
                                 "Date"; "Shift"; "Defective_Units";
                                 "Speed_Loss_Percent"; "Defect_Rate_Percent"] ->
                           ~ In c metric_cols).
  { intros c Hc Hm. simpl in Hc, Hm.
    repeat (destruct Hc as [<- | Hc];
            [repeat (destruct Hm as [Hm | Hm]; [discriminate Hm|]);
             destruct Hm|]).
    destruct Hc. }
  assert (Hcopy : forall c x, In c ["Actual_Cycle_Time"; "Ideal_Cycle_Time";
                                    "Total_Units_Produced"; "Machine_Name";
                                    "Date"; "Shift"; "Defective_Units";
                                    "Speed_Loss_Percent";
                                    "Defect_Rate_Percent"] ->
                              DataFrame_of (r :: data) !! c = x ->
                              t1 !! c = x).
  { intros c x Hc <-. apply Hbase, Hnot, Hc. }
  assert (HAct1 := Hcopy "Actual_Cycle_Time" _ ltac:(simpl; auto 10) HAct).
  assert (HIdeal1 := Hcopy "Ideal_Cycle_Time" _ ltac:(simpl; auto 10) HIdeal).
  assert (HUnits1 := Hcopy "Total_Units_Produced" _ ltac:(simpl; auto 10) HUnits).
  assert (HMach1 := Hcopy "Machine_Name" _ ltac:(simpl; auto 10) HMach).
  assert (HDate1 := Hcopy "Date" _ ltac:(simpl; auto 10) HDate).
  assert (HShift1 := Hcopy "Shift" _ ltac:(simpl; auto 10) HShift).
  assert (HDef1 := Hcopy "Defective_Units" _ ltac:(simpl; auto 10) HDef).
  (* speed loss *)
  destruct (speed_loss_analysis_run sqrt snapshot (raw_data (analyzer s1))
              s1 t1 _ _ _ _ _ _ Hs1 HAct1 HIdeal1 HUnits1 HMach1 HDate1
              HShift1)
    as (summary & worst & Hspeed).
  set (t2 := <["Speed_Loss_Percent" := _]> t1) in Hspeed.
  set (s2 := analysed snapshot t2 summary worst s1) in Hspeed.
  destruct (heap_analysed snapshot t2 summary worst s1)
    as (Hs2 & Hother2 & _ & _); [lia|].
  fold s2 in Hs2, Hother2.
  assert (Hlen2 : length (heap s2) = S (S (length (heap s1)))).
  { subst s2. unfold analysed.
    rewrite !length_with_new, length_with_frame. reflexivity. }
  (* quality loss *)
  assert (Hkeep : forall c, c <> "Speed_Loss_Percent" -> t2 !! c = t1 !! c)
    by (intros c Hc; subst t2; apply lookup_insert_ne; congruence).
  destruct (quality_loss_analysis_run sqrt snapshot (raw_data (analyzer s1))
              s2 t2 _ _ _ _ _ Hs2
              (eq_trans (Hkeep "Defective_Units" ltac:(discriminate)) HDef1)
              (eq_trans (Hkeep "Total_Units_Produced" ltac:(discriminate)) HUnits1)
              (eq_trans (Hkeep "Quality" ltac:(discriminate)) Hql)
              (eq_trans (Hkeep "Machine_Name" ltac:(discriminate)) HMach1)
              (eq_trans (Hkeep "Shift" ltac:(discriminate)) HShift1))
    as (by_machine & by_shift & Hquality).
  set (t3 := <["Defect_Rate_Percent" := _]> t2) in Hquality.
  destruct (heap_analysed snapshot t3 by_machine by_shift s2)
    as (Hs3 & Hother3 & _ & _); [lia|].
  exists s1, t1.
  split; [apply calculate_batch; [exact Hne|exact Hl]|].
  split; [eapply heap_calculated; exact Hl|].
  split; [exact Hs1|]. split; [subst snapshot; lia|].
  split; [reflexivity|]. split; [exact Hlen1|].
  split; [rewrite Hav; eexists; reflexivity|].
  split; [apply DataFrame_of_no_column; simpl; auto|].
  split; [exact Hbase|].
  split; [intros l Hl1 Hl2; apply heap_calculated_other; assumption|].
  exists (DetailedOEEAnalysis.mk (Some snapshot) (raw_data (analyzer s1))), s2, t2.
  do 2 eexists.
  split; [apply detailed_init_run|]. split; [reflexivity|].
  split; [exact Hspeed|]. split; [exact Hs2|].
  split; [subst t2; rewrite lookup_insert_eq; eexists; reflexivity|].
  split.
  { rewrite Hbase by (apply Hnot; simpl; auto 10).
    apply DataFrame_of_no_column. simpl. auto 10. }
  split; [exact Hkeep|].
  split; [exact Hother2|].
  split; [reflexivity|]. split; [reflexivity|]. split; [exact Hlen2|].
  exists (analysed snapshot t3 by_machine by_shift s2), t3.
  do 2 eexists.
  split; [exact Hquality|]. split; [exact Hs3|].
  split; [subst t3; rewrite lookup_insert_eq; eexists; reflexivity|].
  split.
  { rewrite Hkeep by discriminate.
    rewrite Hbase by (apply Hnot; simpl; auto 10).
    apply DataFrame_of_no_column. simpl. auto 10. }
  split; [intros c Hc; subst t3; apply lookup_insert_ne; congruence|].
  split; [exact Hother3|].
  split; reflexivity.
Qed.

(** C4 (amended) on the table the simulator makes of [draws_typical]. *)
Lemma C4_witness :
  let snapshot := 1%nat in
  exists (s1 : State) (t1 : DataFrame),
    calculate_oee_metrics 0%nat (generated [record_typical] init_state)
      = Some (0%nat, s1) /\
    heap s1 !! 0%nat = Some t1 /\
    heap s1 !! snapshot = Some t1 /\
    0%nat <> snapshot /\
    oee_results (analyzer s1) = Some snapshot /\
    length (heap s1) = S snapshot /\
    is_Some (t1 !! "Availability") /\
    DataFrame_of [record_typical] !! "Availability" = None /\
    (forall c, ~ In c metric_cols -> t1 !! c = DataFrame_of [record_typical] !! c) /\
    (forall l, l <> 0%nat -> (l < snapshot)%nat ->
               heap s1 !! l
               = heap (generated [record_typical] init_state) !! l) /\
    exists (self : DetailedOEEAnalysis.t) (s2 : State) (t2 : DataFrame)
           (summary worst : loc),
      DetailedOEEAnalysis.init s1 = Some (self, s1) /\
      DetailedOEEAnalysis.data self = Some snapshot /\
      DetailedOEEAnalysis.speed_loss_analysis (fun x => x) self s1
        = Some ((summary, worst), s2) /\
      heap s2 !! snapshot = Some t2 /\
      is_Some (t2 !! "Speed_Loss_Percent") /\
      t1 !! "Speed_Loss_Percent" = None /\
      (forall c, c <> "Speed_Loss_Percent" -> t2 !! c = t1 !! c) /\
      (forall l, l <> snapshot -> (l < length (heap s1))%nat ->
                 heap s2 !! l = heap s1 !! l) /\
      summary = length (heap s1) /\ worst = S (length (heap s1)) /\
      length (heap s2) = S (S (length (heap s1))) /\
      exists (s3 : State) (t3 : DataFrame) (by_machine by_shift : loc),
        DetailedOEEAnalysis.quality_loss_analysis (fun x => x) self s2
          = Some ((by_machine, by_shift), s3) /\
        heap s3 !! snapshot = Some t3 /\
        is_Some (t3 !! "Defect_Rate_Percent") /\
        t2 !! "Defect_Rate_Percent" = None /\
        (forall c, c <> "Defect_Rate_Percent" -> t3 !! c = t2 !! c) /\
        (forall l, l <> snapshot -> (l < length (heap s2))%nat ->
                   heap s3 !! l = heap s2 !! l) /\
        by_machine = length (heap s2) /\ by_shift = S (length (heap s2)).
Proof.
  apply (C4_columns_added_in_place (fun x => x) [record_typical]
           (generated [record_typical] init_state) 0%nat).
  - discriminate.
  - reflexivity.
Defined.

(* ===================================================================== *)
(** * The downtime Pareto analysis (claim C5) *)
(* ===================================================================== *)

(** ** Ordering rows and accumulating totals *)

Section Ordering.

Context {A : Type} (key : A -> num).

Lemma insert_desc_perm (r : A) (rs : list A) :
  Permutation (Frame.insert_desc key r rs) (r :: rs).
Proof.
  induction rs as [|r' rs IH]; simpl; [reflexivity|].
  destruct (Num.gtb (key r') (key r)); [|reflexivity].
  rewrite IH. apply perm_swap.
Qed.

Lemma filter_all (f : A -> bool) (l : list A) :
  Forall (fun x => f x = true) l -> List.filter f l = l.
Proof.
  induction 1 as [|x l Hx _ IH]; simpl; [reflexivity|].
  rewrite Hx, IH. reflexivity.
Qed.

Lemma filter_none (f : A -> bool) (l : list A) :
  Forall (fun x => f x = false) l -> List.filter f l = [].
Proof.
  induction 1 as [|x l Hx _ IH]; simpl; [reflexivity|].
  rewrite Hx, IH. reflexivity.
Qed.

(** Without NaN keys the ordering is an insertion sort of all rows. *)
Lemma sort_desc_finite (rows : list A) :
  Forall (fun r => finite_nonneg (key r)) rows ->
  Frame.sort_desc key rows = fold_right (Frame.insert_desc key) [] rows.
Proof.
  intros H. unfold Frame.sort_desc.
  rewrite filter_all, filter_none.
  - apply app_nil_r.
  - eapply Forall_impl; [exact H|]. intros r (q & -> & _). reflexivity.
  - eapply Forall_impl; [exact H|]. intros r (q & -> & _). reflexivity.
Qed.

Lemma insertion_perm (rows : list A) :
  Permutation (fold_right (Frame.insert_desc key) [] rows) rows.
Proof.
  induction rows as [|r rows IH]; simpl; [reflexivity|].
  rewrite insert_desc_perm. by constructor.
Qed.

Lemma chain_tail (R : Q -> Q -> Prop) (x : Q) (l : list Q) :
  chain R (x :: l) -> chain R l.
Proof. destruct l as [|y l]; [intros; exact I|]. intros [_ H]. exact H. Qed.

Lemma chain_cons (R : Q -> Q -> Prop) (x y : Q) (l : list Q) :
  R x y -> chain R (y :: l) -> chain R (x :: y :: l).
Proof. intros H1 H2. split; assumption. Qed.

Lemma chain_head (R : Q -> Q -> Prop) (x y : Q) (l : list Q) :
  chain R (x :: y :: l) -> R x y.
Proof. intros [H _]. exact H. Qed.

(** Inserting below a bound keeps the bound in front. *)
Lemma insert_desc_below (b : Q) (r : A) (rs : list A) :
  value (key r) <= b ->
  descending (b :: map (fun r => value (key r)) rs) ->
  descending (map (fun r => value (key r)) (Frame.insert_desc key r rs)) ->
  descending (b :: map (fun r => value (key r)) (Frame.insert_desc key r rs)).
Proof.
  intros Hr Hb Hins. destruct rs as [|r' rs]; simpl in *.
  - split; [exact Hr|exact I].
  - destruct (Num.gtb (key r') (key r)).
    + apply chain_cons; [|exact Hins]. exact (chain_head _ _ _ _ Hb).
    + apply chain_cons; [exact Hr|exact Hins].
Qed.

Lemma insert_desc_descending (r : A) (rs : list A) :
  Forall (fun r => finite_nonneg (key r)) (r :: rs) ->
  descending (map (fun r => value (key r)) rs) ->
  descending (map (fun r => value (key r)) (Frame.insert_desc key r rs)).
Proof.
  intros Hfin. apply Forall_cons_1 in Hfin. destruct Hfin as [Hr Hrs].
  destruct Hr as (q & Hq & _).
  induction Hrs as [|r' rs Hr' Hrs IH]; intros Hd; [exact I|].
  destruct Hr' as (q' & Hq' & _).
  cbn [Frame.insert_desc]. rewrite Hq, Hq'. cbn [Num.gtb].
  destruct (Rat.ltb q q') eqn:E.
  - apply ltb_spec in E. cbn [map].
    apply insert_desc_below.
    + rewrite Hq, Hq'. simpl. lra.
    + exact Hd.
    + apply IH. exact (chain_tail _ _ _ Hd).
  - apply ltb_false in E. cbn [map].
    apply (chain_cons (fun x y => y <= x)); [|exact Hd].
    rewrite Hq, Hq'. exact E.
Qed.

Lemma insertion_descending (rows : list A) :
  Forall (fun r => finite_nonneg (key r)) rows ->
  descending (map (fun r => value (key r))
                  (fold_right (Frame.insert_desc key) [] rows)).
Proof.
  induction 1 as [|r rows Hr Hrows IH]; simpl; [exact I|].
  apply insert_desc_descending; [|exact IH].
  constructor; [exact Hr|].
  rewrite insertion_perm. exact Hrows.
Qed.

End Ordering.

Section Cumulative.

Lemma cumsum_from_fin (ts : list Q) (a : Q) :
  Ser.cumsum_from (Fin a) (map Fin ts) = map Fin (running a ts).
Proof.
  revert a. induction ts as [|x ts IH]; intros a; simpl; [reflexivity|].
  rewrite IH. reflexivity.
Qed.

Lemma last_cons (l : list Q) (x a : Q) :
  List.last (x :: l) a = List.last l x.
Proof.
  revert x a. induction l as [|y l IH]; intros x a; [reflexivity|].
  change (List.last (x :: y :: l) a) with (List.last (y :: l) a).
  rewrite (IH y a), (IH y x). reflexivity.
Qed.

Lemma sum_from_fin (ts : list Q) (a : Q) :
  fold_left (fun acc x => if Num.is_nan x then acc else Num.add acc x)
            (map Fin ts) (Fin a)
  = Fin (List.last (running a ts) a).
Proof.
  revert a. induction ts as [|x ts IH]; intros a; [reflexivity|].
  cbn [map fold_left Num.is_nan Num.add running]. rewrite IH.
  f_equal. symmetry. apply last_cons.
Qed.

Lemma sum_fin (ts : list Q) :
  Ser.sum (map Fin ts) = Fin (List.last (running 0 ts) 0).
Proof. apply sum_from_fin. Qed.

Lemma running_nondecreasing (ts : list Q) (a : Q) :
  Forall (fun x => 0 <= x) ts -> nondecreasing (a :: running a ts).
Proof.
  intros H. revert a. induction H as [|x ts Hx _ IH]; intros a; [exact I|].
  cbn [running]. apply (chain_cons Qle); [|apply IH].
  rewrite Qred_correct. lra.
Qed.

Lemma nondecreasing_bounds (l : list Q) (a : Q) :
  nondecreasing (a :: l) ->
  a <= List.last l a /\ Forall (fun c => a <= c /\ c <= List.last l a) l.
Proof.
  revert a. induction l as [|x l IH]; intros a H.
  - split; [apply Qle_refl|constructor].
  - pose proof (chain_head _ _ _ _ H) as Hax.
    destruct (IH x (chain_tail _ _ _ H)) as [Hx Hall].
    rewrite last_cons. split; [lra|].
    constructor; [split; lra|].
    eapply Forall_impl; [exact Hall|]. intros c [? ?]. split; lra.
Qed.

Lemma length_running (ts : list Q) (a : Q) :
  length (running a ts) = length ts.
Proof.
  revert a. induction ts as [|x ts IH]; intros a; simpl; [reflexivity|].
  by rewrite IH.
Qed.

Lemma share_mono (total x y : Q) :
  0 < total -> x <= y -> share total x <= share total y.
Proof.
  intros Ht H. unfold share. apply round_dec_mono.
  rewrite !Qred_correct.
  assert (x / total <= y / total).
  { apply Qle_shift_div_l; [exact Ht|].
    unfold Qdiv. rewrite <- Qmult_assoc, (Qmult_comm (/ total)),
      Qmult_inv_r, Qmult_1_r by lra. exact H. }
  lra.
Qed.

Lemma share_total (total c : Q) : 0 < total -> c == total -> share total c = 100.
Proof.
  intros Ht Hc. unfold share, Rat.round_dec.
  assert (E : Qred (Qred (c / total) * 100) * inject_Z (10 ^ Z.of_nat 1)
              == inject_Z 1000).
  { rewrite !Qred_correct, Hc. change (inject_Z (10 ^ Z.of_nat 1)) with 10.
    change (inject_Z 1000) with 1000. field. lra. }
  cbv zeta. rewrite (round_half_even_Z 1000 _ E). reflexivity.
Qed.

Lemma share_of_nothing (total : Q) (cs ts : list Q) :
  total == 0 ->
  Forall (fun c => 0 <= c /\ c <= total) cs ->
  length cs = length ts ->
  map (fun c => Num.round 1 (Num.mul (Num.div (Fin c) (Fin total)) (Fin 100)))
      cs
  = map (fun _ => NaN) ts.
Proof.
  intros Hz Hall. revert ts.
  induction Hall as [|c cs [Hc1 Hc2] _ IH]; intros [|x ts] Hlen;
    try discriminate; [reflexivity|].
  injection Hlen as Hlen. cbn [map]. f_equal; [|apply IH, Hlen].
  unfold Num.div. rewrite eqb_true by exact Hz.
  assert (Hc : c == 0) by lra.
  apply Qeq_alt in Hc. rewrite Hc. reflexivity.
Qed.

(** The cumulative percentages of finite non-negative totals. *)
Lemma cumulative_pct_fin (ts : list Q) :
  Forall (fun x => 0 <= x) ts ->
  let total := List.last (running 0 ts) 0 in
  0 <= total /\
  (total == 0 ->
   cumulative_pct (map Fin ts) = map (fun _ => NaN) ts) /\
  (~ total == 0 ->
   cumulative_pct (map Fin ts) = map Fin (map (share total) (running 0 ts))).
Proof.
  intros Hpos total.
  pose proof (running_nondecreasing ts 0 Hpos) as Hnd.
  destruct (nondecreasing_bounds _ _ Hnd) as [Htot Hall]. fold total in Htot, Hall.
  split; [exact Htot|].
  unfold cumulative_pct, Ser.round, Ser.mul_scalar, Ser.cumsum.
  rewrite sum_fin, cumsum_from_fin, !map_map. fold total.
  split; intros Hz.
  - apply share_of_nothing; [exact Hz|exact Hall|apply length_running].
  - apply map_ext. intros c. rewrite div_fin by exact Hz. reflexivity.
Qed.

Lemma chain_map (R S : Q -> Q -> Prop) (f : Q -> Q) (l : list Q) :
  (forall x y, R x y -> S (f x) (f y)) -> chain R l -> chain S (map f l).
Proof.
  intros Hf. induction l as [|x l IH]; [intros; exact I|].
  destruct l as [|y l]; [intros; exact I|].
  intros [Hxy Hl]. split; [apply Hf, Hxy|apply IH, Hl].
Qed.

Lemma last_map {A B} (f : A -> B) (l : list A) (x : A) :
  l <> [] -> last (map f l) = Some (f (List.last l x)).
Proof.
  induction l as [|y l IH]; [contradiction|]. intros _.
  destruct l as [|z l]; [reflexivity|].
  specialize (IH ltac:(discriminate)). exact IH.
Qed.

End Cumulative.

(** ** Running the analysis *)

Section Pareto.

Lemma select_Forall {A} (P : A -> Prop) (mask : list bool) (xs : list A) :
  Forall P xs -> Forall P (Frame.select mask xs).
Proof.
  intros H. revert mask. induction H as [|x xs Hx _ IH]; intros [|b mask];
    simpl; try constructor.
  destruct b; [constructor; [exact Hx|]|]; apply IH.
Qed.

(** The rows kept by [Downtime_Minutes > 0] hold positive downtimes. *)
Lemma select_positive (ds : list Q) :
  Forall finite_nonneg
    (Frame.select (map (fun x => Num.gtb x (Fin 0)) (map Fin ds))
                  (map Fin ds)).
Proof.
  induction ds as [|d ds IH]; simpl; [constructor|].
  destruct (Rat.ltb 0 d) eqn:E; [|exact IH].
  constructor; [|exact IH].
  apply ltb_spec in E. exists d. split; [reflexivity|lra].
Qed.

Lemma sum_finite_nonneg (xs : list num) :
  Forall finite_nonneg xs -> finite_nonneg (Ser.sum xs).
Proof.
  unfold Ser.sum.
  assert (H0 : finite_nonneg (Fin 0)) by (exists 0; split; [reflexivity|lra]).
  revert H0. generalize (Fin 0) as acc.
  intros acc Hacc H. revert acc Hacc.
  induction H as [|x xs (q & -> & Hq) _ IH]; intros acc Hacc; [exact Hacc|].
  simpl. apply IH. destruct Hacc as (a & -> & Ha).
  exists (Qred (a + q)). split; [reflexivity|].
  rewrite Qred_correct. lra.
Qed.

Lemma round_finite_nonneg (n : nat) (x : num) :
  finite_nonneg x -> finite_nonneg (Num.round n x).
Proof.
  intros (q & -> & Hq). exists (Rat.round_dec n q).
  split; [reflexivity|]. apply round_dec_nonneg, Hq.
Qed.

(** Every total of the grouped table is finite and non-negative. *)
Lemma pareto_groups_totals (reasons : list string) (downtime : list num)
    (machines : list string) :
  Forall finite_nonneg downtime ->
  Forall (fun row => finite_nonneg (DetailedOEEAnalysis.total_downtime_min row))
         (DetailedOEEAnalysis.pareto_groups reasons downtime machines).
Proof.
  intros H. unfold DetailedOEEAnalysis.pareto_groups. apply Forall_map.
  apply Forall_forall. intros k _. simpl.
  apply round_finite_nonneg, sum_finite_nonneg.
  unfold Frame.group. apply select_Forall, H.
Qed.

Lemma finite_values {A} (key : A -> num) (rows : list A) :
  Forall (fun r => finite_nonneg (key r)) rows ->
  map key rows = map Fin (map (fun r => value (key r)) rows) /\
  Forall (fun x => 0 <= x) (map (fun r => value (key r)) rows).
Proof.
  induction 1 as [|r rows (q & Hq & Hpos) _ [IH1 IH2]]; simpl.
  - split; [reflexivity|constructor].
  - rewrite IH1, Hq. split; [reflexivity|]. constructor; assumption.
Qed.

Lemma pareto_frame_columns (rows : list DetailedOEEAnalysis.pareto_row) :
  DetailedOEEAnalysis.pareto_frame rows !! "Downtime_Reason"
    = Some (StrSeries (map DetailedOEEAnalysis.reason rows)) /\
  DetailedOEEAnalysis.pareto_frame rows !! "Total_Downtime_Min"
    = Some (NumSeries (map DetailedOEEAnalysis.total_downtime_min rows)).
Proof.
  unfold DetailedOEEAnalysis.pareto_frame. split; simplify_map_eq; reflexivity.
Qed.

Lemma select_rows_num (mask : list bool) (t : DataFrame) (c : string)
    (xs : list num) :
  t !! c = Some (NumSeries xs) ->
  Frame.select_rows mask t !! c = Some (NumSeries (Frame.select mask xs)).
Proof.
  intros H. unfold Frame.select_rows. rewrite lookup_fmap, H. reflexivity.
Qed.

Lemma select_rows_str (mask : list bool) (t : DataFrame) (c : string)
    (xs : list string) :
  t !! c = Some (StrSeries xs) ->
  Frame.select_rows mask t !! c = Some (StrSeries (Frame.select mask xs)).
Proof.
  intros H. unfold Frame.select_rows. rewrite lookup_fmap, H. reflexivity.
Qed.

(** The analysis on a table that has the three columns it reads. *)
Lemma downtime_pareto_analysis_run (self : DetailedOEEAnalysis.t) (s : State)
    (raw : loc) (t : DataFrame) (minutes : list num)
    (reasons machines : list string) :
  DetailedOEEAnalysis.raw_data self = Some raw ->
  heap s !! raw = Some t ->
  t !! "Downtime_Minutes" = Some (NumSeries minutes) ->
  t !! "Downtime_Reason" = Some (StrSeries reasons) ->
  t !! "Machine_Name" = Some (StrSeries machines) ->
  let mask := map (fun x => Num.gtb x (Fin 0)) minutes in
  let rows :=
    Frame.sort_desc DetailedOEEAnalysis.total_downtime_min
      (DetailedOEEAnalysis.pareto_groups (Frame.select mask reasons)
                              (Frame.select mask minutes)
                              (Frame.select mask machines)) in
  let summary :=
    <["Cumulative_Pct" :=
        NumSeries (cumulative_pct (map DetailedOEEAnalysis.total_downtime_min rows))]>
      (DetailedOEEAnalysis.pareto_frame rows) in
  exists s' : State,
    DetailedOEEAnalysis.downtime_pareto_analysis self s
    = Some ((S (length (heap s)), S (S (length (heap s)))), s') /\
    heap s' !! S (length (heap s)) = Some summary /\
    (forall l, (l < length (heap s))%nat -> heap s' !! l = heap s !! l) /\
    analyzer s' = analyzer s.
Proof.
  intros Hraw Hl Hmin Hrs Hms mask rows summary.
  pose proof (lookup_lt_Some _ _ _ Hl) as Hlt.
  destruct (pareto_frame_columns rows) as [_ Htot].
  eexists. split; [|split; [|split]].
  - unfold DetailedOEEAnalysis.downtime_pareto_analysis. rewrite Hraw.
    cbn [Py.deref]. rewrite run_ret.
    erewrite run_num_col by eassumption.
    unfold bind at 1. unfold Py.frame. rewrite Hl.
    rewrite run_new. fold mask.
    erewrite run_str_col
      by (first [apply heap_with_new_last | apply select_rows_str, Hrs]).
    erewrite run_num_col
      by (first [apply heap_with_new_last | apply select_rows_num, Hmin]).
    erewrite run_str_col
      by (first [apply heap_with_new_last | apply select_rows_str, Hms]).
    rewrite run_new. fold rows.
    erewrite run_num_col by (first [apply heap_with_new_last | exact Htot]).
    erewrite run_set_col by apply heap_with_new_last.
    rewrite run_new. unfold ret.
    rewrite !length_with_frame, !length_with_new. reflexivity.
  - eapply heap_with_new_old. eapply heap_with_frame.
    replace (S (length (heap s)))
      with (length (heap (with_new (Frame.select_rows mask t) s)))
      by apply length_with_new.
    apply heap_with_new_last.
  - intros l Hlen.
    rewrite heap_with_new_lt
      by (rewrite length_with_frame, !length_with_new; lia).
    rewrite heap_with_frame_ne by lia.
    rewrite heap_with_new_lt by (rewrite length_with_new; lia).
    apply heap_with_new_lt. exact Hlen.
  - reflexivity.
Qed.

End Pareto.

(** C5, as stated, fails: for a batch whose only downtime is 0.001 minutes
    the total rounds to 0.00, and the cumulative-percentage column is not a
    column of finite values ending within 0.1 of 100. *)
Lemma C5_counterexample :
  ~ (exists (summary breakdown : loc) (s' : State) (tbl : DataFrame)
            (cs : list Q) (final : Q),
       DetailedOEEAnalysis.downtime_pareto_analysis detailed_on_raw
         (generated batch_negligible init_state)
         = Some ((summary, breakdown), s') /\
       heap s' !! summary = Some tbl /\
       tbl !! "Cumulative_Pct" = Some (NumSeries (map Fin cs)) /\
       last cs = Some final /\
       999 # 10 <= final /\ final <= 1001 # 10).
Proof.
  intros (summary & breakdown & s' & tbl & cs & final
          & Hrun & Htbl & Hcum & Hlast & _).
  destruct (downtime_pareto_analysis_run detailed_on_raw
              (generated batch_negligible init_state) 0%nat
              (DataFrame_of batch_negligible)
              (downtime_col batch_negligible)
              (map Downtime_Reason batch_negligible)
              (map Machine_Name batch_negligible)
              eq_refl eq_refl eq_refl eq_refl eq_refl)
    as (s0 & Hrun0 & Hsum & _).
  rewrite Hrun0 in Hrun. injection Hrun as <- <- <-.
  pose proof (eq_trans (eq_sym Hsum) Htbl) as E. injection E as <-.
  rewrite lookup_insert_eq in Hcum. injection Hcum as Hcum.
  destruct cs as [|c cs]; [discriminate Hlast|].
  vm_compute in Hcum. discriminate Hcum.
Qed.

(** C5, amended.  On any table with finite downtimes, the analysis
    succeeds; the rows of its summary are the per-reason groups of the
    records with positive downtime, ordered by total downtime, largest
    first.  If the totals (each rounded to two decimals) are not all zero,
    the cumulative-percentage column holds finite values, is non-decreasing
    and ends with 100; if they are all zero, the column is NaN throughout.
    For the batch with totals 100, 50 and 50 the totals are [100, 50, 50]
    and the cumulative percentages [50, 75, 100]. *)
Theorem C5_pareto_cumulative :
  (forall (self : DetailedOEEAnalysis.t) (s : State) (raw : loc) (t : DataFrame)
          (ds : list Q) (reasons machines : list string),
     DetailedOEEAnalysis.raw_data self = Some raw ->
     heap s !! raw = Some t ->
     t !! "Downtime_Minutes" = Some (NumSeries (map Fin ds)) ->
     t !! "Downtime_Reason" = Some (StrSeries reasons) ->
     t !! "Machine_Name" = Some (StrSeries machines) ->
     exists (summary breakdown : loc) (s' : State) (tbl : DataFrame)
            (rows : list DetailedOEEAnalysis.pareto_row) (ts : list Q) (total : Q),
       DetailedOEEAnalysis.downtime_pareto_analysis self s
         = Some ((summary, breakdown), s') /\
       heap s' !! summary = Some tbl /\
       (let mask := map (fun x => Num.gtb x (Fin 0)) (map Fin ds) in
        Permutation rows
          (DetailedOEEAnalysis.pareto_groups (Frame.select mask reasons)
                                  (Frame.select mask (map Fin ds))
                                  (Frame.select mask machines))) /\
       tbl !! "Downtime_Reason"
         = Some (StrSeries (map DetailedOEEAnalysis.reason rows)) /\
       map DetailedOEEAnalysis.total_downtime_min rows = map Fin ts /\
       tbl !! "Total_Downtime_Min" = Some (NumSeries (map Fin ts)) /\
       descending ts /\
       Ser.sum (map Fin ts) = Fin total /\
       (total == 0 ->
        tbl !! "Cumulative_Pct"
          = Some (NumSeries (map (fun _ => NaN) ts))) /\
       (~ total == 0 ->
        exists cs : list Q,
          tbl !! "Cumulative_Pct" = Some (NumSeries (map Fin cs)) /\
          length cs = length ts /\
          nondecreasing cs /\
          last cs = Some 100))
  /\
  (exists (summary breakdown : loc) (s' : State) (tbl : DataFrame),
     DetailedOEEAnalysis.downtime_pareto_analysis detailed_on_raw
       (generated batch_100_50_50 init_state)
       = Some ((summary, breakdown), s') /\
     heap s' !! summary = Some tbl /\
     tbl !! "Downtime_Reason"
       = Some (StrSeries ["Breakdown"; "Changeover"; "Cleaning"]) /\
     tbl !! "Total_Downtime_Min"
       = Some (NumSeries [Fin 100; Fin 50; Fin 50]) /\
     tbl !! "Cumulative_Pct"
       = Some (NumSeries [Fin 50; Fin 75; Fin 100])).
Proof.
  split.
  - intros self s raw t ds reasons machines Hraw Hl Hmin Hrs Hms.
    destruct (downtime_pareto_analysis_run self s raw t (map Fin ds)
                reasons machines Hraw Hl Hmin Hrs Hms)
      as (s' & Hrun & Hsum & _).
    cbv zeta in Hsum.
    set (mask := map (fun x => Num.gtb x (Fin 0)) (map Fin ds)) in *.
    set (groups := DetailedOEEAnalysis.pareto_groups (Frame.select mask reasons)
                     (Frame.select mask (map Fin ds))
                     (Frame.select mask machines)) in *.
    assert (Hgroups : Forall (fun row =>
                finite_nonneg (DetailedOEEAnalysis.total_downtime_min row)) groups)
      by apply pareto_groups_totals, select_positive.
    rewrite (sort_desc_finite _ _ Hgroups) in Hsum.
    set (rows := fold_right
                   (Frame.insert_desc DetailedOEEAnalysis.total_downtime_min) [] groups)
      in *.
    assert (Hperm : Permutation rows groups) by apply insertion_perm.
    assert (Hrows : Forall (fun row =>
                finite_nonneg (DetailedOEEAnalysis.total_downtime_min row)) rows)
      by (rewrite Hperm; exact Hgroups).
    destruct (finite_values _ _ Hrows) as [Hvals Hpos].
    set (ts := map (fun r => value (DetailedOEEAnalysis.total_downtime_min r)) rows) in *.
    destruct (cumulative_pct_fin ts Hpos) as (Htot & Hzero & Hnonzero).
    set (total := List.last (running 0 ts) 0) in *.
    rewrite Hvals in Hsum.
    destruct (pareto_frame_columns rows) as [Hreason Htotals].
    exists (S (length (heap s))), (S (S (length (heap s)))), s'.
    eexists. exists rows, ts, total.
    split; [exact Hrun|]. split; [exact Hsum|].
    split; [exact Hperm|].
    split; [rewrite lookup_insert_ne by discriminate; exact Hreason|].
    split; [exact Hvals|].
    split; [rewrite lookup_insert_ne by discriminate; rewrite <- Hvals;
            exact Htotals|].
    split; [apply insertion_descending, Hgroups|].
    split; [apply sum_fin|].
    split.
    + intros Hz. rewrite lookup_insert_eq, (Hzero Hz). reflexivity.
    + intros Hnz. exists (map (share total) (running 0 ts)).
      rewrite lookup_insert_eq, (Hnonzero Hnz).
      assert (Htpos : 0 < total) by lra.
      split; [reflexivity|].
      split; [rewrite length_map; apply length_running|].
      split.
      * apply (chain_map Qle Qle).
        -- intros x y Hxy. apply share_mono; assumption.
        -- exact (chain_tail _ _ _ (running_nondecreasing ts 0 Hpos)).
      * assert (Hne : running 0 ts <> []).
        { intros E. subst total. rewrite E in Hnz. apply Hnz. reflexivity. }
        rewrite (last_map _ _ 0 Hne). fold total.
        f_equal. apply share_total; [exact Htpos|reflexivity].
  - destruct (downtime_pareto_analysis_run detailed_on_raw
                (generated batch_100_50_50 init_state) 0%nat
                (DataFrame_of batch_100_50_50)
                (downtime_col batch_100_50_50)
                (map Downtime_Reason batch_100_50_50)
                (map Machine_Name batch_100_50_50)
                eq_refl eq_refl eq_refl eq_refl eq_refl)
      as (s' & Hrun & Hsum & _).
    do 2 eexists. exists s'. eexists.
    split; [exact Hrun|]. split; [exact Hsum|].
    split; [|split].
    + rewrite lookup_insert_ne by discriminate.
      etransitivity; [apply pareto_frame_columns|].
      vm_compute. reflexivity.
    + rewrite lookup_insert_ne by discriminate.
      etransitivity; [apply pareto_frame_columns|].
      vm_compute. reflexivity.
    + rewrite lookup_insert_eq. vm_compute. reflexivity.
Qed.

(** C5 (amended) on the batch with totals 100, 50 and 50. *)
Lemma C5_witness :
  exists (summary breakdown : loc) (s' : State) (tbl : DataFrame)
         (rows : list DetailedOEEAnalysis.pareto_row) (ts : list Q) (total : Q),
    DetailedOEEAnalysis.downtime_pareto_analysis detailed_on_raw
      (generated batch_100_50_50 init_state)
      = Some ((summary, breakdown), s') /\
    heap s' !! summary = Some tbl /\
    (let mask := map (fun x => Num.gtb x (Fin 0)) (downtime_col batch_100_50_50) in
     Permutation rows
       (DetailedOEEAnalysis.pareto_groups (Frame.select mask (map Downtime_Reason batch_100_50_50))
                               (Frame.select mask (downtime_col batch_100_50_50))
                               (Frame.select mask (map Machine_Name batch_100_50_50)))) /\
    tbl !! "Downtime_Reason"
      = Some (StrSeries (map DetailedOEEAnalysis.reason rows)) /\
    map DetailedOEEAnalysis.total_downtime_min rows = map Fin ts /\
    tbl !! "Total_Downtime_Min" = Some (NumSeries (map Fin ts)) /\
    descending ts /\
    Ser.sum (map Fin ts) = Fin total /\
    (total == 0 ->
     tbl !! "Cumulative_Pct"
       = Some (NumSeries (map (fun _ => NaN) ts))) /\
    (~ total == 0 ->
     exists cs : list Q,
       tbl !! "Cumulative_Pct" = Some (NumSeries (map Fin cs)) /\
       length cs = length ts /\
       nondecreasing cs /\
       last cs = Some 100).
Proof.
  apply (proj1 C5_pareto_cumulative detailed_on_raw
           (generated batch_100_50_50 init_state) 0%nat
           (DataFrame_of batch_100_50_50)
           (map Downtime_Minutes batch_100_50_50)
           (map Downtime_Reason batch_100_50_50)
           (map Machine_Name batch_100_50_50)).
  - reflexivity.
  - reflexivity.
  - reflexivity.
  - reflexivity.
  - reflexivity.
Defined.

(* ===================================================================== *)
(** * Further properties of the simulator *)
(* ===================================================================== *)

Section SimulatorMore.

Lemma emitted_from_draw (r : ProductionRecord) :
  emitted r -> exists d, valid_draws d /\ generate_record d = Appended r.
Proof.
  intros (draws & data & Hv & Hgen & Hin). revert data Hgen Hin.
  induction Hv as [|d draws Hd _ IH]; intros data Hgen Hin; simpl in Hgen.
  - injection Hgen as <-. destruct Hin.
  - destruct (generate_record d) as [|r'|] eqn:E; [eauto| |discriminate].
    destruct (generate_rows draws) as [rest|]; [|discriminate].
    injection Hgen as <-. destruct Hin as [<-|Hin]; eauto.
Qed.

Lemma generate_record_no_fault (d : Draws) :
  valid_draws d -> generate_record d <> ZeroDivision.
Proof.
  intros [_ _ Hcyc _]. unfold generate_record.
  destruct (_ && _); [discriminate|].
  apply actual_range_bounds in Hcyc. destruct Hcyc as [Hc _].
  rewrite eqb_false by lra. discriminate.
Qed.

(** The loop over admissible draws completes, with one row per attempt
    that is not dropped. *)
Lemma generate_rows_total (draws : list Draws) :
  Forall valid_draws draws ->
  exists data,
    generate_rows draws = Some data /\
    length data = length (List.filter (fun d => negb (is_skipped d)) draws).
Proof.
  induction 1 as [|d draws Hd _ (data & Hdata & Hlen)]; simpl.
  - exists []. split; reflexivity.
  - pose proof (generate_record_no_fault d Hd) as Hnf.
    assert (Hs : is_skipped d
                 = match generate_record d with Skipped => true | _ => false end)
      by reflexivity.
    rewrite Hs. clear Hs. destruct (generate_record d) as [|r|]; simpl.
    + exists data. split; [exact Hdata|exact Hlen].
    + rewrite Hdata. exists (r :: data).
      split; [reflexivity|]. simpl; lia.
    + contradiction.
Qed.

End SimulatorMore.

(** X1.  With admissible draws no iteration divides by zero: the loop
    completes, appends exactly one row for every attempt the weekend rule
    does not drop, and so returns at most [num_records] rows. *)
Theorem generate_rows_count :
  forall draws : list Draws,
    Forall valid_draws draws ->
    exists data,
      generate_rows draws = Some data /\
      length data
      = length (List.filter (fun d => negb (is_skipped d)) draws) /\
      (length data <= length draws)%nat.
Proof.
  intros draws Hv. destruct (generate_rows_total draws Hv) as (data & Hd & Hl).
  exists data. split; [exact Hd|]. split; [exact Hl|].
  rewrite Hl. apply List.filter_length_le.
Qed.

Lemma generate_rows_count_witness :
  exists data,
    generate_rows [draws_typical; draws_brief_stop] = Some data /\
    length data
    = length (List.filter (fun d => negb (is_skipped d))
                          [draws_typical; draws_brief_stop]) /\
    (length data <= 2)%nat.
Proof.
  apply (generate_rows_count [draws_typical; draws_brief_stop]).
  repeat constructor; simpl; unfold in_range; simpl; try lia; lra.
Defined.

(** X2.  The weekend rule drops an attempt exactly when its day offset is
    5 modulo 7 (a Sunday, the start date being a Tuesday) and the weekend
    draw is below 0.7; an attempt on any other day, Saturdays included, is
    never dropped. *)
Theorem skipped_only_on_sunday :
  forall d : Draws,
    generate_record d = Skipped <->
    (days_offset d mod 7 = 5)%Z /\ weekend_draw d < 7 # 10.
Proof.
  intros d. unfold generate_record, Calendar.weekday, Calendar.start_date.
  destruct (6 <=? (20270 + days_offset d + 3) mod 7)%Z eqn:Eday;
    destruct (Rat.ltb (weekend_draw d) (7 # 10)) eqn:Edraw; simpl.
  - apply Z.leb_le in Eday. apply ltb_spec in Edraw.
    split; [intros _|reflexivity]. split; [|exact Edraw].
    Z.div_mod_to_equations. lia.
  - apply ltb_false in Edraw.
    split; [|intros [_ H]; lra].
    destruct (Rat.eqb (cycle_draw d) 0); discriminate.
  - apply Z.leb_gt in Eday.
    split; [destruct (Rat.eqb (cycle_draw d) 0); discriminate|].
    intros [H _]. exfalso. Z.div_mod_to_equations. lia.
  - apply Z.leb_gt in Eday.
    split; [destruct (Rat.eqb (cycle_draw d) 0); discriminate|].
    intros [H _]. exfalso. Z.div_mod_to_equations. lia.
Qed.

Section RoundingError.

Lemma round_half_even_error (y : Q) :
  y - (1 # 2) <= inject_Z (Rat.round_half_even y) /\
  inject_Z (Rat.round_half_even y) <= y + (1 # 2).
Proof.
  unfold Rat.round_half_even.
  pose proof (Qfloor_le y) as Hlo. pose proof (Qlt_floor y) as Hhi.
  rewrite inject_Z_plus in Hhi. change (inject_Z 1) with 1 in Hhi.
  destruct (Qcompare (y - inject_Z (Qfloor y)) (1 # 2)) eqn:E.
  - apply Qeq_alt in E.
    destruct (Z.even (Qfloor y));
      rewrite ?inject_Z_plus; change (inject_Z 1) with 1; split; lra.
  - apply Qlt_alt in E. split; lra.
  - apply Qgt_alt in E. rewrite inject_Z_plus. change (inject_Z 1) with 1.
    split; lra.
Qed.

(** Rounding to one decimal moves a value by at most 0.05. *)
Lemma round_tenths_error (x : Q) :
  x - (1 # 20) <= Rat.round_dec 1 x /\ Rat.round_dec 1 x <= x + (1 # 20).
Proof.
  unfold Rat.round_dec. rewrite Qred_correct.
  change (inject_Z (10 ^ Z.of_nat 1)) with 10.
  destruct (round_half_even_error (x * 10)) as [Hlo Hhi].
  set (k := inject_Z (Rat.round_half_even (x * 10))) in *.
  split.
  - apply Qle_shift_div_l; lra.
  - apply Qle_shift_div_r; lra.
Qed.

End RoundingError.

Section RecordFacts.

Lemma actual_range_tight (m : machine) (c : Q) :
  in_range (actual_range m) c ->
  19 # 10 <= c /\ c <= 65 /\ (19 # 18) * ideal_cycle_time m <= c.
Proof.
  unfold in_range. destruct m; simpl; intros [? ?]; repeat split; lra.
Qed.

Lemma defect_range_tight (m : machine) (x : Q) :
  in_range (defect_range m) x -> 1 # 5 <= x /\ x <= 7 # 2.
Proof. unfold in_range. destruct m; simpl; intros [? ?]; split; lra. Qed.

Lemma trunc_below (q : Q) : 0 <= q -> inject_Z (Rat.trunc q) <= q.
Proof. intros H. rewrite trunc_floor by exact H. apply Qfloor_le. Qed.

Lemma inject_Z_nonneg (z : Z) : (0 <= z)%Z -> 0 <= inject_Z z.
Proof.
  intros H. replace 0 with (inject_Z 0) by reflexivity.
  rewrite <- Zle_Qle. exact H.
Qed.

(** What one appended row holds of units, from the draws it was made of. *)
Lemma units_of_draw (d : Draws) (r : ProductionRecord) :
  valid_draws d -> generate_record d = Appended r ->
  (Good_Units r + Defective_Units r = Total_Units_Produced r)%Z /\
  (193 <= Total_Units_Produced r <= 15157)%Z /\
  (0 <= Defective_Units r)%Z /\
  (200 * Defective_Units r <= 7 * Total_Units_Produced r)%Z.
Proof.
  intros [_ _ Hcyc Hdef] H.
  unfold generate_record in H.
  destruct (_ && _); [discriminate|].
  destruct (Rat.eqb (cycle_draw d) 0); [discriminate|].
  injection H as <-. simpl.
  destruct (clamped_downtime_bounds d) as [Hlo Hhi].
  apply actual_range_tight in Hcyc. destruct Hcyc as (Hc1 & Hc2 & _).
  apply defect_range_tight in Hdef. destruct Hdef as [Hd1 Hd2].
  set (p := planned_production_minutes (shift_draw d)) in *.
  assert (Hp : 420 <= inject_Z p /\ inject_Z p <= 480).
  { subst p. destruct (shift_draw d); simpl; unfold Qle; simpl; lia. }
  set (cd := clamped_downtime d) in *.
  set (q := (inject_Z p - cd) * 60 / cycle_draw d).
  assert (Hq : inject_Z 193 <= q /\ q <= 15158).
  { subst q. split.
    - apply Qle_shift_div_l; [lra|]. change (inject_Z 193) with 193. lra.
    - apply Qle_shift_div_r; lra. }
  destruct Hq as [Hq1 Hq2].
  assert (Hq0 : 0 <= q) by (change (inject_Z 193) with 193 in Hq1; lra).
  assert (Hu1 : (193 <= Rat.trunc q)%Z) by (apply trunc_ge; [lia|exact Hq1]).
  assert (Hu2 : (Rat.trunc q <= 15157)%Z).
  { rewrite trunc_floor by exact Hq0.
    assert (Hq3 : q <= 288000 # 19).
    { subst q. apply Qle_shift_div_r; lra. }
    apply Qfloor_resp_le in Hq3. exact Hq3. }
  set (u := Rat.trunc q) in *.
  pose proof (inject_Z_nonneg u ltac:(lia)) as Hu0.
  assert (Hv0 : 0 <= inject_Z u * defect_draw d / 100).
  { apply Qle_shift_div_l; [lra|].
    assert (0 <= inject_Z u * defect_draw d)
      by (apply Qmult_le_0_compat; lra). lra. }
  pose proof (trunc_below _ Hv0) as Hdv.
  set (v := Rat.trunc (inject_Z u * defect_draw d / 100)) in *.
  assert (Hv1 : (0 <= v)%Z)
    by (apply trunc_ge; [lia|change (inject_Z 0) with 0; exact Hv0]).
  split; [lia|]. split; [lia|]. split; [exact Hv1|].
  assert (Hb : inject_Z u * defect_draw d / 100 <= inject_Z u * (7 # 200)).
  { apply Qle_shift_div_r; [lra|].
    assert (0 <= inject_Z u * ((7 # 2) - defect_draw d))
      by (apply Qmult_le_0_compat; lra).
    lra. }
  assert (Hfin : inject_Z (200 * v) <= inject_Z (7 * u)).
  { rewrite !inject_Z_mult. change (inject_Z 200) with 200.
    change (inject_Z 7) with 7. lra. }
  rewrite <- Zle_Qle in Hfin. exact Hfin.
Qed.

End RecordFacts.

(** X3.  For every record the simulator emits, good and defective units
    add up to the units produced; between 193 and 15157 units are produced
    in a shift; and the defective units are at most 3.5 % of them. *)
Theorem units_accounting :
  forall r : ProductionRecord,
    emitted r ->
    (Good_Units r + Defective_Units r = Total_Units_Produced r)%Z /\
    (193 <= Total_Units_Produced r <= 15157)%Z /\
    (0 <= Defective_Units r)%Z /\
    (200 * Defective_Units r <= 7 * Total_Units_Produced r)%Z.
Proof.
  intros r Hr. apply emitted_from_draw in Hr.
  destruct Hr as (d & Hd & H). exact (units_of_draw d r Hd H).
Qed.

Lemma emitted_typical : emitted record_typical.
Proof.
  exists [draws_typical], [record_typical]. split; [|split].
  - constructor; [|constructor].
    constructor; simpl; unfold in_range; simpl; try lia; split; lra.
  - reflexivity.
  - left. reflexivity.
Qed.

(** X3 at the row appended for [draws_typical]. *)
Lemma units_accounting_witness :
  (Good_Units record_typical + Defective_Units record_typical
   = Total_Units_Produced record_typical)%Z /\
  (193 <= Total_Units_Produced record_typical <= 15157)%Z /\
  (0 <= Defective_Units record_typical)%Z /\
  (200 * Defective_Units record_typical
   <= 7 * Total_Units_Produced record_typical)%Z.
Proof. exact (units_accounting record_typical emitted_typical). Defined.

(** X4.  The reason of every emitted record is 'None' or one of the five
    downtime reasons, and it follows the stored downtime: a stored downtime
    of 60.1 or more goes with Breakdown or Changeover, one from 30.1 to
    59.9 with Cleaning or Breakdown, one from 0.1 to 29.9 with Minor
    Stoppage or Power Failure, and the reason 'None' with a stored
    downtime of 0. *)
Theorem reason_follows_downtime :
  forall r : ProductionRecord,
    emitted r ->
    In (Downtime_Reason r) ("None" :: downtime_reasons) /\
    (Downtime_Reason r = "None" -> Downtime_Minutes r == 0) /\
    (601 # 10 <= Downtime_Minutes r ->
     In (Downtime_Reason r) ["Breakdown"; "Changeover"]) /\
    (301 # 10 <= Downtime_Minutes r -> Downtime_Minutes r <= 599 # 10 ->
     In (Downtime_Reason r) ["Cleaning"; "Breakdown"]) /\
    (1 # 10 <= Downtime_Minutes r -> Downtime_Minutes r <= 299 # 10 ->
     In (Downtime_Reason r) ["Minor Stoppage"; "Power Failure"]).
Proof.
  intros r Hr. apply emitted_from_draw in Hr. destruct Hr as (d & _ & H).
  split; [|split].
  - unfold generate_record in H.
    destruct (_ && _); [discriminate|].
    destruct (Rat.eqb (cycle_draw d) 0); [discriminate|].
    injection H as <-. simpl. unfold assign_reason, choice2.
    destruct (Rat.ltb 0 _); [|auto].
    destruct (Rat.ltb 60 _); [|destruct (Rat.ltb 30 _)];
      destruct (reason_draw d); auto 10.
  - exact (none_reason_zero_downtime d r H).
  - unfold generate_record in H.
    destruct (_ && _); [discriminate|].
    destruct (Rat.eqb (cycle_draw d) 0); [discriminate|].
    injection H as <-. simpl.
    destruct (round_tenths_error (clamped_downtime d)) as [Hlo Hhi].
    set (cd := clamped_downtime d) in *.
    set (D := Rat.round_dec 1 cd) in *.
    unfold assign_reason, choice2.
    destruct (Rat.ltb 0 cd) eqn:E0; [apply ltb_spec in E0|apply ltb_false in E0];
      (destruct (Rat.ltb 60 cd) eqn:E60;
       [apply ltb_spec in E60|apply ltb_false in E60]);
      (destruct (Rat.ltb 30 cd) eqn:E30;
       [apply ltb_spec in E30|apply ltb_false in E30]);
      destruct (reason_draw d);
      repeat split; intros; simpl; auto; exfalso; lra.
Qed.

(** X4 at the row appended for [draws_typical]. *)
Lemma reason_follows_downtime_witness :
  In (Downtime_Reason record_typical) ("None" :: downtime_reasons) /\
  (Downtime_Reason record_typical = "None" ->
   Downtime_Minutes record_typical == 0) /\
  (601 # 10 <= Downtime_Minutes record_typical ->
   In (Downtime_Reason record_typical) ["Breakdown"; "Changeover"]) /\
  (301 # 10 <= Downtime_Minutes record_typical ->
   Downtime_Minutes record_typical <= 599 # 10 ->
   In (Downtime_Reason record_typical) ["Cleaning"; "Breakdown"]) /\
  (1 # 10 <= Downtime_Minutes record_typical ->
   Downtime_Minutes record_typical <= 299 # 10 ->
   In (Downtime_Reason record_typical) ["Minor Stoppage"; "Power Failure"]).
Proof. exact (reason_follows_downtime record_typical emitted_typical). Defined.

(** X5.  Every emitted record has a stored actual cycle time strictly above
    its ideal cycle time (by at least a factor 19/18): the ranges the actual
    time is drawn from lie above the ideal times, and rounding to two
    decimals cannot move it below their lower ends. *)
Theorem actual_cycle_above_ideal :
  forall r : ProductionRecord,
    emitted r ->
    0 < Ideal_Cycle_Time r /\
    (19 # 18) * Ideal_Cycle_Time r <= Actual_Cycle_Time r /\
    Ideal_Cycle_Time r < Actual_Cycle_Time r.
Proof.
  intros r Hr. apply emitted_from_draw in Hr.
  destruct Hr as (d & [_ _ Hcyc _] & H).
  unfold generate_record in H.
  destruct (_ && _); [discriminate|].
  destruct (Rat.eqb (cycle_draw d) 0); [discriminate|].
  injection H as <-. simpl.
  pose proof (ideal_cycle_pos (machine_draw d)) as Hi.
  assert (Hlo : (19 # 18) * ideal_cycle_time (machine_draw d)
                <= Rat.round_dec 2 (cycle_draw d)).
  { unfold in_range in Hcyc. destruct Hcyc as [Hc _].
    destruct (machine_draw d); simpl in *.
    - apply Qle_trans with (inject_Z 4800 / inject_Z (10 ^ Z.of_nat 2));
        [unfold Qle; simpl; lia|].
      apply round_dec_ge. apply Qle_trans with 48; [unfold Qle; simpl; lia|].
      exact Hc.
    - apply Qle_trans with (inject_Z 280 / inject_Z (10 ^ Z.of_nat 2));
        [unfold Qle; simpl; lia|].
      apply round_dec_ge. apply Qle_trans with (14 # 5);
        [unfold Qle; simpl; lia|]. exact Hc.
    - apply Qle_trans with (inject_Z 320 / inject_Z (10 ^ Z.of_nat 2));
        [unfold Qle; simpl; lia|].
      apply round_dec_ge. apply Qle_trans with (16 # 5);
        [unfold Qle; simpl; lia|]. exact Hc.
    - apply Qle_trans with (inject_Z 190 / inject_Z (10 ^ Z.of_nat 2));
        [unfold Qle; simpl; lia|].
      apply round_dec_ge. apply Qle_trans with (19 # 10);
        [unfold Qle; simpl; lia|]. exact Hc. }
  split; [exact Hi|]. split; [exact Hlo|]. lra.
Qed.

(** X5 at the row appended for [draws_typical]. *)
Lemma actual_cycle_above_ideal_witness :
  0 < Ideal_Cycle_Time record_typical /\
  (19 # 18) * Ideal_Cycle_Time record_typical
    <= Actual_Cycle_Time record_typical /\
  Ideal_Cycle_Time record_typical < Actual_Cycle_Time record_typical.
Proof. exact (actual_cycle_above_ideal record_typical emitted_typical). Defined.

Section Dates.

Lemma second_half_2025_all :
  forallb second_half_2025 (map Z.of_nat (seq 0 181)) = true.
Proof. vm_compute. reflexivity. Qed.

Lemma second_half_2025_range (offset : Z) :
  (0 <= offset <= 180)%Z -> second_half_2025 offset = true.
Proof.
  intros H. pose proof second_half_2025_all as Hall.
  rewrite forallb_forall in Hall. apply Hall.
  rewrite <- (Z2Nat.id offset) by lia.
  apply in_map, in_seq. lia.
Qed.

End Dates.

(** X6.  Every emitted record is dated in July to December 2025: its Date
    is '2025-MM-DD' with MM from 07 to 12 and DD from 01 to 31. *)
Theorem dates_in_second_half_2025 :
  forall r : ProductionRecord,
    emitted r ->
    exists m d : Z,
      (7 <= m <= 12)%Z /\ (1 <= d <= 31)%Z /\
      Date r = String.append "2025-"
                 (String.append (Calendar.digits 2 m)
                    (String.append "-" (Calendar.digits 2 d))).
Proof.
  intros r Hr. apply emitted_from_draw in Hr.
  destruct Hr as (d & [Hoff _ _ _] & H).
  unfold generate_record in H.
  destruct (_ && _); [discriminate|].
  destruct (Rat.eqb (cycle_draw d) 0); [discriminate|].
  injection H as <-. simpl.
  pose proof (second_half_2025_range _ Hoff) as Hok.
  unfold second_half_2025 in Hok. unfold Calendar.strftime.
  destruct (Calendar.civil (Calendar.start_date + days_offset d))
    as [[y m] dd].
  rewrite !andb_true_iff in Hok.
  destruct Hok as ((((Hy & Hm1) & Hm2) & Hd1) & Hd2).
  apply Z.eqb_eq in Hy. apply Z.leb_le in Hm1, Hm2, Hd1, Hd2. subst y.
  exists m, dd. split; [lia|]. split; [lia|]. reflexivity.
Qed.

(** X6 at the row appended for [draws_typical]. *)
Lemma dates_in_second_half_2025_witness :
  exists m d : Z,
    (7 <= m <= 12)%Z /\ (1 <= d <= 31)%Z /\
    Date record_typical
    = String.append "2025-"
        (String.append (Calendar.digits 2 m)
           (String.append "-" (Calendar.digits 2 d))).
Proof. exact (dates_in_second_half_2025 record_typical emitted_typical). Defined.

(** X7.  With admissible draws [generate_production_data] raises exactly
    when the weekend rule drops every attempt (in particular for
    [num_records = 0]): the summary it prints reads a column the empty
    table does not have.  Otherwise it returns a new table holding the
    appended rows and records that same table in [raw_data]. *)
Theorem generate_production_data_outcome :
  forall (draws : list Draws) (s : State),
    Forall valid_draws draws ->
    (Forall (fun d => is_skipped d = true) draws ->
     generate_production_data draws s = None) /\
    (Exists (fun d => is_skipped d = false) draws ->
     exists data,
       data <> [] /\
       generate_rows draws = Some data /\
       generate_production_data draws s
       = Some (length (heap s),
               {| heap := heap s ++ [DataFrame_of data];
                  analyzer := {| raw_data := Some (length (heap s));
                                 oee_results := oee_results (analyzer s) |} |})).
Proof.
  intros draws s Hv.
  destruct (generate_rows_total draws Hv) as (data & Hdata & Hlen).
  split.
  - intros Hall.
    assert (Hnil : data = []).
    { apply length_zero_iff_nil. rewrite Hlen.
      clear -Hall. induction Hall as [|d draws Hd _ IH]; [reflexivity|].
      simpl. rewrite Hd. exact IH. }
    subst data.
    destruct (generate_production_data draws s) as [[df s1]|] eqn:E;
      [|reflexivity].
    apply generate_production_data_run in E.
    destruct E as (data & H & Hne & _). congruence.
  - intros Hex. exists data.
    assert (Hne : data <> []).
    { intros ->. simpl in Hlen. clear -Hlen Hex.
      induction Hex as [d draws Hd|d draws _ IH]; simpl in Hlen.
      - rewrite Hd in Hlen. discriminate.
      - destruct (negb (is_skipped d)); [discriminate|]. auto. }
    split; [exact Hne|]. split; [exact Hdata|].
    apply generate_production_data_run. exists data.
    repeat split; assumption.
Qed.

(** X7 at one ordinary attempt. *)
Lemma generate_production_data_outcome_witness :
  (Forall (fun d => is_skipped d = true) [draws_typical] ->
   generate_production_data [draws_typical] init_state = None) /\
  (Exists (fun d => is_skipped d = false) [draws_typical] ->
   exists data,
     data <> [] /\
     generate_rows [draws_typical] = Some data /\
     generate_production_data [draws_typical] init_state
     = Some (0%nat,
             {| heap := [DataFrame_of data];
                analyzer := {| raw_data := Some 0%nat;
                               oee_results := None |} |})).
Proof.
  apply (generate_production_data_outcome [draws_typical] init_state).
  repeat constructor; simpl; unfold in_range; simpl; try lia; lra.
Defined.

(* ===================================================================== *)
(** * Further properties of the calculator *)
(* ===================================================================== *)

Section CapIdle.



End CapIdle.

Section CapIdleRows.






End CapIdleRows.



(* ===================================================================== *)
(** * When the calculator runs, and what a second run does *)
(* ===================================================================== *)

(** One step of a run that is known to have returned. *)
Ltac read_in H :=
  erewrite run_num_col in H by (first [table_lookup | column_lookup]).
Ltac write_in H :=
  erewrite run_set_col in H by table_lookup;
  try rewrite with_frame_twice in H.

Section CalculatorRuns.

(** A column read that does not raise found the table and the column. *)
Lemma num_col_inv {B} (l : loc) (c : string) (k : list num -> M B)
    (s : State) (r : B * State) :
  bind (Py.num_col l c) k s = Some r ->
  exists t xs, heap s !! l = Some t /\ t !! c = Some (NumSeries xs).
Proof.
  unfold bind, Py.num_col, Py.frame, bind, ret, raise.
  destruct (heap s !! l) as [t|] eqn:Hl; [|discriminate].
  destruct (t !! c) as [[xs|xs]|] eqn:Hc; try discriminate.
  intros _. exists t, xs. split; [reflexivity|exact Hc].
Qed.

(** The formulas raise unless the five columns they read are there. *)
Lemma raw_metrics_inv (l : loc) (s : State) (r : unit * State) :
  raw_metrics l s = Some r ->
  exists t, heap s !! l = Some t /\ has_numeric t input_cols.
Proof.
  intros H. unfold raw_metrics in H.
  destruct (num_col_inv _ _ _ _ _ H) as (t & planned & Hl & Hp).
  erewrite run_num_col in H by eassumption.
  destruct (num_col_inv _ _ _ _ _ H) as (t1 & downtime & Hl1 & Hd).
  assert (t1 = t) by congruence. subst t1. clear Hl1.
  erewrite run_num_col in H by eassumption.
  write_in H. read_in H. read_in H.
  destruct (num_col_inv _ _ _ _ _ H) as (t1 & ideal & Hl1 & Hi).
  erewrite heap_with_frame in Hl1 by exact Hl. injection Hl1 as <-.
  rewrite lookup_insert_ne in Hi by discriminate.
  read_in H.
  destruct (num_col_inv _ _ _ _ _ H) as (t1 & units & Hl1 & Hu).
  erewrite heap_with_frame in Hl1 by exact Hl. injection Hl1 as <-.
  rewrite lookup_insert_ne in Hu by discriminate.
  read_in H.
  write_in H.
  destruct (num_col_inv _ _ _ _ _ H) as (t1 & good & Hl1 & Hg).
  erewrite heap_with_frame in Hl1 by exact Hl. injection Hl1 as <-.
  rewrite !lookup_insert_ne in Hg by discriminate.
  exists t. split; [exact Hl|].
  unfold has_numeric, input_cols.
  repeat (constructor; [eexists; eassumption|]). constructor.
Qed.

Lemma calculate_oee_metrics_inv (l : loc) (s : State) (r : loc * State) :
  calculate_oee_metrics l s = Some r ->
  exists t, heap s !! l = Some t /\ has_numeric t input_cols.
Proof.
  unfold calculate_oee_metrics. unfold bind at 1.
  destruct (raw_metrics l s) as [[[] s1]|] eqn:E; [|discriminate].
  intros _. eapply raw_metrics_inv, E.
Qed.

Lemma has_input_cols (t : DataFrame) :
  has_numeric t input_cols ->
  exists planned downtime ideal units good,
    t !! "Planned_Production_Time" = Some (NumSeries planned) /\
    t !! "Downtime_Minutes" = Some (NumSeries downtime) /\
    t !! "Ideal_Cycle_Time" = Some (NumSeries ideal) /\
    t !! "Total_Units_Produced" = Some (NumSeries units) /\
    t !! "Good_Units" = Some (NumSeries good).
Proof.
  unfold has_numeric, input_cols. intros H.
  repeat (apply Forall_cons_1 in H; destruct H as [[? ?] H]).
  do 5 eexists. repeat split; eassumption.
Qed.

(** Setting the four metric columns overwrites an earlier setting. *)
Lemma with_metrics_twice (a p q o a' p' q' o' : list num) (t : DataFrame) :
  with_metrics a p q o (with_metrics a' p' q' o' t) = with_metrics a p q o t.
Proof.
  apply map_eq. intros c. unfold with_metrics.
  destruct (decide (c = "OEE")) as [->|]; [by rewrite !lookup_insert_eq|].
  rewrite (lookup_insert_ne _ "OEE" c) by done.
  rewrite (lookup_insert_ne _ "OEE" c) by done.
  destruct (decide (c = "Quality")) as [->|]; [by rewrite !lookup_insert_eq|].
  rewrite (lookup_insert_ne _ "Quality" c) by done.
  rewrite (lookup_insert_ne _ "Quality" c) by done.
  destruct (decide (c = "Performance")) as [->|];
    [by rewrite !lookup_insert_eq|].
  rewrite (lookup_insert_ne _ "Performance" c) by done.
  rewrite (lookup_insert_ne _ "Performance" c) by done.
  destruct (decide (c = "Availability")) as [->|];
    [by rewrite !lookup_insert_eq|].
  rewrite !lookup_insert_ne by done. reflexivity.
Qed.

Lemma oee_table_twice (planned downtime ideal units good : list num)
    (t : DataFrame) :
  oee_table planned downtime ideal units good
    (oee_table planned downtime ideal units good t)
  = oee_table planned downtime ideal units good t.
Proof. unfold oee_table. cbv zeta. by rewrite !with_metrics_twice. Qed.

End CalculatorRuns.

(** X9.  [calculate_oee_metrics] runs to the end exactly on a table that
    has the five columns its formulas read, each as a numeric column; any
    other table (or a name bound to no table) makes it raise.  Columns the
    formulas do not read, Defective_Units and Actual_Cycle_Time among them,
    are not needed. *)
Theorem calculate_oee_metrics_needs_inputs :
  forall (df : loc) (s : State),
    is_Some (calculate_oee_metrics df s) <->
    exists t, heap s !! df = Some t /\ has_numeric t input_cols.
Proof.
  intros df s. split.
  - intros [r H]. exact (calculate_oee_metrics_inv df s r H).
  - intros (t & Hl & Hcols).
    destruct (has_input_cols t Hcols)
      as (planned & downtime & ideal & units & good & Hp & Hd & Hi & Hu & Hg).
    eexists. eapply calculate_oee_metrics_run; eassumption.
Qed.

(** X10.  Running the calculator a second time on the table it returned
    succeeds and leaves that table as the first run left it: the metrics are
    recomputed from the same input columns.  The second run only allocates
    a second snapshot, equal to the table, and points [oee_results] at
    it. *)
Theorem calculate_oee_metrics_twice :
  forall (df r : loc) (s s1 : State),
    calculate_oee_metrics df s = Some (r, s1) ->
    exists (s2 : State) (t : DataFrame),
      calculate_oee_metrics r s1 = Some (df, s2) /\
      heap s1 !! df = Some t /\
      heap s2 !! df = Some t /\
      heap s2 !! length (heap s1) = Some t /\
      oee_results (analyzer s2) = Some (length (heap s1)) /\
      raw_data (analyzer s2) = raw_data (analyzer s1) /\
      forall l, (l < length (heap s1))%nat -> heap s2 !! l = heap s1 !! l.
Proof.
  intros df r s s1 H.
  destruct (calculate_oee_metrics_inv df s _ H) as (t & Hl & Hcols).
  destruct (has_input_cols t Hcols)
    as (planned & downtime & ideal & units & good & Hp & Hd & Hi & Hu & Hg).
  rewrite (calculate_oee_metrics_run df s t planned downtime ideal units good)
    in H by assumption.
  injection H as <- <-.
  set (t1 := oee_table planned downtime ideal units good t).
  assert (Hl1 : heap (calculated df t1 s) !! df = Some t1)
    by (eapply heap_calculated; exact Hl).
  exists (calculated df t1 (calculated df t1 s)), t1.
  split.
  { rewrite (calculate_oee_metrics_run df (calculated df t1 s) t1
               planned downtime ideal units good);
      [ subst t1; rewrite oee_table_twice; reflexivity
      | exact Hl1
      | subst t1; rewrite oee_table_other by discriminate; assumption .. ]. }
  split; [exact Hl1|].
  split; [eapply heap_calculated; exact Hl1|].
  split; [apply heap_calculated_copy|].
  split; [reflexivity|]. split; [reflexivity|].
  intros l Hlt. destruct (decide (l = df)) as [Heq|Hne].
  - subst l. transitivity (Some t1); [|symmetry; exact Hl1].
    eapply heap_calculated; exact Hl1.
  - apply heap_calculated_other; assumption.
Qed.

(** X10 on the table the simulator makes of [draws_typical]. *)
Lemma calculate_oee_metrics_twice_witness :
  exists (s2 : State) (t : DataFrame),
    calculate_oee_metrics 0%nat state_typical = Some (0%nat, s2) /\
    heap state_typical !! 0%nat = Some t /\
    heap s2 !! 0%nat = Some t /\
    heap s2 !! length (heap state_typical) = Some t /\
    oee_results (analyzer s2) = Some (length (heap state_typical)) /\
    raw_data (analyzer s2) = raw_data (analyzer state_typical) /\
    forall l, (l < length (heap state_typical))%nat ->
              heap s2 !! l = heap state_typical !! l.
Proof.
  apply (calculate_oee_metrics_twice 0%nat 0%nat
           (generated [record_typical] init_state) state_typical).
  apply calculate_batch; [discriminate|reflexivity].
Defined.

(* ===================================================================== *)
(** * The group-wise analyses and [main] *)
(* ===================================================================== *)

Section Aggregates.

Variable sqrt : Q -> Q.
Variable to_period : string -> option string.

Lemma bind_run {A B} (m : M A) (k : A -> M B) (s s' : State) (a : A) :
  m s = Some (a, s') -> bind m k s = k a s'.
Proof. intros H. unfold bind. rewrite H. reflexivity. Qed.

(** Reading a column leaves the state alone. *)
Lemma num_col_pure {B} (l : loc) (c : string) (k : list num -> M B)
    (s : State) (r : B * State) :
  bind (Py.num_col l c) k s = Some r ->
  exists t xs, heap s !! l = Some t /\ t !! c = Some (NumSeries xs) /\
               k xs s = Some r.
Proof.
  unfold bind, Py.num_col, Py.frame, bind, ret, raise.
  destruct (heap s !! l) as [t|] eqn:Hl; [|discriminate].
  destruct (t !! c) as [[xs|xs]|] eqn:Hc; try discriminate.
  intros H. exists t, xs. repeat split; [exact Hc|exact H].
Qed.

Lemma str_col_pure {B} (l : loc) (c : string) (k : list string -> M B)
    (s : State) (r : B * State) :
  bind (Py.str_col l c) k s = Some r ->
  exists t xs, heap s !! l = Some t /\ t !! c = Some (StrSeries xs) /\
               k xs s = Some r.
Proof.
  unfold bind, Py.str_col, Py.frame, bind, ret, raise.
  destruct (heap s !! l) as [t|] eqn:Hl; [|discriminate].
  destruct (t !! c) as [[xs|xs]|] eqn:Hc; try discriminate.
  intros H. exists t, xs. repeat split; [exact Hc|exact H].
Qed.

Lemma machine_wise_analysis_run (df : loc) (s : State) (t : DataFrame)
    (machines : list string)
    (oee availability performance quality units defective downtime : list num) :
  heap s !! df = Some t ->
  t !! "Machine_Name" = Some (StrSeries machines) ->
  t !! "OEE" = Some (NumSeries oee) ->
  t !! "Availability" = Some (NumSeries availability) ->
  t !! "Performance" = Some (NumSeries performance) ->
  t !! "Quality" = Some (NumSeries quality) ->
  t !! "Total_Units_Produced" = Some (NumSeries units) ->
  t !! "Defective_Units" = Some (NumSeries defective) ->
  t !! "Downtime_Minutes" = Some (NumSeries downtime) ->
  machine_wise_analysis sqrt df s
  = Some (length (heap s),
          with_new (machine_stats_frame sqrt machines oee availability
                      performance quality units defective downtime) s).
Proof.
  intros. unfold machine_wise_analysis. repeat run_step. reflexivity.
Qed.

Lemma shift_wise_analysis_run (df : loc) (s : State) (t : DataFrame)
    (shifts : list string)
    (oee availability performance quality units downtime : list num) :
  heap s !! df = Some t ->
  t !! "Shift" = Some (StrSeries shifts) ->
  t !! "OEE" = Some (NumSeries oee) ->
  t !! "Availability" = Some (NumSeries availability) ->
  t !! "Performance" = Some (NumSeries performance) ->
  t !! "Quality" = Some (NumSeries quality) ->
  t !! "Total_Units_Produced" = Some (NumSeries units) ->
  t !! "Downtime_Minutes" = Some (NumSeries downtime) ->
  shift_wise_analysis df s
  = Some (length (heap s),
          with_new (trend_frame "Shift" shifts oee availability
                      performance quality units downtime) s).
Proof.
  intros. unfold shift_wise_analysis. repeat run_step. reflexivity.
Qed.

Lemma to_periods_inv (dates months : list string) (s s1 : State) :
  to_periods to_period dates s = Some (months, s1) ->
  s1 = s /\ Forall2 (fun d m => to_period d = Some m) dates months.
Proof.
  revert months. induction dates as [|d dates IH]; intros months H.
  - injection H as <- <-. split; [reflexivity|constructor].
  - simpl in H. destruct (to_period d) as [p|] eqn:Ep; [|discriminate].
    unfold bind in H.
    destruct (to_periods to_period dates s) as [[ps s2]|] eqn:E;
      [|discriminate].
    injection H as <- <-. destruct (IH ps eq_refl) as [-> HF].
    split; [reflexivity|]. constructor; assumption.
Qed.

Lemma to_periods_run (dates months : list string) (s : State) :
  Forall2 (fun d m => to_period d = Some m) dates months ->
  to_periods to_period dates s = Some (months, s).
Proof.
  induction 1 as [|d m dates months Hd _ IH]; [reflexivity|].
  simpl. rewrite Hd. unfold bind. rewrite IH. reflexivity.
Qed.


Lemma monthly_trend_analysis_run (df : loc) (s : State) (t : DataFrame)
    (dates months : list string)
    (oee availability performance quality units downtime : list num) :
  heap s !! df = Some t ->
  t !! "Date" = Some (StrSeries dates) ->
  Forall2 (fun d m => to_period d = Some m) dates months ->
  t !! "OEE" = Some (NumSeries oee) ->
  t !! "Availability" = Some (NumSeries availability) ->
  t !! "Performance" = Some (NumSeries performance) ->
  t !! "Quality" = Some (NumSeries quality) ->
  t !! "Total_Units_Produced" = Some (NumSeries units) ->
  t !! "Downtime_Minutes" = Some (NumSeries downtime) ->
  monthly_trend_analysis to_period df s
  = Some (length (heap s),
          with_new (trend_frame "YearMonth" months oee availability
                      performance quality units downtime)
            (with_frame df (<["YearMonth" := StrSeries months]> t) s)).
Proof.
  intros Hl Hd Hm Ho Ha Hp Hq Hu Hw. unfold monthly_trend_analysis.
  run_step.
  erewrite bind_run by (apply to_periods_run; exact Hm).
  repeat run_step.
  unfold Py.new, with_new. rewrite length_with_frame. reflexivity.
Qed.

End Aggregates.

(** X11.  [machine_wise_analysis] and [shift_wise_analysis] only read the
    table they are given: when either returns, its result is a table that
    did not exist before, every table that existed is as it was, and the
    analyzer's fields are untouched. *)
Theorem group_analyses_only_allocate :
  forall (sqrt : Q -> Q) (df r : loc) (s s1 : State),
    machine_wise_analysis sqrt df s = Some (r, s1) \/
    shift_wise_analysis df s = Some (r, s1) ->
    r = length (heap s) /\
    (exists stats : DataFrame, heap s1 = heap s ++ [stats]) /\
    analyzer s1 = analyzer s.
Proof.
  intros sqrt df r s s1 [H|H].
  - unfold machine_wise_analysis in H.
    apply str_col_pure in H as (? & ? & _ & _ & H).
    do 7 apply num_col_pure in H as (? & ? & _ & _ & H).
    injection H as <- <-. split; [reflexivity|].
    split; [eexists; reflexivity|reflexivity].
  - unfold shift_wise_analysis in H.
    apply str_col_pure in H as (? & ? & _ & _ & H).
    do 6 apply num_col_pure in H as (? & ? & _ & _ & H).
    injection H as <- <-. split; [reflexivity|].
    split; [eexists; reflexivity|reflexivity].
Qed.

(** X11 on the state the calculator leaves for [record_typical]. *)
Lemma group_analyses_only_allocate_witness :
  2%nat = length (heap state_typical) /\
  (exists stats : DataFrame,
     heap (with_new shift_stats_typical state_typical)
     = heap state_typical ++ [stats]) /\
  analyzer (with_new shift_stats_typical state_typical)
  = analyzer state_typical.
Proof.
  apply (group_analyses_only_allocate (fun x => x) 0%nat).
  right. reflexivity.
Defined.

(** X12.  [monthly_trend_analysis] changes the table it is given: when it
    returns, every date of the table has been parsed, the table itself
    holds the months in a column YearMonth next to its other columns, and
    the result is a new table with one row per month.  Every other table
    and the analyzer's fields are as before. *)
Theorem monthly_trend_sets_yearmonth :
  forall (to_period : string -> option string) (df r : loc) (s s1 : State),
    monthly_trend_analysis to_period df s = Some (r, s1) ->
    exists (t stats : DataFrame) (dates months : list string),
      heap s !! df = Some t /\
      t !! "Date" = Some (StrSeries dates) /\
      Forall2 (fun d m => to_period d = Some m) dates months /\
      heap s1 !! df = Some (<["YearMonth" := StrSeries months]> t) /\
      r = length (heap s) /\
      heap s1 !! r = Some stats /\
      stats !! "YearMonth" = Some (StrSeries (Frame.group_keys months)) /\
      length (heap s1) = S (length (heap s)) /\
      (forall l, l <> df -> (l < length (heap s))%nat ->
                 heap s1 !! l = heap s !! l) /\
      analyzer s1 = analyzer s.
Proof.
  intros to_period df r s s1 H. unfold monthly_trend_analysis in H.
  apply str_col_pure in H as (t & dates & Hl & Hd & H).
  unfold bind at 1 in H.
  destruct (to_periods to_period dates s) as [[months s']|] eqn:E;
    [|discriminate].
  apply to_periods_inv in E as [-> HF].
  erewrite run_set_col in H by exact Hl.
  erewrite run_str_col in H
    by (first [eapply heap_with_frame; exact Hl | apply lookup_insert_eq]).
  do 6 apply num_col_pure in H as (? & ? & _ & _ & H).
  injection H as <- <-.
  pose proof (lookup_lt_Some _ _ _ Hl) as Hlt.
  exists t. eexists. exists dates, months.
  split; [exact Hl|]. split; [exact Hd|]. split; [exact HF|].
  simpl. rewrite length_insert.
  split; [apply lookup_app_l_Some, list_lookup_insert_eq, Hlt|].
  split; [reflexivity|].
  split.
  { rewrite lookup_app_r by (rewrite length_insert; lia).
    rewrite length_insert, Nat.sub_diag. reflexivity. }
  split; [unfold trend_frame; apply lookup_insert_eq|].
  split; [rewrite length_app, length_insert; simpl; lia|].
  split; [|reflexivity].
  intros l Hne Hlt'.
  rewrite lookup_app_l by (rewrite length_insert; exact Hlt').
  apply list_lookup_insert_ne. congruence.
Qed.

(** X12 on the state the calculator leaves for [record_typical]. *)
Lemma monthly_trend_sets_yearmonth_witness :
  exists (t stats : DataFrame) (dates months : list string),
    heap state_typical !! 0%nat = Some t /\
    t !! "Date" = Some (StrSeries dates) /\
    Forall2 (fun d m => month_prefix d = Some m) dates months /\
    heap state_monthly_typical !! 0%nat
    = Some (<["YearMonth" := StrSeries months]> t) /\
    2%nat = length (heap state_typical) /\
    heap state_monthly_typical !! 2%nat = Some stats /\
    stats !! "YearMonth" = Some (StrSeries (Frame.group_keys months)) /\
    length (heap state_monthly_typical) = S (length (heap state_typical)) /\
    (forall l, l <> 0%nat -> (l < length (heap state_typical))%nat ->
               heap state_monthly_typical !! l = heap state_typical !! l) /\
    analyzer state_monthly_typical = analyzer state_typical.
Proof.
  apply (monthly_trend_sets_yearmonth month_prefix 0%nat).
  reflexivity.
Defined.

Section MainRun.



(** The columns of the calculator's table that the analyses read. *)
Lemma oee_table_of_read (r : ProductionRecord) (data : list ProductionRecord) :
  let rows := r :: data in
  let t := oee_table_of rows in
  t !! "Date" = Some (StrSeries (map Date rows)) /\
  t !! "Shift" = Some (StrSeries (map Shift rows)) /\
  t !! "Machine_Name" = Some (StrSeries (map Machine_Name rows)) /\
  t !! "Downtime_Minutes" = Some (NumSeries (downtime_col rows)) /\
  t !! "Total_Units_Produced" = Some (NumSeries (units_col rows)) /\
  t !! "Defective_Units"
    = Some (NumSeries (map (fun r => Num.of_Z (Defective_Units r)) rows)).
Proof.
  cbv zeta.
  destruct (DataFrame_of_cons r data)
    as (H1 & H2 & H3 & _ & H5 & _ & _ & _ & H9 & H10 & _).
  rewrite !oee_table_of_inputs
    by (simpl; intros H; repeat (destruct H as [H|H]; [discriminate|]);
        exact H).
  repeat split; assumption.
Qed.

End MainRun.



(* ===================================================================== *)
(** * What the improvement simulation moves *)
(* ===================================================================== *)

Section Improvement.










End Improvement.

Section ImprovementRows.



(** The input columns of the calculator's table of a batch with rows. *)
Lemma oee_table_of_cycle (r : ProductionRecord) (data : list ProductionRecord) :
  let rows := r :: data in
  let t := oee_table_of rows in
  t !! "Planned_Production_Time" = Some (NumSeries (planned_col rows)) /\
  t !! "Ideal_Cycle_Time" = Some (NumSeries (ideal_col rows)) /\
  t !! "Actual_Cycle_Time"
    = Some (NumSeries (map (fun r => Fin (Actual_Cycle_Time r)) rows)).
Proof.
  cbv zeta.
  destruct (DataFrame_of_cons r data)
    as (_ & _ & _ & H4 & _ & _ & H7 & H8 & _).
  rewrite !oee_table_of_inputs
    by (simpl; intros H; repeat (destruct H as [H|H]; [discriminate|]);
        exact H).
  repeat split; assumption.
Qed.

End ImprovementRows.



(* ===================================================================== *)
(** * Grouping: keys and totals *)
(* ===================================================================== *)

Section GroupKeys.

Lemma compare_lt_trans (a b c : string) :
  String.compare a b = Lt -> String.compare b c = Lt ->
  String.compare a c = Lt.
Proof.
  intros H1 H2.
  apply OrderedTypeEx.String_as_OT.cmp_lt in H1, H2.
  apply OrderedTypeEx.String_as_OT.cmp_lt.
  eapply OrderedTypeEx.String_as_OT.lt_trans; eassumption.
Qed.

Lemma compare_refl (a : string) : String.compare a a = Eq.
Proof. apply OrderedTypeEx.String_as_OT.cmp_eq. reflexivity. Qed.

Lemma compare_gt_lt (a b : string) :
  String.compare a b = Gt -> String.compare b a = Lt.
Proof. intros H. rewrite String.compare_antisym, H. reflexivity. Qed.

Lemma insert_key_in (x k : string) (ks : list string) :
  In x (Frame.insert_key k ks) <-> x = k \/ In x ks.
Proof.
  induction ks as [|k' ks IH]; simpl.
  - intuition.
  - destruct (String.compare k k') eqn:E; simpl.
    + apply String.compare_eq_iff in E. subst k'. intuition.
    + intuition.
    + rewrite IH. intuition.
Qed.

Lemma group_keys_in (x : string) (keys : list string) :
  In x (Frame.group_keys keys) <-> In x keys.
Proof.
  unfold Frame.group_keys. induction keys as [|k keys IH]; simpl.
  - reflexivity.
  - rewrite insert_key_in, IH. intuition.
Qed.

Lemma insert_key_increasing (k : string) (ks : list string) :
  increasing ks -> increasing (Frame.insert_key k ks).
Proof.
  induction ks as [|k' ks IH]; simpl.
  - intros _. split; [constructor|exact I].
  - intros [Hall Hinc]. destruct (String.compare k k') eqn:E.
    + split; assumption.
    + split; [|split; assumption].
      constructor; [exact E|].
      eapply Forall_impl; [exact Hall|].
      intros z Hz. eapply compare_lt_trans; eassumption.
    + split; [|apply IH, Hinc].
      apply List.Forall_forall. intros z Hz. apply insert_key_in in Hz.
      destruct Hz as [->|Hz]; [apply compare_gt_lt, E|].
      rewrite List.Forall_forall in Hall. apply Hall, Hz.
Qed.

Lemma group_keys_increasing (keys : list string) :
  increasing (Frame.group_keys keys).
Proof.
  unfold Frame.group_keys. induction keys as [|k keys IH]; simpl; [exact I|].
  apply insert_key_increasing, IH.
Qed.

Lemma increasing_NoDup (ks : list string) : increasing ks -> List.NoDup ks.
Proof.
  induction ks as [|k ks IH]; simpl; [constructor|].
  intros [Hall Hinc]. constructor; [|apply IH, Hinc].
  intros Hin. rewrite List.Forall_forall in Hall.
  specialize (Hall k Hin). rewrite compare_refl in Hall. discriminate.
Qed.

End GroupKeys.

Section ParetoReasons.

Lemma select_in {A B} (f : A -> bool) (g : A -> B) (l : list A) (x : B) :
  In x (Frame.select (map f l) (map g l)) <->
  exists r, In r l /\ f r = true /\ g r = x.
Proof.
  induction l as [|a l IH]; simpl.
  - split; [contradiction|intros (r & [] & _)].
  - destruct (f a) eqn:E; simpl; rewrite IH; split.
    + intros [<-|(r & Hin & Hr)]; [exists a; auto|exists r; auto].
    + intros (r & [<-|Hin] & Hf & Hg); [left; exact Hg|right; exists r; auto].
    + intros (r & Hin & Hr). exists r; auto.
    + intros (r & [<-|Hin] & Hf & Hg); [congruence|exists r; auto].
Qed.

Lemma pareto_groups_reasons (reasons : list string) (downtime : list num)
    (machines : list string) :
  map DetailedOEEAnalysis.reason
      (DetailedOEEAnalysis.pareto_groups reasons downtime machines)
  = Frame.group_keys reasons.
Proof.
  unfold DetailedOEEAnalysis.pareto_groups. rewrite map_map. simpl.
  apply map_id.
Qed.

(** The reason of an emitted record, and what 'None' says of the stored
    downtime. *)
Lemma reason_of_emitted (r : ProductionRecord) :
  emitted r ->
  In (Downtime_Reason r) ("None" :: downtime_reasons) /\
  (Downtime_Reason r = "None" -> Downtime_Minutes r == 0).
Proof.
  intros Hr. apply emitted_from_draw in Hr. destruct Hr as (d & _ & H).
  split; [|exact (none_reason_zero_downtime d r H)].
  unfold generate_record in H.
  destruct (_ && _); [discriminate|].
  destruct (Rat.eqb (cycle_draw d) 0); [discriminate|].
  injection H as <-. simpl. unfold assign_reason, choice2.
  destruct (Rat.ltb 0 _); [|auto].
  destruct (Rat.ltb 60 _); [|destruct (Rat.ltb 30 _)];
    destruct (reason_draw d); auto 10.
Qed.

End ParetoReasons.

(** X15.  On a table holding simulator output the downtime summary lists
    each reason once, and lists a reason exactly when some record with a
    positive stored downtime carries it.  So the summary never has a row
    'None', has at most five rows, and leaves out a reason all of whose
    records were stored with a downtime of 0.0. *)
Theorem pareto_lists_assigned_reasons :
  forall (self : DetailedOEEAnalysis.t) (s : State) (raw : loc)
         (data : list ProductionRecord) (t : DataFrame),
    Forall emitted data ->
    DetailedOEEAnalysis.raw_data self = Some raw ->
    heap s !! raw = Some t ->
    t !! "Downtime_Minutes" = Some (NumSeries (downtime_col data)) ->
    t !! "Downtime_Reason" = Some (StrSeries (map Downtime_Reason data)) ->
    t !! "Machine_Name" = Some (StrSeries (map Machine_Name data)) ->
    exists (summary breakdown : loc) (s' : State) (tbl : DataFrame)
           (reasons : list string),
      DetailedOEEAnalysis.downtime_pareto_analysis self s
      = Some ((summary, breakdown), s') /\
      heap s' !! summary = Some tbl /\
      tbl !! "Downtime_Reason" = Some (StrSeries reasons) /\
      List.NoDup reasons /\
      (forall x, In x reasons <->
                 exists r, In r data /\ 0 < Downtime_Minutes r /\
                           Downtime_Reason r = x) /\
      ~ In "None" reasons /\
      incl reasons downtime_reasons /\
      (length reasons <= 5)%nat.
Proof.
  intros self s raw data t Hem Hraw Hl Hmin Hrs Hms.
  destruct (downtime_pareto_analysis_run self s raw t (downtime_col data)
              (map Downtime_Reason data) (map Machine_Name data)
              Hraw Hl Hmin Hrs Hms) as (s' & Hrun & Hsum & _).
  cbv zeta in Hsum.
  set (mask := map (fun x => Num.gtb x (Fin 0)) (downtime_col data)) in *.
  set (groups := DetailedOEEAnalysis.pareto_groups
                   (Frame.select mask (map Downtime_Reason data))
                   (Frame.select mask (downtime_col data))
                   (Frame.select mask (map Machine_Name data))) in *.
  assert (Hgroups : Forall (fun row =>
              finite_nonneg (DetailedOEEAnalysis.total_downtime_min row)) groups).
  { apply pareto_groups_totals. subst mask. unfold downtime_col.
    rewrite <- (map_map Downtime_Minutes Fin data). apply select_positive. }
  rewrite (sort_desc_finite _ _ Hgroups) in Hsum.
  set (rows := fold_right
                 (Frame.insert_desc DetailedOEEAnalysis.total_downtime_min)
                 [] groups) in *.
  assert (Hperm : Permutation (map DetailedOEEAnalysis.reason rows)
                    (Frame.group_keys
                       (Frame.select mask (map Downtime_Reason data)))).
  { rewrite <- (pareto_groups_reasons _
                  (Frame.select mask (downtime_col data))
                  (Frame.select mask (map Machine_Name data))).
    apply Permutation_map, insertion_perm. }
  assert (Hin : forall x,
             In x (map DetailedOEEAnalysis.reason rows) <->
             exists r, In r data /\ 0 < Downtime_Minutes r /\
                       Downtime_Reason r = x).
  { intros x. split.
    - intros H. apply (Permutation_in _ Hperm) in H.
      apply (proj1 (group_keys_in _ _)) in H. subst mask.
      unfold downtime_col in H.
      rewrite map_map in H. apply (proj1 (select_in _ _ _ _)) in H.
      destruct H as (r & Hr & Hpos & Hx). exists r.
      split; [exact Hr|]. split; [|exact Hx].
      simpl in Hpos. apply (proj1 (ltb_spec _ _)) in Hpos. exact Hpos.
    - intros (r & Hr & Hpos & Hx).
      apply (Permutation_in _ (Permutation_sym Hperm)).
      apply (proj2 (group_keys_in _ _)). subst mask. unfold downtime_col.
      rewrite map_map. apply (proj2 (select_in _ _ _ _)). exists r.
      split; [exact Hr|]. split; [|exact Hx].
      simpl. apply (proj2 (ltb_spec _ _)). exact Hpos. }
  assert (Hnd : List.NoDup (map DetailedOEEAnalysis.reason rows)).
  { apply (Permutation_NoDup (Permutation_sym Hperm)).
    apply increasing_NoDup, group_keys_increasing. }
  assert (Hnone : ~ In "None" (map DetailedOEEAnalysis.reason rows)).
  { intros H. apply (proj1 (Hin _)) in H. destruct H as (r & Hr & Hpos & Hx).
    rewrite List.Forall_forall in Hem.
    destruct (reason_of_emitted r (Hem r Hr)) as [_ Hz].
    specialize (Hz Hx). lra. }
  assert (Hincl : incl (map DetailedOEEAnalysis.reason rows) downtime_reasons).
  { intros x H. pose proof H as H'. apply (proj1 (Hin _)) in H.
    destruct H as (r & Hr & Hpos & Hx).
    rewrite List.Forall_forall in Hem.
    destruct (reason_of_emitted r (Hem r Hr)) as [[Hn|Hd] _].
    - exfalso. apply Hnone. rewrite Hn, Hx. exact H'.
    - rewrite <- Hx. exact Hd. }
  exists (S (length (heap s))), (S (S (length (heap s)))), s'.
  eexists. exists (map DetailedOEEAnalysis.reason rows).
  split; [exact Hrun|]. split; [exact Hsum|].
  split.
  { rewrite lookup_insert_ne by discriminate. apply pareto_frame_columns. }
  split; [exact Hnd|]. split; [exact Hin|]. split; [exact Hnone|].
  split; [exact Hincl|].
  exact (NoDup_incl_length Hnd Hincl).
Qed.

(** X15 on the table the simulator makes of [draws_typical]. *)
Lemma pareto_lists_assigned_reasons_witness :
  exists (summary breakdown : loc) (s' : State) (tbl : DataFrame)
         (reasons : list string),
    DetailedOEEAnalysis.downtime_pareto_analysis detailed_on_raw
      (generated [record_typical] init_state)
    = Some ((summary, breakdown), s') /\
    heap s' !! summary = Some tbl /\
    tbl !! "Downtime_Reason" = Some (StrSeries reasons) /\
    List.NoDup reasons /\
    (forall x, In x reasons <->
               exists r, In r [record_typical] /\ 0 < Downtime_Minutes r /\
                         Downtime_Reason r = x) /\
    ~ In "None" reasons /\
    incl reasons downtime_reasons /\
    (length reasons <= 5)%nat.
Proof.
  apply (pareto_lists_assigned_reasons detailed_on_raw
           (generated [record_typical] init_state) 0%nat [record_typical]
           (DataFrame_of [record_typical])).
  - constructor; [exact emitted_typical|constructor].
  - reflexivity.
  - reflexivity.
  - reflexivity.
  - reflexivity.
  - reflexivity.
Defined.

Section Totals.

Lemma Qred_inject_Z (z : Z) : Qred (inject_Z z) = inject_Z z.
Proof.
  unfold Qred, inject_Z.
  pose proof (Z.ggcd_gcd z 1) as Hg.
  pose proof (Z.ggcd_correct_divisors z 1) as Hd.
  change (Z.pos 1) with 1%Z.
  destruct (Z.ggcd z 1) as [g [aa bb]]. simpl in Hg, Hd.
  rewrite Z.gcd_1_r in Hg. subst g. destruct Hd as [Ha Hb].
  rewrite Z.mul_1_l in Ha, Hb. subst aa bb. reflexivity.
Qed.

Lemma add_of_Z (a b : Z) :
  Num.add (Num.of_Z a) (Num.of_Z b) = Num.of_Z (a + b).
Proof.
  unfold Num.of_Z. cbn [Num.add]. f_equal.
  rewrite <- (Qred_inject_Z (a + b)). apply Qred_complete.
  rewrite inject_Z_plus. reflexivity.
Qed.

Lemma sum_of_Z (zs : list Z) :
  Ser.sum (map Num.of_Z zs) = Num.of_Z (total zs).
Proof.
  unfold Ser.sum. change (Fin 0) with (Num.of_Z 0).
  assert (H : forall a,
             fold_left (fun acc x => if Num.is_nan x then acc
                                     else Num.add acc x)
                       (map Num.of_Z zs) (Num.of_Z a)
             = Num.of_Z (a + total zs)).
  { induction zs as [|z zs IH]; intros a.
    - simpl. rewrite Z.add_0_r. reflexivity.
    - cbn [map fold_left total fold_right].
      change (Num.is_nan (Num.of_Z z)) with false. cbv iota.
      rewrite add_of_Z, IH. f_equal. unfold total. lia. }
  apply (H 0%Z).
Qed.

Lemma round_of_Z (n : nat) (z : Z) : Num.round n (Num.of_Z z) = Num.of_Z z.
Proof.
  unfold Num.of_Z, Num.round, Rat.round_dec. f_equal.
  pose proof (scale_pos n) as Hs.
  rewrite (round_half_even_Z (z * 10 ^ Z.of_nat n))
    by (rewrite inject_Z_mult; reflexivity).
  rewrite <- (Qred_inject_Z z). apply Qred_complete.
  rewrite inject_Z_mult. field. lra.
Qed.

Lemma select_map {A B} (f : A -> B) (mask : list bool) (xs : list A) :
  Frame.select mask (map f xs) = map f (Frame.select mask xs).
Proof.
  revert xs. induction mask as [|b mask IH]; intros [|x xs]; simpl;
    try reflexivity.
  destruct b; simpl; rewrite IH; reflexivity.
Qed.

Lemma total_indicator (ks : list string) (m : string) (z : Z) :
  List.NoDup ks -> In m ks ->
  total (map (fun k => if String.eqb k m then z else 0%Z) ks) = z.
Proof.
  induction 1 as [|k ks Hk Hnd IH]; intros Hin; [destruct Hin|].
  simpl. destruct (String.eqb k m) eqn:E.
  - apply String.eqb_eq in E. subst k.
    assert (H0 : total (map (fun k => if String.eqb k m then z else 0%Z) ks)
                 = 0%Z).
    { clear -Hk. induction ks as [|k ks IH]; [reflexivity|]. simpl.
      destruct (String.eqb k m) eqn:E.
      - apply String.eqb_eq in E. subst k. exfalso. apply Hk. left. reflexivity.
      - rewrite IH; [reflexivity|]. intros H. apply Hk. right. exact H. }
    rewrite H0. lia.
  - destruct Hin as [->|Hin].
    + rewrite String.eqb_refl in E. discriminate.
    + rewrite IH by exact Hin. lia.
Qed.

(** The groups of a column partition it: their totals add up to the total
    of the column. *)
Lemma group_totals (ks keys : list string) (zs : list Z) :
  List.NoDup ks -> (forall m, In m keys -> In m ks) ->
  length keys = length zs ->
  total (map (fun k => total (Frame.group keys k zs)) ks) = total zs.
Proof.
  intros Hnd. revert zs.
  induction keys as [|m keys IH]; intros [|z zs] Hall Hlen;
    try discriminate.
  - simpl. clear. induction ks as [|k ks IH]; [reflexivity|].
    simpl. rewrite IH. reflexivity.
  - simpl in Hlen.
    assert (E : map (fun k => total (Frame.group (m :: keys) k (z :: zs))) ks
                = map (fun k => ((if String.eqb k m then z else 0)
                                 + total (Frame.group keys k zs))%Z) ks).
    { apply map_ext. intros k. unfold Frame.group. simpl.
      destruct (String.eqb k m); simpl; lia. }
    rewrite E.
    assert (Hadd : forall (f g : string -> Z) (l : list string),
               total (map (fun k => (f k + g k)%Z) l)
               = (total (map f l) + total (map g l))%Z).
    { intros f g l. induction l as [|k l IHl]; [reflexivity|].
      simpl. rewrite IHl. lia. }
    rewrite Hadd, total_indicator; [|exact Hnd|apply Hall; left; reflexivity].
    rewrite IH; [reflexivity| |lia].
    intros m' Hm'. apply Hall. right. exact Hm'.
Qed.

(** A [sum] aggregate of a column of integers, rounded as [agg(...).round]
    does, holds the group totals. *)
Lemma sum_aggregate (keys : list string) (zs : list Z) (n : nat) :
  map (fun k => Num.round n (Ser.sum (Frame.group keys k (map Num.of_Z zs))))
      (Frame.group_keys keys)
  = map Num.of_Z
        (map (fun k => total (Frame.group keys k zs)) (Frame.group_keys keys)).
Proof.
  rewrite map_map. apply map_ext. intros k.
  unfold Frame.group. rewrite select_map, sum_of_Z. apply round_of_Z.
Qed.

Lemma group_keys_totals (keys : list string) (zs : list Z) :
  length keys = length zs ->
  total (map (fun k => total (Frame.group keys k zs)) (Frame.group_keys keys))
  = total zs.
Proof.
  intros Hlen. apply group_totals; [| |exact Hlen].
  - apply increasing_NoDup, group_keys_increasing.
  - intros m Hm. apply group_keys_in. exact Hm.
Qed.

End Totals.



(* ===================================================================== *)
(** * The loss columns on simulator output *)
(* ===================================================================== *)

Section LossColumns.

Variable sqrt : Q -> Q.

(** The stored cycle times of an emitted record. *)
Lemma cycle_times_of_emitted (r : ProductionRecord) :
  emitted r ->
  0 < Ideal_Cycle_Time r /\
  (19 # 18) * Ideal_Cycle_Time r <= Actual_Cycle_Time r /\
  Actual_Cycle_Time r <= (42 # 25) * Ideal_Cycle_Time r.
Proof.
  intros Hr. apply emitted_from_draw in Hr.
  destruct Hr as (d & [_ _ Hcyc _] & H).
  unfold generate_record in H.
  destruct (_ && _); [discriminate|].
  destruct (Rat.eqb (cycle_draw d) 0); [discriminate|].
  injection H as <-. simpl.
  pose proof (ideal_cycle_pos (machine_draw d)) as Hi.
  unfold in_range in Hcyc. destruct Hcyc as [Hlo Hhi].
  split; [exact Hi|].
  destruct (machine_draw d); simpl in *; split.
  - apply Qle_trans with (inject_Z 4800 / inject_Z (10 ^ Z.of_nat 2));
      [unfold Qle; simpl; lia|].
    apply round_dec_ge. apply Qle_trans with 48; [unfold Qle; simpl; lia|].
    exact Hlo.
  - apply Qle_trans with (inject_Z 6500 / inject_Z (10 ^ Z.of_nat 2));
      [|unfold Qle; simpl; lia].
    apply round_dec_le. apply Qle_trans with 65; [exact Hhi|].
    unfold Qle; simpl; lia.
  - apply Qle_trans with (inject_Z 280 / inject_Z (10 ^ Z.of_nat 2));
      [unfold Qle; simpl; lia|].
    apply round_dec_ge. apply Qle_trans with (14 # 5);
      [unfold Qle; simpl; lia|]. exact Hlo.
  - apply Qle_trans with (inject_Z 420 / inject_Z (10 ^ Z.of_nat 2));
      [|unfold Qle; simpl; lia].
    apply round_dec_le. apply Qle_trans with (21 # 5); [exact Hhi|].
    unfold Qle; simpl; lia.
  - apply Qle_trans with (inject_Z 320 / inject_Z (10 ^ Z.of_nat 2));
      [unfold Qle; simpl; lia|].
    apply round_dec_ge. apply Qle_trans with (16 # 5);
      [unfold Qle; simpl; lia|]. exact Hlo.
  - apply Qle_trans with (inject_Z 480 / inject_Z (10 ^ Z.of_nat 2));
      [|unfold Qle; simpl; lia].
    apply round_dec_le. apply Qle_trans with (24 # 5); [exact Hhi|].
    unfold Qle; simpl; lia.
  - apply Qle_trans with (inject_Z 190 / inject_Z (10 ^ Z.of_nat 2));
      [unfold Qle; simpl; lia|].
    apply round_dec_ge. apply Qle_trans with (19 # 10);
      [unfold Qle; simpl; lia|]. exact Hlo.
  - apply Qle_trans with (inject_Z 250 / inject_Z (10 ^ Z.of_nat 2));
      [|unfold Qle; simpl; lia].
    apply round_dec_le. apply Qle_trans with (5 # 2); [exact Hhi|].
    unfold Qle; simpl; lia.
Qed.


Lemma row_speed_loss_value (r : ProductionRecord) :
  emitted r ->
  exists v, row_speed_loss r = Fin v /\ 139 # 25 <= v /\ v <= 68.
Proof.
  intros Hr. destruct (cycle_times_of_emitted r Hr) as (Hi & Hlo & Hhi).
  unfold row_speed_loss. cbn [Num.sub].
  rewrite div_fin by lra. cbn [Num.mul Num.round].
  eexists. split; [reflexivity|].
  set (A := Actual_Cycle_Time r) in *. set (I := Ideal_Cycle_Time r) in *.
  set (x := Qred (Qred (Qred (A - I) / I) * 100)).
  assert (Hx : x == (A - I) / I * 100)
    by (unfold x; rewrite !Qred_correct; reflexivity).
  destruct (quotient_bounds (A - I) I (1 # 18) (17 # 25)) as [H1 H2];
    [lra..|].
  split.
  - apply Qle_trans with (inject_Z 556 / inject_Z (10 ^ Z.of_nat 2));
      [unfold Qle; simpl; lia|].
    unfold Rat.round_dec. rewrite Qred_correct.
    apply Qle_shift_div_l; [apply scale_pos|].
    rewrite div_scale_cancel by apply scale_pos.
    rewrite <- Zle_Qle.
    destruct (round_half_even_error (x * inject_Z (10 ^ Z.of_nat 2)))
      as [Hr1 _].
    assert (Hgt : inject_Z 555
                  < inject_Z (Rat.round_half_even
                                (x * inject_Z (10 ^ Z.of_nat 2)))).
    { eapply Qlt_le_trans; [|exact Hr1]. rewrite Hx.
      change (inject_Z (10 ^ Z.of_nat 2)) with 100.
      change (inject_Z 555) with 555. lra. }
    rewrite <- Zlt_Qlt in Hgt. lia.
  - apply Qle_trans with (inject_Z 6800 / inject_Z (10 ^ Z.of_nat 2));
      [|unfold Qle; simpl; lia].
    apply round_dec_le. rewrite Hx.
    apply Qle_trans with 68; [lra|]. unfold Qle; simpl; lia.
Qed.

Lemma speed_loss_col_rows (data : list ProductionRecord) :
  speed_loss_col (map (fun r => Fin (Actual_Cycle_Time r)) data)
                 (ideal_col data)
  = map row_speed_loss data.
Proof.
  unfold speed_loss_col, Ser.round, Ser.mul_scalar, Ser.div, Ser.sub,
    ideal_col.
  rewrite !zip_with_map_same, !map_map. reflexivity.
Qed.

(** [speed_loss_analysis] with the two tables it returns. *)
Lemma speed_loss_analysis_tables (d : loc) (rd : option loc) (s : State)
    (t : DataFrame) (actual ideal units : list num)
    (machines dates shifts : list string) :
  heap s !! d = Some t ->
  t !! "Actual_Cycle_Time" = Some (NumSeries actual) ->
  t !! "Ideal_Cycle_Time" = Some (NumSeries ideal) ->
  t !! "Total_Units_Produced" = Some (NumSeries units) ->
  t !! "Machine_Name" = Some (StrSeries machines) ->
  t !! "Date" = Some (StrSeries dates) ->
  t !! "Shift" = Some (StrSeries shifts) ->
  let loss := speed_loss_col actual ideal in
  DetailedOEEAnalysis.speed_loss_analysis sqrt
    (DetailedOEEAnalysis.mk (Some d) rd) s
  = Some ((length (heap s), S (length (heap s))),
          analysed d (<["Speed_Loss_Percent" := NumSeries loss]> t)
            (DetailedOEEAnalysis.speed_loss_frame sqrt machines loss ideal
               actual units)
            (DetailedOEEAnalysis.worst_speed_frame dates machines loss shifts)
            s).
Proof.
  intros Hl Ha Hi Hu Hm Hd Hs loss.
  unfold DetailedOEEAnalysis.speed_loss_analysis.
  cbn [DetailedOEEAnalysis.data Py.deref].
  repeat run_step.
  unfold ret, analysed.
  rewrite !length_with_new, !length_with_frame. reflexivity.
Qed.

End LossColumns.

(** X17.  [speed_loss_analysis] on a table holding simulator output: the
    column Speed_Loss_Percent it sets in [self.data] holds, for every
    record, a finite value between 5.56 and 68; the table of the worst
    records has ten rows, or all of them if there are fewer, and its
    Speed_Loss_Percent column is the first ten of the values of the whole
    column put in descending order. *)
Theorem speed_loss_on_simulator_output :
  forall (sqrt : Q -> Q) (d : loc) (rd : option loc) (s : State)
         (t : DataFrame) (data : list ProductionRecord) (units : list num),
    Forall emitted data ->
    heap s !! d = Some t ->
    t !! "Actual_Cycle_Time"
    = Some (NumSeries (map (fun r => Fin (Actual_Cycle_Time r)) data)) ->
    t !! "Ideal_Cycle_Time" = Some (NumSeries (ideal_col data)) ->
    t !! "Total_Units_Produced" = Some (NumSeries units) ->
    t !! "Machine_Name" = Some (StrSeries (map Machine_Name data)) ->
    t !! "Date" = Some (StrSeries (map Date data)) ->
    t !! "Shift" = Some (StrSeries (map Shift data)) ->
    exists (summary worst : loc) (s' : State) (w : DataFrame)
           (sorted : list Q),
      DetailedOEEAnalysis.speed_loss_analysis sqrt
        (DetailedOEEAnalysis.mk (Some d) rd) s
      = Some ((summary, worst), s') /\
      heap s' !! d
      = Some (<["Speed_Loss_Percent" :=
                  NumSeries (map row_speed_loss data)]> t) /\
      Forall (fun r => exists v, row_speed_loss r = Fin v /\
                                 139 # 25 <= v /\ v <= 68) data /\
      heap s' !! worst = Some w /\
      Permutation (map Fin sorted) (map row_speed_loss data) /\
      descending sorted /\
      w !! "Speed_Loss_Percent" = Some (NumSeries (map Fin (take 10 sorted))) /\
      length (take 10 sorted) = Nat.min 10 (length data).
Proof.
  intros sqrt d rd s t data units Hem Hl Ha Hi Hu Hm Hd Hs.
  pose proof (lookup_lt_Some _ _ _ Hl) as Hlt.
  pose proof (speed_loss_analysis_tables sqrt d rd s t _ _ _ _ _ _
                Hl Ha Hi Hu Hm Hd Hs) as Hrun.
  cbv zeta in Hrun. rewrite speed_loss_col_rows in Hrun.
  assert (Hvals : Forall (fun r => exists v, row_speed_loss r = Fin v /\
                                             139 # 25 <= v /\ v <= 68) data).
  { eapply Forall_impl; [exact Hem|]. intros r Hr.
    exact (row_speed_loss_value r Hr). }
  set (key := fun r : string * string * num * string => snd (fst r)).
  set (rows := map (fun r => (Date r, Machine_Name r, row_speed_loss r, Shift r))
                   data).
  assert (Hzip : zip (zip (zip (map Date data) (map Machine_Name data))
                          (map row_speed_loss data)) (map Shift data)
                 = rows).
  { subst rows.
    rewrite (zip_with_map_same pair Date Machine_Name).
    rewrite (zip_with_map_same pair
               (fun x => (Date x, Machine_Name x)) row_speed_loss).
    rewrite (zip_with_map_same pair
               (fun x => (Date x, Machine_Name x, row_speed_loss x)) Shift).
    reflexivity. }
  assert (Hfin : Forall (fun r => finite_nonneg (key r)) rows).
  { subst rows. apply Forall_map. eapply Forall_impl; [exact Hvals|].
    intros r (v & Hv & Hlo & _). exists v. split; [exact Hv|lra]. }
  set (ordered := fold_right (Frame.insert_desc key) [] rows).
  assert (Hperm : Permutation ordered rows) by apply insertion_perm.
  assert (Hfin' : Forall (fun r => finite_nonneg (key r)) ordered)
    by (rewrite Hperm; exact Hfin).
  destruct (finite_values key ordered Hfin') as [Hkeys _].
  set (sorted := map (fun r => value (key r)) ordered) in *.
  assert (Hw : DetailedOEEAnalysis.worst_speed_frame (map Date data)
                 (map Machine_Name data) (map row_speed_loss data)
                 (map Shift data) !! "Speed_Loss_Percent"
               = Some (NumSeries (map Fin (take 10 sorted)))).
  { unfold DetailedOEEAnalysis.worst_speed_frame. cbv zeta.
    rewrite Hzip. fold key. rewrite (sort_desc_finite key rows Hfin).
    fold ordered.
    rewrite !lookup_insert_ne by discriminate. rewrite lookup_insert_eq.
    rewrite <- (firstn_map Fin), <- Hkeys, (firstn_map key). reflexivity. }
  destruct (heap_analysed d
              (<["Speed_Loss_Percent" := NumSeries (map row_speed_loss data)]> t)
              (DetailedOEEAnalysis.speed_loss_frame sqrt (map Machine_Name data)
                 (map row_speed_loss data) (ideal_col data)
                 (map (fun r => Fin (Actual_Cycle_Time r)) data) units)
              (DetailedOEEAnalysis.worst_speed_frame (map Date data)
                 (map Machine_Name data) (map row_speed_loss data)
                 (map Shift data))
              s Hlt) as (Hd' & _ & _ & Hworst).
  eexists _, _, _, _. exists sorted.
  split; [exact Hrun|]. split; [exact Hd'|]. split; [exact Hvals|].
  split; [exact Hworst|].
  split.
  { rewrite <- Hkeys.
    replace (map row_speed_loss data) with (map key rows)
      by (subst rows; rewrite map_map; reflexivity).
    apply Permutation_map, Hperm. }
  split; [apply insertion_descending, Hfin|].
  split; [exact Hw|].
  rewrite length_take. subst sorted. rewrite length_map.
  rewrite (Permutation_length Hperm). subst rows. rewrite length_map.
  reflexivity.
Qed.

(** X17 on the analyzer's results for [record_typical]. *)
Lemma speed_loss_on_simulator_output_witness :
  exists (summary worst : loc) (s' : State) (w : DataFrame) (sorted : list Q),
    DetailedOEEAnalysis.speed_loss_analysis (fun x => x)
      (DetailedOEEAnalysis.mk (Some 1%nat) (Some 0%nat)) state_typical
    = Some ((summary, worst), s') /\
    heap s' !! 1%nat
    = Some (<["Speed_Loss_Percent" :=
                NumSeries (map row_speed_loss [record_typical])]>
              (oee_table_of [record_typical])) /\
    Forall (fun r => exists v, row_speed_loss r = Fin v /\
                               139 # 25 <= v /\ v <= 68) [record_typical] /\
    heap s' !! worst = Some w /\
    Permutation (map Fin sorted) (map row_speed_loss [record_typical]) /\
    descending sorted /\
    w !! "Speed_Loss_Percent" = Some (NumSeries (map Fin (take 10 sorted))) /\
    length (take 10 sorted) = Nat.min 10 (length [record_typical]).
Proof.
  apply (speed_loss_on_simulator_output (fun x => x) 1%nat (Some 0%nat)
           state_typical (oee_table_of [record_typical]) [record_typical]
           [Fin 7580]).
  - constructor; [exact emitted_typical|constructor].
  - reflexivity.
  - reflexivity.
  - reflexivity.
  - reflexivity.
  - reflexivity.
  - reflexivity.
  - reflexivity.
Defined.

Section DefectRate.



End DefectRate.



(* ===================================================================== *)
(** * Least, mean and greatest value of a group *)
(* ===================================================================== *)

Section Extremes.









End Extremes.

Section ExtremeColumns.


End ExtremeColumns.



(* ===================================================================== *)
(** * What the downtime summary accounts for *)
(* ===================================================================== *)

Section Tenths.










End Tenths.



(* ===================================================================== *)
(** * The order in which the analyzers are built *)
(* ===================================================================== *)

(** X21.  The loss analyzer and the improvement plan bind the analyzer's
    results when they are constructed.  After the simulator has run on a
    fresh analyzer: a [DetailedOEEAnalysis] built before
    [calculate_oee_metrics] holds no results, so its speed-loss and
    quality-loss analyses raise even once the calculator has run, while its
    downtime analysis works (it reads the raw table the analyzer still
    shares); [OEEImprovementPlan] cannot be built at all before the
    calculator has run.  Built after the calculator, both work. *)
Theorem analyzers_bind_results_when_built :
  forall (sqrt : Q -> Q) (draws : list Draws) (s : State) (df : loc)
         (s1 : State),
    oee_results (analyzer s) = None ->
    generate_production_data draws s = Some (df, s1) ->
    exists (early late : DetailedOEEAnalysis.t) (s2 : State),
      DetailedOEEAnalysis.init s1 = Some (early, s1) /\
      OEEImprovementPlan.init s1 = None /\
      calculate_oee_metrics df s1 = Some (df, s2) /\
      DetailedOEEAnalysis.speed_loss_analysis sqrt early s2 = None /\
      DetailedOEEAnalysis.quality_loss_analysis sqrt early s2 = None /\
      is_Some (DetailedOEEAnalysis.downtime_pareto_analysis early s2) /\
      DetailedOEEAnalysis.init s2 = Some (late, s2) /\
      is_Some (DetailedOEEAnalysis.speed_loss_analysis sqrt late s2) /\
      is_Some (DetailedOEEAnalysis.quality_loss_analysis sqrt late s2) /\
      is_Some (DetailedOEEAnalysis.downtime_pareto_analysis late s2) /\
      is_Some (OEEImprovementPlan.init s2).
Proof.
  intros sqrt draws s df s1 Hnone Hgen.
  apply generate_production_data_run in Hgen.
  destruct Hgen as (data & Hrows & Hne & -> & ->).
  destruct data as [|r data]; [contradiction|].
  set (rows := r :: data) in *.
  set (p := length (heap s)).
  set (t := oee_table_of rows).
  set (s2 := calculated p t (generated rows s)).
  destruct (oee_table_of_read r data) as (HDate & HShift & HMach & HDown & HUnits & HDef).
  destruct (oee_table_of_cycle r data) as (HPlan & HIdeal & HActual).
  destruct (oee_table_of_columns rows) as (HA & HP & HQ & HO).
  fold rows in HDate, HShift, HMach, HDown, HUnits, HDef, HPlan, HIdeal, HActual.
  fold t in HDate, HShift, HMach, HDown, HUnits, HDef, HPlan, HIdeal, HActual,
           HA, HP, HQ, HO.
  assert (HDR : t !! "Downtime_Reason"
                = Some (StrSeries (map Downtime_Reason rows))).
  { subst t. rewrite oee_table_of_inputs
      by (simpl; intros H; repeat (destruct H as [H|H]; [discriminate|]);
          exact H).
    apply DataFrame_of_cons. }
  assert (Hp2 : heap s2 !! p = Some t)
    by (eapply heap_calculated; apply heap_generated).
  assert (Hsnap : heap s2 !! S p = Some t).
  { subst s2.
    replace (S p) with (length (heap (generated rows s)))
      by (unfold generated; simpl; rewrite length_app; simpl; subst p; lia).
    apply heap_calculated_copy. }
  assert (Hres2 : oee_results (analyzer s2) = Some (S p)).
  { simpl. rewrite length_app. simpl. f_equal. subst p. lia. }
  exists (DetailedOEEAnalysis.mk None (Some p)),
         (DetailedOEEAnalysis.mk (Some (S p)) (Some p)), s2.
  split.
  { rewrite detailed_init_run. simpl. rewrite Hnone. reflexivity. }
  split.
  { unfold OEEImprovementPlan.init, bind, Py.get_analyzer. simpl.
    rewrite Hnone. reflexivity. }
  split; [apply calculate_batch; [exact Hne|apply heap_generated]|].
  split; [reflexivity|]. split; [reflexivity|].
  split.
  { destruct (downtime_pareto_analysis_run
                (DetailedOEEAnalysis.mk None (Some p)) s2 p t _ _ _
                eq_refl Hp2 HDown HDR HMach) as (s' & Hrun & _).
    eexists. exact Hrun. }
  split.
  { rewrite detailed_init_run. rewrite Hres2. reflexivity. }
  split.
  { destruct (speed_loss_analysis_run sqrt (S p) (Some p) s2 t _ _ _ _ _ _
                Hsnap HActual HIdeal HUnits HMach HDate HShift)
      as (summary & worst & Hrun).
    eexists. exact Hrun. }
  split.
  { destruct (quality_loss_analysis_run sqrt (S p) (Some p) s2 t _ _ _ _ _
                Hsnap HDef HUnits HQ HMach HShift)
      as (summary & by_shift & Hrun).
    eexists. exact Hrun. }
  split.
  { destruct (downtime_pareto_analysis_run
                (DetailedOEEAnalysis.mk (Some (S p)) (Some p)) s2 p t _ _ _
                eq_refl Hp2 HDown HDR HMach) as (s' & Hrun & _).
    eexists. exact Hrun. }
  eexists. eapply plan_init_run; [exact Hres2|exact Hsnap|exact HO].
Qed.

(** X21 for one ordinary attempt, from the initial state. *)
Lemma analyzers_bind_results_when_built_witness :
  exists (early late : DetailedOEEAnalysis.t) (s2 : State),
    DetailedOEEAnalysis.init (generated [record_typical] init_state)
    = Some (early, generated [record_typical] init_state) /\
    OEEImprovementPlan.init (generated [record_typical] init_state) = None /\
    calculate_oee_metrics 0%nat (generated [record_typical] init_state)
    = Some (0%nat, s2) /\
    DetailedOEEAnalysis.speed_loss_analysis (fun x => x) early s2 = None /\
    DetailedOEEAnalysis.quality_loss_analysis (fun x => x) early s2 = None /\
    is_Some (DetailedOEEAnalysis.downtime_pareto_analysis early s2) /\
    DetailedOEEAnalysis.init s2 = Some (late, s2) /\
    is_Some (DetailedOEEAnalysis.speed_loss_analysis (fun x => x) late s2) /\
    is_Some (DetailedOEEAnalysis.quality_loss_analysis (fun x => x) late s2) /\
    is_Some (DetailedOEEAnalysis.downtime_pareto_analysis late s2) /\
    is_Some (OEEImprovementPlan.init s2).
Proof.
  apply (analyzers_bind_results_when_built (fun x => x) [draws_typical]
           init_state 0%nat (generated [record_typical] init_state)).
  - reflexivity.
  - reflexivity.
Defined.

(* ===================================================================== *)
(** * A machine with a single record *)
(* ===================================================================== *)

Section SingleRecord.

Variable sqrt : Q -> Q.





End SingleRecord.



(* ===================================================================== *)
(** * The rows of the per-machine and per-shift tables *)
(* ===================================================================== *)

Section TableRows.

Lemma names_of_emitted (r : ProductionRecord) :
  emitted r ->
  In (Machine_Name r) machines_sorted /\ In (Shift r) shifts_sorted.
Proof.
  intros Hr. apply emitted_from_draw in Hr. destruct Hr as (d & _ & H).
  unfold generate_record in H.
  destruct (_ && _); [discriminate|].
  destruct (Rat.eqb (cycle_draw d) 0); [discriminate|].
  injection H as <-. simpl. split.
  - destruct (machine_draw d); simpl; auto.
  - destruct (shift_draw d); simpl; auto.
Qed.

(** The keys of a grouping of records by a name that ranges over
    [names]. *)
Lemma group_keys_of (name : ProductionRecord -> string) (names : list string)
    (data : list ProductionRecord) :
  Forall (fun r => In (name r) names) data ->
  let keys := Frame.group_keys (map name data) in
  increasing keys /\
  incl keys names /\
  (length keys <= length names)%nat /\
  (forall k, In k keys <-> exists r, In r data /\ name r = k).
Proof.
  intros Hall. cbv zeta.
  assert (Hin : forall k, In k (Frame.group_keys (map name data)) <->
                          exists r, In r data /\ name r = k).
  { intros k. rewrite group_keys_in, in_map_iff.
    split; intros (r & H1 & H2); exists r; auto. }
  assert (Hincl : incl (Frame.group_keys (map name data)) names).
  { intros k Hk. apply (proj1 (Hin k)) in Hk. destruct Hk as (r & Hr & <-).
    rewrite List.Forall_forall in Hall. apply Hall, Hr. }
  split; [apply group_keys_increasing|]. split; [exact Hincl|].
  split; [|exact Hin].
  apply NoDup_incl_length; [|exact Hincl].
  apply increasing_NoDup, group_keys_increasing.
Qed.

End TableRows.

(** X23.  On a table holding the calculator's results for simulator
    output, [machine_wise_analysis] returns one row for every machine that
    has a record, in alphabetical order: at most four rows, among Conveyor,
    Filler, Mixer and Packer; [shift_wise_analysis] likewise returns one row
    for every shift that has a record: at most three, among Afternoon,
    Morning and Night. *)
Theorem group_tables_rows :
  forall (sqrt : Q -> Q) (df : loc) (s : State) (t : DataFrame)
         (data : list ProductionRecord)
         (oee availability performance quality units defective downtime
          : list num),
    Forall emitted data ->
    heap s !! df = Some t ->
    t !! "Machine_Name" = Some (StrSeries (map Machine_Name data)) ->
    t !! "Shift" = Some (StrSeries (map Shift data)) ->
    t !! "OEE" = Some (NumSeries oee) ->
    t !! "Availability" = Some (NumSeries availability) ->
    t !! "Performance" = Some (NumSeries performance) ->
    t !! "Quality" = Some (NumSeries quality) ->
    t !! "Total_Units_Produced" = Some (NumSeries units) ->
    t !! "Defective_Units" = Some (NumSeries defective) ->
    t !! "Downtime_Minutes" = Some (NumSeries downtime) ->
    exists (s1 s2 : State) (by_machine by_shift : DataFrame)
           (machines shifts : list string),
      machine_wise_analysis sqrt df s = Some (length (heap s), s1) /\
      heap s1 !! length (heap s) = Some by_machine /\
      by_machine !! "Machine_Name" = Some (StrSeries machines) /\
      increasing machines /\
      incl machines machines_sorted /\
      (length machines <= 4)%nat /\
      (forall k, In k machines <->
                 exists r, In r data /\ Machine_Name r = k) /\
      shift_wise_analysis df s = Some (length (heap s), s2) /\
      heap s2 !! length (heap s) = Some by_shift /\
      by_shift !! "Shift" = Some (StrSeries shifts) /\
      increasing shifts /\
      incl shifts shifts_sorted /\
      (length shifts <= 3)%nat /\
      (forall k, In k shifts <-> exists r, In r data /\ Shift r = k).
Proof.
  intros sqrt df s t data oee av pf ql units defective downtime
         Hem Hl Hm Hs Ho Ha Hp Hq Hu Hdef Hd.
  destruct (group_keys_of Machine_Name machines_sorted data)
    as (Hm1 & Hm2 & Hm3 & Hm4).
  { eapply Forall_impl; [exact Hem|]. intros r Hr.
    apply (names_of_emitted r Hr). }
  destruct (group_keys_of Shift shifts_sorted data)
    as (Hs1 & Hs2 & Hs3 & Hs4).
  { eapply Forall_impl; [exact Hem|]. intros r Hr.
    apply (names_of_emitted r Hr). }
  eexists _, _, _, _.
  exists (Frame.group_keys (map Machine_Name data)),
         (Frame.group_keys (map Shift data)).
  split; [eapply machine_wise_analysis_run; eassumption|].
  split; [apply heap_with_new_last|].
  split; [apply lookup_insert_eq|].
  split; [exact Hm1|]. split; [exact Hm2|]. split; [exact Hm3|].
  split; [exact Hm4|].
  split; [eapply shift_wise_analysis_run; eassumption|].
  split; [apply heap_with_new_last|].
  split; [apply lookup_insert_eq|].
  split; [exact Hs1|]. split; [exact Hs2|]. split; [exact Hs3|].
  exact Hs4.
Qed.

(** X23 on the state the calculator leaves for [record_typical]. *)
Lemma group_tables_rows_witness :
  exists (s1 s2 : State) (by_machine by_shift : DataFrame)
         (machines shifts : list string),
    machine_wise_analysis (fun x => x) 0%nat state_typical
    = Some (length (heap state_typical), s1) /\
    heap s1 !! length (heap state_typical) = Some by_machine /\
    by_machine !! "Machine_Name" = Some (StrSeries machines) /\
    increasing machines /\
    incl machines machines_sorted /\
    (length machines <= 4)%nat /\
    (forall k, In k machines <->
               exists r, In r [record_typical] /\ Machine_Name r = k) /\
    shift_wise_analysis 0%nat state_typical
    = Some (length (heap state_typical), s2) /\
    heap s2 !! length (heap state_typical) = Some by_shift /\
    by_shift !! "Shift" = Some (StrSeries shifts) /\
    increasing shifts /\
    incl shifts shifts_sorted /\
    (length shifts <= 3)%nat /\
    (forall k, In k shifts <-> exists r, In r [record_typical] /\ Shift r = k).
Proof.
  apply (group_tables_rows (fun x => x) 0%nat state_typical
           (oee_table_of [record_typical]) [record_typical]
           (map (fun r => Num.clip_upper 100 (row_oee r)) [record_typical])
           (map (fun r => Num.clip_upper 100 (row_availability r))
                [record_typical])
           (map (fun r => Num.clip_upper 100 (row_performance r))
                [record_typical])
           (map (fun r => Num.clip_upper 100 (row_quality r))
                [record_typical])
           [Fin 7580] [Fin 151] [Fin 41]).
  - constructor; [exact emitted_typical|constructor].
  - reflexivity.
  - reflexivity.
  - reflexivity.
  - reflexivity.
  - reflexivity.
  - reflexivity.
  - reflexivity.
  - reflexivity.
  - reflexivity.
  - reflexivity.
Defined.

(* ===================================================================== *)
(** * The rows of the monthly table *)
(* ===================================================================== *)

Section Months.

(** The first seven characters of the date of an emitted record name a
    month of July to December 2025. *)
Lemma month_of_emitted (r : ProductionRecord) :
  emitted r -> In (String.substring 0 7 (Date r)) months_2025.
Proof.
  intros Hr. apply emitted_from_draw in Hr.
  destruct Hr as (d & [Hoff _ _ _] & H).
  unfold generate_record in H.
  destruct (_ && _); [discriminate|].
  destruct (Rat.eqb (cycle_draw d) 0); [discriminate|].
  injection H as <-. cbn [Date].
  pose proof (second_half_2025_range _ Hoff) as Hok.
  unfold second_half_2025 in Hok. unfold Calendar.strftime.
  destruct (Calendar.civil (Calendar.start_date + days_offset d))
    as [[y m] dd].
  rewrite !andb_true_iff in Hok.
  destruct Hok as ((((Hy & Hm1) & Hm2) & _) & _).
  apply Z.eqb_eq in Hy. apply Z.leb_le in Hm1, Hm2. subst y.
  assert (Hm : (m = 7 \/ m = 8 \/ m = 9 \/ m = 10 \/ m = 11 \/ m = 12)%Z)
    by lia.
  unfold months_2025.
  destruct Hm as [->|[->|[->|[->|[->| ->]]]]]; simpl; auto 10.
Qed.

End Months.

(** X24.  [monthly_trend_analysis] on a table holding the calculator's
    results for simulator output, with a date parser that gives each date
    its first seven characters as the month: the table it returns has one
    row for every month that has a record, in calendar order, at most six,
    from 2025-07 to 2025-12, and its Total_Units_Produced add up to the
    units of the whole table. *)
Theorem monthly_rows_on_simulator_output :
  forall (to_period : string -> option string) (df : loc) (s : State)
         (t : DataFrame) (data : list ProductionRecord)
         (oee availability performance quality downtime : list num),
    Forall emitted data ->
    (forall r, In r data ->
               to_period (Date r) = Some (String.substring 0 7 (Date r))) ->
    heap s !! df = Some t ->
    t !! "Date" = Some (StrSeries (map Date data)) ->
    t !! "OEE" = Some (NumSeries oee) ->
    t !! "Availability" = Some (NumSeries availability) ->
    t !! "Performance" = Some (NumSeries performance) ->
    t !! "Quality" = Some (NumSeries quality) ->
    t !! "Total_Units_Produced" = Some (NumSeries (units_col data)) ->
    t !! "Downtime_Minutes" = Some (NumSeries downtime) ->
    exists (s1 : State) (monthly : DataFrame) (months : list string)
           (totals : list Z),
      monthly_trend_analysis to_period df s = Some (length (heap s), s1) /\
      heap s1 !! length (heap s) = Some monthly /\
      monthly !! "YearMonth" = Some (StrSeries months) /\
      increasing months /\
      incl months months_2025 /\
      (length months <= 6)%nat /\
      (forall k, In k months <->
                 exists r, In r data /\ String.substring 0 7 (Date r) = k) /\
      monthly !! "Total_Units_Produced"
      = Some (NumSeries (map Num.of_Z totals)) /\
      total totals = total (map Total_Units_Produced data).
Proof.
  intros to_period df s t data oee av pf ql downtime
         Hem Hparse Hl Hdate Ho Ha Hp Hq Hu Hd.
  set (month := fun r => String.substring 0 7 (Date r)).
  assert (Hmonths : Forall2 (fun d m => to_period d = Some m)
                      (map Date data) (map month data)).
  { clear -Hparse. induction data as [|r data IH]; [constructor|].
    simpl. constructor.
    - apply Hparse. left. reflexivity.
    - apply IH. intros r' Hr'. apply Hparse. right. exact Hr'. }
  destruct (group_keys_of month months_2025 data)
    as (H1 & H2 & H3 & H4).
  { eapply Forall_impl; [exact Hem|]. intros r Hr.
    apply (month_of_emitted r Hr). }
  pose proof (monthly_trend_analysis_run to_period df s t _ _ _ _ _ _ _ _
                Hl Hdate Hmonths Ho Ha Hp Hq Hu Hd) as Hrun.
  eexists _, _. exists (Frame.group_keys (map month data)).
  exists (map (fun k => total (Frame.group (map month data) k
                                 (map Total_Units_Produced data)))
              (Frame.group_keys (map month data))).
  split; [exact Hrun|].
  split.
  { rewrite <- (length_with_frame df
                  (<["YearMonth" := StrSeries (map month data)]> t) s).
    apply heap_with_new_last. }
  split; [apply lookup_insert_eq|].
  split; [exact H1|]. split; [exact H2|]. split; [exact H3|].
  split; [exact H4|].
  split.
  { unfold trend_frame. cbv zeta.
    rewrite !lookup_insert_ne by discriminate.
    rewrite lookup_insert_eq. unfold units_col.
    rewrite <- (map_map Total_Units_Produced Num.of_Z data), sum_aggregate.
    reflexivity. }
  apply group_keys_totals. rewrite !length_map. reflexivity.
Qed.

(** X24 on the state the calculator leaves for [record_typical]. *)
Lemma monthly_rows_on_simulator_output_witness :
  exists (s1 : State) (monthly : DataFrame) (months : list string)
         (totals : list Z),
    monthly_trend_analysis month_prefix 0%nat state_typical
    = Some (length (heap state_typical), s1) /\
    heap s1 !! length (heap state_typical) = Some monthly /\
    monthly !! "YearMonth" = Some (StrSeries months) /\
    increasing months /\
    incl months months_2025 /\
    (length months <= 6)%nat /\
    (forall k, In k months <->
               exists r, In r [record_typical] /\
                         String.substring 0 7 (Date r) = k) /\
    monthly !! "Total_Units_Produced"
    = Some (NumSeries (map Num.of_Z totals)) /\
    total totals = total (map Total_Units_Produced [record_typical]).
Proof.
  apply (monthly_rows_on_simulator_output month_prefix 0%nat state_typical
           (oee_table_of [record_typical]) [record_typical]
           (map (fun r => Num.clip_upper 100 (row_oee r)) [record_typical])
           (map (fun r => Num.clip_upper 100 (row_availability r))
                [record_typical])
           (map (fun r => Num.clip_upper 100 (row_performance r))
                [record_typical])
           (map (fun r => Num.clip_upper 100 (row_quality r))
                [record_typical])
           [Fin 41]).
  - constructor; [exact emitted_typical|constructor].
  - intros r _. reflexivity.
  - reflexivity.
  - reflexivity.
  - reflexivity.
  - reflexivity.
  - reflexivity.
  - reflexivity.
  - reflexivity.
  - reflexivity.
Defined.
